(** * Drone scheduling harness: shallow embedding and verified properties

    The development follows [work_dir/udp_test_receiver.cpp] (the final
    version of the harness) and, where they differ, the sibling variants
    [work_dir/data_collector.cpp] and [work_dir/phase4.cpp].

    - C++ [float] is IEEE-754 binary32, modelled with the parameterised
      operations of [SpecFloat] at precision 24 and maximal exponent 128
      (round to nearest, ties to even).  Every arithmetic operation rounds
      on its own, as the source writes it (no fused multiply-add), and
      [abs] on a [float] is [std::abs(float)].
    - C++ [long] and the tick counts of [std::chrono] are 64-bit two's
      complement integers (LP64), modelled as [Z] with the wrap written out.
    - What a task reads from outside (the clock, [recvfrom],
      [get_kernel_preemptions]) is an argument of its loop.
    - Every critical section is a pure function on the records it guards;
      a loop is a program in a small state monad whose log records the
      lock, sleep, receive and notify operations in program order.
    - [std::mutex] is not recursive: a thread that locks a mutex it owns
      (undefined by the standard) blocks for good, as it does with the
      default mutex of the platform; its log ends with that lock. *)

From Stdlib Require Import ZArith List String Ascii Bool Lia QArith.
From Stdlib Require Import Floats.SpecFloat.
Import ListNotations.

Local Open Scope Z_scope.

(** ** IEEE-754 binary32 *)

Module F32.

Definition prec : Z := 24.
Definition emax : Z := 128.

Definition float : Type := spec_float.

Definition add : float -> float -> float := SFadd prec emax.
Definition sub : float -> float -> float := SFsub prec emax.
Definition mul : float -> float -> float := SFmul prec emax.
Definition div : float -> float -> float := SFdiv prec emax.
Definition ltb : float -> float -> bool := SFltb.
Definition leb : float -> float -> bool := SFleb.
Definition eqb : float -> float -> bool := SFeqb.

(** [std::abs(float)]: clears the sign. *)
Definition abs : float -> float := SFabs.

(** Conversion of an integer, as in the assignment [throttle = 0]. *)
Definition of_Z (z : Z) : float := binary_normalize prec emax z 0 false.

(** The value a decimal literal [n/d] denotes: the nearest binary32. *)
Definition of_decimal (n d : Z) : float := div (of_Z n) (of_Z d).

Definition valid (x : float) : bool := valid_binary prec emax x.

Definition is_nan (x : float) : bool :=
  match x with S754_nan => true | _ => false end.

(** A number below zero: negative finite or minus infinity. *)
Definition is_negative (x : float) : bool :=
  match x with
  | S754_finite true _ _ | S754_infinity true => true
  | _ => false
  end.

(** [std::min(a, b)] is [(b < a) ? b : a]; [std::max(a, b)] is
    [(a < b) ? b : a]. *)
Definition min (a b : float) : float := if ltb b a then b else a.
Definition max (a b : float) : float := if ltb a b then b else a.

(** The literals of the sources. *)
Definition zero : float := S754_zero false.
Definition one : float := S754_finite false 8388608 (-23).
Definition f0_25 : float := S754_finite false 8388608 (-25).
Definition f9_81 : float := S754_finite false 10286531 (-20).
Definition f0_005 : float := S754_finite false 10737418 (-31).
Definition f0_01 : float := S754_finite false 10737418 (-30).
Definition f10 : float := S754_finite false 10485760 (-20).
Definition f15 : float := S754_finite false 15728640 (-20).
Definition f100 : float := S754_finite false 13107200 (-17).

(** Exact rational value of a finite float. *)
Definition to_Q (x : float) : option Q :=
  match x with
  | S754_zero _ => Some 0%Q
  | S754_finite s m e =>
      let a := if s then Z.neg m else Z.pos m in
      Some (match e with
            | Z0 => inject_Z a
            | Zpos p => inject_Z (a * 2 ^ Zpos p)
            | Zneg p => Qmake a (2 ^ p)
            end)
  | _ => None
  end.

(** [lo <= x <= hi] for the exact value of a finite [x]. *)
Definition within (lo hi : Q) (x : float) : Prop :=
  exists q, to_Q x = Some q /\ (lo <= q)%Q /\ (q <= hi)%Q.

End F32.

(** ** 64-bit [long] *)

Module Long.

Definition bits : Z := 64.
Definition min_value : Z := - 2 ^ 63.
Definition max_value : Z := 2 ^ 63 - 1.

Definition in_range (z : Z) : Prop := min_value <= z <= max_value.

(** Two's complement wrap-around of an out-of-range result.  Signed
    overflow is undefined in C++; whatever is proved below about a sum
    under an [in_range] hypothesis does not depend on this choice. *)
Definition wrap (z : Z) : Z := (z + 2 ^ 63) mod 2 ^ 64 - 2 ^ 63.

Definition add (a b : Z) : Z := wrap (a + b).
Definition sub (a b : Z) : Z := wrap (a - b).

(** [a / b] truncates toward zero. *)
Definition div (a b : Z) : Z := wrap (Z.quot a b).

Definition incr (a : Z) : Z := add a 1.

End Long.

(** ** Shared drone state ([struct DroneState]) *)

Record DroneState : Type := mkDroneState {
  throttle : F32.float;
  pitch : F32.float;
  roll : F32.float;
  yaw : F32.float;
  altitude : F32.float;
  velocity : F32.float;
  emergency_triggered : bool
}.

(** The default member initialisers. *)
Definition DroneState_init : DroneState :=
  mkDroneState F32.zero F32.zero F32.zero F32.zero F32.zero F32.zero false.

Definition set_throttle (v : F32.float) (s : DroneState) : DroneState :=
  mkDroneState v (pitch s) (roll s) (yaw s) (altitude s) (velocity s)
               (emergency_triggered s).
Definition set_pitch (v : F32.float) (s : DroneState) : DroneState :=
  mkDroneState (throttle s) v (roll s) (yaw s) (altitude s) (velocity s)
               (emergency_triggered s).
Definition set_roll (v : F32.float) (s : DroneState) : DroneState :=
  mkDroneState (throttle s) (pitch s) v (yaw s) (altitude s) (velocity s)
               (emergency_triggered s).
Definition set_yaw (v : F32.float) (s : DroneState) : DroneState :=
  mkDroneState (throttle s) (pitch s) (roll s) v (altitude s) (velocity s)
               (emergency_triggered s).
Definition set_altitude (v : F32.float) (s : DroneState) : DroneState :=
  mkDroneState (throttle s) (pitch s) (roll s) (yaw s) v (velocity s)
               (emergency_triggered s).
Definition set_velocity (v : F32.float) (s : DroneState) : DroneState :=
  mkDroneState (throttle s) (pitch s) (roll s) (yaw s) (altitude s) v
               (emergency_triggered s).
Definition set_emergency_triggered (b : bool) (s : DroneState) : DroneState :=
  mkDroneState (throttle s) (pitch s) (roll s) (yaw s) (altitude s)
               (velocity s) b.

(** ** Locks, observable operations and programs *)

Inductive Mutex : Type :=
  state_mutex | stats_mutex | console_mutex | emergency_mutex.

Definition Mutex_eqb (a b : Mutex) : bool :=
  match a, b with
  | state_mutex, state_mutex | stats_mutex, stats_mutex
  | console_mutex, console_mutex | emergency_mutex, emergency_mutex => true
  | _, _ => false
  end.

(** What a task does besides reading and writing the shared records.
    Durations are in nanoseconds, deadlines are steady-clock tick counts. *)
Inductive Event : Type :=
| Lock (m : Mutex)
| Unlock (m : Mutex)
| SleepFor (ns : Z)
| SleepUntil (deadline : Z)
| WaitEmergency
| NotifyOne
| RecvFrom
| Console (text : string)
| Timeline (thread event : string) (preempt_count : Z)
| Shell (cmd : string)
| Exit (code : Z).

Definition is_sleep (e : Event) : bool :=
  match e with SleepFor _ | SleepUntil _ => true | _ => false end.

Definition is_recv (e : Event) : bool :=
  match e with RecvFrom => true | _ => false end.

(** The locks a thread owns after each operation of its log. *)
Definition held_step (held : list Mutex) (e : Event) : list Mutex :=
  match e with
  | Lock m => m :: held
  | Unlock m => filter (fun x => negb (Mutex_eqb x m)) held
  | _ => held
  end.

Definition owns (m : Mutex) (held : list Mutex) : bool :=
  existsb (Mutex_eqb m) held.

Definition owns_both (held : list Mutex) : bool :=
  owns state_mutex held && owns stats_mutex held.

(** No point of the log at which [state_mutex] and [stats_mutex] are both
    owned. *)
Fixpoint never_both (held : list Mutex) (log : list Event) : bool :=
  negb (owns_both held) &&
  match log with
  | [] => true
  | e :: rest => never_both (held_step held e) rest
  end.

(** The locks owned at the end of a log. *)
Definition held_after (held : list Mutex) (log : list Event) : list Mutex :=
  fold_left held_step log held.

(** Every sleep of the log happens while the thread owns no mutex. *)
Fixpoint sleeps_unlocked (held : list Mutex) (log : list Event) : bool :=
  match log with
  | [] => true
  | e :: rest =>
      (negb (is_sleep e) || match held with [] => true | _ => false end)
      && sleeps_unlocked (held_step held e) rest
  end.

(** Some [Lock m] is issued while [m] is already owned by the thread. *)
Fixpoint relocks (held : list Mutex) (log : list Event) : bool :=
  match log with
  | [] => false
  | e :: rest =>
      match e with Lock m => owns m held | _ => false end
      || relocks (held_step held e) rest
  end.



Definition is_exit (e : Event) : bool :=
  match e with Exit _ => true | _ => false end.

(** Whether a thread function whose operations are [log] gets to its end:
    it does not when it is left in the wait on the condition variable, at
    the lock of a mutex it owns, or in [exit]. *)
Definition returns (log : list Event) : bool :=
  negb (relocks [] log) &&
  match last log RecvFrom with
  | WaitEmergency | Exit _ => false
  | _ => true
  end.

Module Prog.

(** A program over memory [S]: it returns a value, the new memory and
    the operations it performed, oldest first, appended to the log. *)
Definition t (S A : Type) : Type := S -> list Event -> A * S * list Event.

Definition ret {S A} (a : A) : t S A := fun s l => (a, s, l).

Definition bind {S A B} (c : t S A) (k : A -> t S B) : t S B :=
  fun s l => let '(a, s', l') := c s l in k a s' l'.

Definition emit {S} (e : Event) : t S unit := fun s l => (tt, s, l ++ [e]).

Definition get {S} : t S S := fun s l => (s, s, l).

Definition modify {S} (f : S -> S) : t S unit := fun s l => (tt, f s, l).

(** The scope of a [std::lock_guard]. *)
Definition with_lock {S A} (m : Mutex) (body : t S A) : t S A :=
  bind (emit (Lock m)) (fun _ =>
  bind body (fun r =>
  bind (emit (Unlock m)) (fun _ => ret r))).

Definition when {S} (b : bool) (c : t S unit) : t S unit :=
  if b then c else ret tt.

Definition result {S A} (c : t S A) (s : S) : A := fst (fst (c s [])).
Definition memory {S A} (c : t S A) (s : S) : S := snd (fst (c s [])).
Definition log {S A} (c : t S A) (s : S) : list Event := snd (c s []).

(** From a memory satisfying [P] the program returns a value and a memory
    related by [Q], whatever log it continues. *)
Definition hoare {S A} (P : S -> Prop) (c : t S A) (Q : A -> S -> Prop)
  : Prop :=
  forall s l, P s -> Q (fst (fst (c s l))) (snd (fst (c s l))).

(** A program that only appends to its log, and appends a log satisfying
    [G] whatever the memory. *)
Definition logs {S A} (G : list Event -> Prop) (c : t S A) : Prop :=
  (forall s l, c s l = (fst (fst (c s [])), snd (fst (c s [])),
                        l ++ snd (c s []))) /\
  forall s, G (snd (c s [])).

(** A program that only appends to the log it is given. *)
Definition uniform {S A} (c : t S A) : Prop :=
  forall s l, c s l = (result c s, memory c s, l ++ log c s).

End Prog.

Declare Scope prog_scope.
Delimit Scope prog_scope with prog.
Notation "x <- c ;; k" := (Prog.bind c (fun x => k))
  (at level 61, c at next level, right associativity) : prog_scope.
Notation "c ;; k" := (Prog.bind c (fun _ => k))
  (at level 61, right associativity) : prog_scope.

Local Open Scope string_scope.
Local Open Scope Z_scope.
Local Open Scope prog_scope.

(** [std::string cmd(buffer)] after [buffer[n] = 0]: the bytes of the
    datagram up to its first NUL. *)
Fixpoint c_string (buffer : string) : string :=
  match buffer with
  | EmptyString => EmptyString
  | String c rest =>
      if Ascii.eqb c Ascii.zero then EmptyString else String c (c_string rest)
  end.

(** What [recvfrom] on the non-blocking socket hands back: a datagram of
    [n = length payload] bytes, or [-1] with [errno] telling whether there
    was simply nothing to read ([EAGAIN] / [EWOULDBLOCK]). *)
Inductive RecvResult : Type :=
| Datagram (payload : string)
| Failure (would_block : bool).

Definition recv_n (r : RecvResult) : Z :=
  match r with
  | Datagram payload => Z.of_nat (String.length payload)
  | Failure _ => -1
  end.

(** [char buffer[1024]]. *)
Definition buffer_size : Z := 1024.

(** [n = recvfrom(sockfd, buffer, capacity, ...)] keeps the first
    [capacity] bytes of the datagram; [buffer[n] = 0] then ends the string
    that [string cmd(buffer)] reads.  There is no token when that write
    falls outside the buffer. *)
Definition read_token (capacity : Z) (datagram : string) : option string :=
  let n := Z.min (Z.of_nat (String.length datagram)) capacity in
  if n <? buffer_size
  then Some (c_string (substring 0 (Z.to_nat n) datagram))
  else None.

(** Readings of the clock and of [get_kernel_preemptions] in one cycle of
    the flight loop. *)
Record FlightEnv : Type := mkFlightEnv {
  now_at_check : Z;
  start_time : Z;
  end_time : Z;
  preempts_read : Z
}.

(** [std::chrono::milliseconds(10)] in clock ticks (nanoseconds). *)
Definition period : Z := 10000000.

(** [duration_cast<microseconds>(d).count()] for a nanosecond count. *)
Definition duration_cast_us (ns : Z) : Z := Z.quot ns 1000.

(** [const float dt = 0.01f]. *)
Definition dt : F32.float := F32.f0_01.

(** Lines shared by every variant of the flight loop
    (udp_test_receiver.cpp:127-129, data_collector.cpp:141-151,
    phase4.cpp:81-86). *)
Definition next_deadline (previous : Z) : Z := Long.add previous period.

Definition deadline_missed (now deadline : Z) : bool := deadline <? now.

(** [flight_exec_avg_us = (flight_exec_avg_us + dur) / 2]
    (udp_test_receiver.cpp:166, data_collector.cpp:187, phase4.cpp:102). *)
Definition exec_avg (old_avg dur : Z) : Z := Long.div (Long.add old_avg dur) 2.

(** The physics of the flight critical section, identical in
    udp_test_receiver.cpp:145-156 and data_collector.cpp:169-177.  [abs] is
    [std::abs(float)]; every operation rounds to binary32 on its own. *)
Definition tilt_factor (s : DroneState) : F32.float :=
  F32.sub F32.one
    (F32.mul (F32.add (F32.abs (pitch s)) (F32.abs (roll s))) F32.f0_005).

Definition accel (s : DroneState) : F32.float :=
  let lift := F32.mul (throttle s) F32.f0_25 in
  let gravity := F32.f9_81 in
  F32.sub (F32.mul lift (tilt_factor s)) gravity.

(** The altitude before the ground test. *)
Definition raw_step (s : DroneState) : DroneState :=
  let s := set_velocity (F32.add (velocity s) (F32.mul (accel s) dt)) s in
  set_altitude (F32.add (altitude s) (F32.mul (velocity s) dt)) s.

Definition hits_ground (s : DroneState) : bool :=
  F32.ltb (altitude (raw_step s)) F32.zero.

Definition integrate (s : DroneState) : DroneState :=
  let s' := raw_step s in
  if F32.ltb (altitude s') F32.zero
  then set_velocity F32.zero (set_altitude F32.zero s')
  else s'.

(** [if (emergency_triggered) { throttle = 0; pitch = 0; roll = 0; }] *)
Definition zero_controls (s : DroneState) : DroneState :=
  if emergency_triggered s
  then set_roll F32.zero (set_pitch F32.zero (set_throttle F32.zero s))
  else s.

(** The whole block under [state_mutex]: the test has no [else], the
    integration follows in either case. *)
Definition flight_critical (s : DroneState) : DroneState :=
  integrate (zero_controls s).

(** [throttle = 0; pitch = 0; roll = 0; yaw = 0;] of the shutdown. *)
Definition kill_motors (s : DroneState) : DroneState :=
  set_yaw F32.zero
    (set_roll F32.zero (set_pitch F32.zero (set_throttle F32.zero s))).

(** The [if / else if] chain on the command string
    (udp_test_receiver.cpp:268-297, data_collector.cpp:296-336), as far as
    [DroneState] goes. *)
Definition command_effect (cmd : string) (s : DroneState) : DroneState :=
  if String.eqb cmd "PANIC" then set_emergency_triggered true s
  else if String.eqb cmd "UP"
       then set_throttle (F32.min F32.f100 (F32.add (throttle s) F32.f10)) s
  else if String.eqb cmd "DOWN"
       then set_throttle (F32.max F32.zero (F32.sub (throttle s) F32.f10)) s
  else if String.eqb cmd "FRONT" then set_pitch F32.f15 s
  else if String.eqb cmd "BACK" then set_pitch (SFopp F32.f15) s
  else if String.eqb cmd "LEFT" then set_roll (SFopp F32.f15) s
  else if String.eqb cmd "RIGHT" then set_roll F32.f15 s
  else if String.eqb cmd "STOP" then set_roll F32.zero (set_pitch F32.zero s)
  else s.

Definition commands : list string :=
  ["PANIC"; "UP"; "DOWN"; "FRONT"; "BACK"; "LEFT"; "RIGHT"; "STOP"].

Definition is_command (cmd : string) : bool := existsb (String.eqb cmd) commands.

(** The threads [main] starts and what it asks of the scheduler for them. *)
Inductive Thread : Type :=
  FlightThread | VisionThread | NetworkingThread | EmergencyThread
| MonitorThread.

Inductive Setup : Type :=
| Spawn (th : Thread)
| SetPriority (th : Thread) (prio : Z)
| Complain (th : Thread)
| PinThread (th : Thread) (core : Z)
| Join (th : Thread).

Definition Thread_eqb (a b : Thread) : bool :=
  match a, b with
  | FlightThread, FlightThread | VisionThread, VisionThread
  | NetworkingThread, NetworkingThread | EmergencyThread, EmergencyThread
  | MonitorThread, MonitorThread => true
  | _, _ => false
  end.

(** [int target_core = -1; if (argc > 1 && string(argv[1]) == "1")
    target_core = 0;] - the same lines in the three [main]s. *)
Definition target_core (argv : list string) : Z :=
  match argv with
  | _ :: arg :: _ => if String.eqb arg "1" then 0 else -1
  | _ => -1
  end.

(** The priority requested for a thread, if any, and the core it is pinned
    to, if any (the last request counts). *)
Fixpoint priority_of (th : Thread) (setup : list Setup) : option Z :=
  match setup with
  | [] => None
  | SetPriority th' prio :: rest =>
      match priority_of th rest with
      | Some p => Some p
      | None => if Thread_eqb th th' then Some prio else None
      end
  | _ :: rest => priority_of th rest
  end.

Fixpoint core_of (th : Thread) (setup : list Setup) : option Z :=
  match setup with
  | [] => None
  | PinThread th' core :: rest =>
      match core_of th rest with
      | Some c => Some c
      | None => if Thread_eqb th th' then Some core else None
      end
  | _ :: rest => core_of th rest
  end.

(** [t1.join(); t2.join(); ...]: [main] calls one [join] after the other; a
    call returns when the thread's function has returned, and no later
    [join] is called before. *)
Fixpoint join_all (finishes : Thread -> bool) (threads : list Thread)
  : list Setup :=
  match threads with
  | [] => []
  | th :: rest =>
      Join th :: (if finishes th then join_all finishes rest else [])
  end.

(** ** udp_test_receiver.cpp *)

Module Udp.

Record SystemStats : Type := mkSystemStats {
  flight_loops : Z;
  flight_exec_avg_us : Z;
  flight_preempts : Z;
  flight_deadline_misses : Z;
  net_packets : Z;
  net_preempts : Z;
  vision_fps : Z;
  vision_preempts : Z;
  vision_active : bool;
  emergency_status : string
}.

Definition SystemStats_init : SystemStats :=
  mkSystemStats 0 0 0 0 0 0 0 0 false "STANDBY".

Definition set_flight (loops avg pre : Z) (st : SystemStats) : SystemStats :=
  mkSystemStats loops avg pre (flight_deadline_misses st) (net_packets st)
    (net_preempts st) (vision_fps st) (vision_preempts st)
    (vision_active st) (emergency_status st).
Definition set_flight_deadline_misses (v : Z) (st : SystemStats) : SystemStats :=
  mkSystemStats (flight_loops st) (flight_exec_avg_us st) (flight_preempts st)
    v (net_packets st) (net_preempts st) (vision_fps st) (vision_preempts st)
    (vision_active st) (emergency_status st).
Definition set_net (packets pre : Z) (st : SystemStats) : SystemStats :=
  mkSystemStats (flight_loops st) (flight_exec_avg_us st) (flight_preempts st)
    (flight_deadline_misses st) packets pre (vision_fps st)
    (vision_preempts st) (vision_active st) (emergency_status st).
Definition set_net_packets (v : Z) (st : SystemStats) : SystemStats :=
  set_net v (net_preempts st) st.
Definition set_vision (fps pre : Z) (st : SystemStats) : SystemStats :=
  mkSystemStats (flight_loops st) (flight_exec_avg_us st) (flight_preempts st)
    (flight_deadline_misses st) (net_packets st) (net_preempts st) fps pre
    (vision_active st) (emergency_status st).
Definition set_vision_active (b : bool) (st : SystemStats) : SystemStats :=
  mkSystemStats (flight_loops st) (flight_exec_avg_us st) (flight_preempts st)
    (flight_deadline_misses st) (net_packets st) (net_preempts st)
    (vision_fps st) (vision_preempts st) b (emergency_status st).
Definition set_emergency_status (v : string) (st : SystemStats) : SystemStats :=
  mkSystemStats (flight_loops st) (flight_exec_avg_us st) (flight_preempts st)
    (flight_deadline_misses st) (net_packets st) (net_preempts st)
    (vision_fps st) (vision_preempts st) (vision_active st) v.

(** The globals [shared_state], [global_stats] and [system_running]. *)
Record Mem : Type := mkMem {
  shared_state : DroneState;
  global_stats : SystemStats;
  system_running : bool
}.

Definition Mem_init : Mem := mkMem DroneState_init SystemStats_init true.

Definition modify_state (f : DroneState -> DroneState) : Prog.t Mem unit :=
  Prog.modify (fun m => mkMem (f (shared_state m)) (global_stats m)
                              (system_running m)).
Definition modify_stats (f : SystemStats -> SystemStats) : Prog.t Mem unit :=
  Prog.modify (fun m => mkMem (shared_state m) (f (global_stats m))
                              (system_running m)).
Definition set_system_running (b : bool) : Prog.t Mem unit :=
  Prog.modify (fun m => mkMem (shared_state m) (global_stats m) b).

(** *** [cleanup_and_exit] *)

(** The function in a thread that can take [state_mutex]: it runs to
    [std::exit]. *)
Definition cleanup_and_exit : Prog.t Mem unit :=
  Prog.emit (Console "=== EMERGENCY SHUTDOWN SEQUENCE ===") ;;
  set_system_running false ;;
  Prog.with_lock state_mutex (modify_state kill_motors) ;;
  Prog.emit (Console "Motors stopped") ;;
  Prog.emit (Shell "pkill -9 rpicam-vid 2>/dev/null") ;;
  Prog.emit (Console "Camera stopped") ;;
  Prog.with_lock stats_mutex (Prog.emit (Console "--- FINAL STATS ---")) ;;
  Prog.emit (Console "Shutdown complete") ;;
  Prog.emit (Exit 0).

(** The function as far as it gets when [state_mutex] is never handed to
    the caller - the caller owns it already, or another thread keeps it for
    good: the [lock_guard] of line 71 does not return, so the motors are
    not cut and [std::exit] is not reached. *)
Definition cleanup_and_exit_blocked : Prog.t Mem unit :=
  Prog.emit (Console "=== EMERGENCY SHUTDOWN SEQUENCE ===") ;;
  set_system_running false ;;
  Prog.emit (Lock state_mutex).

(** *** [task_flight] *)

Definition flight_check_deadline (now next_wake : Z) : Prog.t Mem unit :=
  Prog.when (deadline_missed now next_wake)
    (Prog.with_lock stats_mutex
       (modify_stats (fun st =>
          set_flight_deadline_misses
            (Long.incr (flight_deadline_misses st)) st))).

Definition flight_critical_section : Prog.t Mem unit :=
  Prog.with_lock state_mutex (modify_state flight_critical).

Definition flight_update_stats (dur preempts : Z) : Prog.t Mem unit :=
  Prog.with_lock stats_mutex
    (modify_stats (fun st =>
       set_flight (Long.incr (flight_loops st))
                  (exec_avg (flight_exec_avg_us st) dur)
                  preempts st)).

(** One pass through the body of [while (system_running)]; the result is
    the updated [next_wake]. *)
Definition flight_iteration (env : FlightEnv) (next_wake : Z)
  : Prog.t Mem Z :=
  let next_wake := next_deadline next_wake in
  flight_check_deadline (now_at_check env) next_wake ;;
  flight_critical_section ;;
  let dur := duration_cast_us (Long.sub (end_time env) (start_time env)) in
  flight_update_stats dur (preempts_read env) ;;
  Prog.emit (SleepUntil next_wake) ;;
  Prog.ret next_wake.

(** The loop, fed with the readings of as many cycles as are observed. *)
Fixpoint task_flight (envs : list FlightEnv) (next_wake : Z)
  : Prog.t Mem Z :=
  match envs with
  | [] => Prog.ret next_wake
  | env :: rest =>
      m <- Prog.get ;;
      if system_running m
      then (nw <- flight_iteration env next_wake ;; task_flight rest nw)
      else Prog.ret next_wake
  end.

(** *** [task_vision]: the blocks that touch [global_stats] *)

Definition vision_mark (active : bool) : Prog.t Mem unit :=
  Prog.with_lock stats_mutex (modify_stats (set_vision_active active)).

Definition vision_report (fps preempts : Z) : Prog.t Mem unit :=
  Prog.with_lock stats_mutex (modify_stats (set_vision fps preempts)).

(** One pass of the inner [for] loop; [elapsed] is in whole seconds and
    the result is the frame count carried to the next pass. *)
Definition vision_iteration (elapsed preempts frame_count : Z)
  : Prog.t Mem Z :=
  let frame_count := Long.incr frame_count in
  fc <- (if 1 <=? elapsed
         then (vision_report (Long.div frame_count elapsed) preempts ;;
               Prog.ret 0)
         else Prog.ret frame_count) ;;
  Prog.emit (SleepFor 100000000) ;;
  Prog.ret fc.

(** *** [task_networking] *)

(** [recvfrom(sockfd, buffer, sizeof(buffer) - 1, ...)]. *)
Definition recv_capacity : Z := buffer_size - 1.

Definition net_count_packet (preempts : Z) : Prog.t Mem unit :=
  Prog.with_lock stats_mutex
    (modify_stats (fun st => set_net (Long.incr (net_packets st)) preempts st)).

(** The block guarded by [state_mutex].  The [PANIC] branch also notifies
    the condition variable and, still owning [state_mutex], takes
    [stats_mutex] to publish the status. *)
Definition handle_command (cmd : string) : Prog.t Mem unit :=
  Prog.with_lock state_mutex
    (modify_state (command_effect cmd) ;;
     Prog.when (String.eqb cmd "PANIC")
       (Prog.emit NotifyOne ;;
        Prog.with_lock stats_mutex
          (modify_stats (set_emergency_status "TRIGGERED")))).

(** One pass through the body of [while (system_running)]. *)
Definition net_iteration (r : RecvResult) (preempts : Z) : Prog.t Mem unit :=
  Prog.emit RecvFrom ;;
  (if 0 <? recv_n r
   then match r with
        | Datagram payload =>
            let cmd := c_string payload in
            net_count_packet preempts ;;
            handle_command cmd
        | Failure _ => Prog.ret tt
        end
   else match r with
        | Failure false => Prog.emit (Console "[Net] ERROR")
        | _ => Prog.ret tt
        end) ;;
  Prog.emit (SleepFor 10000000).

(** The loop, fed with what [recvfrom] and [get_kernel_preemptions]
    return in each pass. *)
Fixpoint task_networking (inputs : list (RecvResult * Z)) : Prog.t Mem unit :=
  match inputs with
  | [] => Prog.ret tt
  | (r, preempts) :: rest =>
      m <- Prog.get ;;
      if system_running m
      then (net_iteration r preempts ;; task_networking rest)
      else Prog.ret tt
  end.

(** *** [task_emergency] *)

Definition emergency_mark_active : Prog.t Mem unit :=
  Prog.with_lock stats_mutex (modify_stats (set_emergency_status "ACTIVE")).

(** The thread takes [state_mutex] with a [unique_lock] that stays in
    scope to the end of the function.  With the predicate false the wait
    does not return.  With it true the thread still owns [state_mutex] when
    it calls [cleanup_and_exit], and stops at the lock there. *)
Definition task_emergency : Prog.t Mem unit :=
  Prog.emit (Lock state_mutex) ;;
  Prog.emit WaitEmergency ;;
  m <- Prog.get ;;
  if emergency_triggered (shared_state m)
  then (Prog.emit (Console "!!! EMERGENCY STOP ACTIVATED !!!") ;;
        emergency_mark_active ;;
        Prog.emit (SleepFor 2000000000) ;;
        cleanup_and_exit_blocked)
  else Prog.ret tt.

(** *** [task_monitor] *)

Record Snapshot : Type := mkSnapshot {
  f_time : Z; f_miss : Z; f_pre : Z;
  n_pack : Z; n_pre : Z;
  v_fps : Z; v_pre : Z;
  alt : F32.float; thr : F32.float;
  emerg_status : string
}.

Definition monitor_read_stats : Prog.t Mem SystemStats :=
  Prog.with_lock stats_mutex
    (m <- Prog.get ;;
     modify_stats (set_net_packets 0) ;;
     Prog.ret (global_stats m)).

Definition monitor_read_state : Prog.t Mem DroneState :=
  Prog.with_lock state_mutex
    (m <- Prog.get ;; Prog.ret (shared_state m)).

(** One pass through the body of [while (system_running)]; the result is
    the row that is printed. *)
Definition monitor_iteration : Prog.t Mem Snapshot :=
  Prog.emit (SleepFor 1000000000) ;;
  st <- monitor_read_stats ;;
  ds <- monitor_read_state ;;
  Prog.emit (Console "| row |") ;;
  Prog.ret (mkSnapshot (flight_exec_avg_us st) (flight_deadline_misses st)
              (flight_preempts st) (net_packets st) (net_preempts st)
              (vision_fps st) (vision_preempts st)
              (altitude ds) (throttle ds) (emergency_status st)).

(** The loop, for at most the given number of passes; the result is the
    rows printed. *)
Fixpoint task_monitor (passes : nat) : Prog.t Mem (list Snapshot) :=
  match passes with
  | O => Prog.ret []
  | S n =>
      m <- Prog.get ;;
      if system_running m
      then (row <- monitor_iteration ;;
            rows <- task_monitor n ;;
            Prog.ret (row :: rows))
      else Prog.ret []
  end.

(** *** [task_vision], whole *)

Definition camera_kill : string := "pkill -9 rpicam-vid 2>/dev/null".

Definition camera_launch : string :=
  "rpicam-vid -t 0 --nopreview --inline --width 640 --height 480 --codec libav --libav-format mpegts --listen -o tcp://0.0.0.0:8888 > /dev/null 2>&1 &".

(** [duration_cast<seconds>(now - last_check).count()] *)
Definition elapsed_seconds (now last_check : Z) : Z :=
  Z.quot (Long.sub now last_check) 1000000000.

(** The [for] loop: [todo] passes are left, the next one is number [i];
    [reading i] is the clock and the preemption count read in pass [i]. *)
Fixpoint vision_frames (todo i : nat) (reading : nat -> Z * Z)
    (last_check frame_count : Z) : Prog.t Mem unit :=
  match todo with
  | O => Prog.ret tt
  | S todo' =>
      m <- Prog.get ;;
      if system_running m
      then (let elapsed := elapsed_seconds (fst (reading i)) last_check in
            fc <- vision_iteration elapsed (snd (reading i)) frame_count ;;
            vision_frames todo' (S i) reading
              (if 1 <=? elapsed then fst (reading i) else last_check) fc)
      else Prog.ret tt
  end.

(** What one pass of the outer loop reads: the clock when the camera has
    been launched, and the readings of its [for] loop. *)
Record VisionPass : Type := mkVisionPass {
  launched_at : Z;
  reading : nat -> Z * Z
}.

Definition vision_pass (p : VisionPass) : Prog.t Mem unit :=
  Prog.emit (Shell camera_kill) ;;
  Prog.emit (SleepFor 500000000) ;;
  vision_mark true ;;
  Prog.emit (Shell camera_launch) ;;
  vision_frames 100 0 (reading p) (launched_at p) 0.

(** The task, observed for the given passes of its outer loop; once
    [system_running] is false it kills the camera and returns. *)
Fixpoint task_vision (passes : list VisionPass) : Prog.t Mem unit :=
  match passes with
  | [] => Prog.ret tt
  | p :: rest =>
      m <- Prog.get ;;
      if system_running m
      then (vision_pass p ;; task_vision rest)
      else (Prog.emit (Shell camera_kill) ;; vision_mark false)
  end.

(** *** [signal_handler] and [main] *)

(** The handler; [can_lock] tells whether [state_mutex] is handed to the
    thread it runs in: not when that thread owns the mutex itself, nor when
    the emergency task, which never releases it, does. *)
Definition signal_handler (signum : Z) (can_lock : bool) : Prog.t Mem unit :=
  Prog.emit (Console "Received signal") ;;
  if can_lock then cleanup_and_exit else cleanup_and_exit_blocked.

(** [set_priority]: the outcome of [pthread_setschedparam] only decides
    whether a complaint is printed. *)
Definition set_priority (th : Thread) (prio : Z) (granted : bool)
  : list Setup :=
  SetPriority th prio :: (if granted then [] else [Complain th]).

Definition pin_thread (th : Thread) (core_id : Z) : list Setup :=
  [PinThread th core_id].

(** [main]: [granted] tells for which threads the scheduler accepts the
    real-time priority, [finishes] which thread functions return. *)
Definition main (argv : list string) (granted finishes : Thread -> bool)
  : list Setup :=
  let core := target_core argv in
  ([Spawn FlightThread; Spawn VisionThread; Spawn NetworkingThread;
    Spawn EmergencyThread; Spawn MonitorThread]
   ++ set_priority EmergencyThread 90 (granted EmergencyThread)
   ++ set_priority FlightThread 50 (granted FlightThread)
   ++ set_priority NetworkingThread 30 (granted NetworkingThread)
   ++ set_priority VisionThread 10 (granted VisionThread)
   ++ (if core =? -1 then []
       else pin_thread FlightThread core ++ pin_thread VisionThread core
            ++ pin_thread NetworkingThread core
            ++ pin_thread EmergencyThread core)
   ++ join_all finishes
        [FlightThread; VisionThread; NetworkingThread; EmergencyThread;
         MonitorThread])%list.

End Udp.

(** The throttle values 0, 10, ..., 100. *)
Definition throttle_grid : list F32.float :=
  map (fun k => F32.of_Z (10 * k)) [0; 1; 2; 3; 4; 5; 6; 7; 8; 9; 10].

(** The tilt values -15, 0 and 15. *)
Definition tilt_grid : list F32.float :=
  [SFopp F32.f15; F32.zero; F32.f15].

(** ** The tasks of udp_test_receiver.cpp running together

    Every lock-guarded block is one atomic action on the shared memory, and
    a signal is taken between two blocks.  Actions of different tasks
    interleave freely: blocking on a mutex only removes interleavings, so
    every drone state and every statistics record the program can reach is
    that of a state reachable here.  The emergency
    task is the one thread whose position matters: it is a straight-line
    function that passes the wait once, owns [state_mutex] from then on and
    stops for good at the lock of [cleanup_and_exit].  A signal handler that
    runs while the emergency task owns [state_mutex] stops at the same
    lock; only with the mutex free does it cut the motors and exit. *)

Module UdpSystem.

Import Udp.

Inductive EmergencyPc : Type := Waiting | Woken | Sleeping | Blocked.

Record System : Type := mkSystem {
  mem : Mem;
  emergency_pc : EmergencyPc;
  exited : bool
}.

Definition System_init : System := mkSystem Mem_init Waiting false.

Inductive Action : Type :=
| FlightCheckDeadline (now next_wake : Z)
| FlightCriticalSection
| FlightUpdateStats (dur preempts : Z)
| VisionMark (active : bool)
| VisionReport (fps preempts : Z)
| NetCountPacket (preempts : Z)
| NetCommand (cmd : string)
| MonitorReadStats
| MonitorReadState
| EmergencyWake
| EmergencyMarkActive
| EmergencyShutdown
| Signal.

Definition is_shutdown (a : Action) : bool :=
  match a with EmergencyShutdown => true | _ => false end.

Definition is_wake (a : Action) : bool :=
  match a with EmergencyWake => true | _ => false end.

Definition pc_eqb (a b : EmergencyPc) : bool :=
  match a, b with
  | Waiting, Waiting | Woken, Woken | Sleeping, Sleeping
  | Blocked, Blocked => true
  | _, _ => false
  end.

(** [std::exit] ends every thread; the predicate wait returns only with
    the flag set; the emergency task moves forward only. *)
Definition enabled (a : Action) (s : System) : bool :=
  negb (exited s) &&
  match a with
  | EmergencyWake =>
      pc_eqb (emergency_pc s) Waiting &&
      emergency_triggered (shared_state (mem s))
  | EmergencyMarkActive => pc_eqb (emergency_pc s) Woken
  | EmergencyShutdown => pc_eqb (emergency_pc s) Sleeping
  | _ => true
  end.

Definition on_mem {A} (c : Prog.t Mem A) (s : System) : System :=
  mkSystem (Prog.memory c (mem s)) (emergency_pc s) (exited s).

Definition exec (a : Action) (s : System) : System :=
  match a with
  | FlightCheckDeadline now nw => on_mem (flight_check_deadline now nw) s
  | FlightCriticalSection => on_mem flight_critical_section s
  | FlightUpdateStats dur pre => on_mem (flight_update_stats dur pre) s
  | VisionMark b => on_mem (vision_mark b) s
  | VisionReport fps pre => on_mem (vision_report fps pre) s
  | NetCountPacket pre => on_mem (net_count_packet pre) s
  | NetCommand cmd => on_mem (handle_command cmd) s
  | MonitorReadStats => on_mem monitor_read_stats s
  | MonitorReadState => on_mem monitor_read_state s
  | EmergencyWake => mkSystem (mem s) Woken (exited s)
  | EmergencyMarkActive =>
      mkSystem (Prog.memory emergency_mark_active (mem s)) Sleeping (exited s)
  | EmergencyShutdown =>
      mkSystem (Prog.memory cleanup_and_exit_blocked (mem s)) Blocked
        (exited s)
  | Signal =>
      if pc_eqb (emergency_pc s) Waiting
      then mkSystem (Prog.memory cleanup_and_exit (mem s)) (emergency_pc s)
             true
      else mkSystem (Prog.memory cleanup_and_exit_blocked (mem s))
             (emergency_pc s) (exited s)
  end.

Fixpoint run (acts : list Action) (s : System) : option System :=
  match acts with
  | [] => Some s
  | a :: rest => if enabled a s then run rest (exec a s) else None
  end.

Definition reachable (s : System) : Prop :=
  exists acts, run acts System_init = Some s.

Definition count (p : Action -> bool) (acts : list Action) : nat :=
  List.length (filter p acts).

Definition drone (s : System) : DroneState := shared_state (mem s).

Definition emergency (s : System) : bool := emergency_triggered (drone s).

(** How often the emergency task can still pass its wait, and still run
    its shutdown, from a given position. *)
Definition wakes_left (pc : EmergencyPc) : nat :=
  match pc with Waiting => 1 | _ => 0 end.

Definition shutdowns_left (pc : EmergencyPc) : nat :=
  match pc with Blocked => 0 | _ => 1 end.

(** The values the controls take. *)
Definition on_grid (d : DroneState) : Prop :=
  In (throttle d) throttle_grid /\
  In (pitch d) tilt_grid /\ In (roll d) tilt_grid.

End UdpSystem.

(** ** data_collector.cpp: the parts that differ *)

Module DataCollector.

Record SystemStats : Type := mkSystemStats {
  flight_loops : Z;
  flight_exec_avg_us : Z;
  flight_preempts : Z;
  flight_deadline_misses : Z;
  net_packets : Z;
  net_preempts : Z;
  vision_frames : Z;
  vision_preempts : Z;
  emergency_status : string
}.

Definition SystemStats_init : SystemStats :=
  mkSystemStats 0 0 0 0 0 0 0 0 "STANDBY".

Definition set_net (packets pre : Z) (st : SystemStats) : SystemStats :=
  mkSystemStats (flight_loops st) (flight_exec_avg_us st) (flight_preempts st)
    (flight_deadline_misses st) packets pre (vision_frames st)
    (vision_preempts st) (emergency_status st).
Definition set_net_packets (v : Z) (st : SystemStats) : SystemStats :=
  set_net v (net_preempts st) st.
Definition set_vision_frames (v : Z) (st : SystemStats) : SystemStats :=
  mkSystemStats (flight_loops st) (flight_exec_avg_us st) (flight_preempts st)
    (flight_deadline_misses st) (net_packets st) (net_preempts st) v
    (vision_preempts st) (emergency_status st).
Definition set_emergency_status (v : string) (st : SystemStats) : SystemStats :=
  mkSystemStats (flight_loops st) (flight_exec_avg_us st) (flight_preempts st)
    (flight_deadline_misses st) (net_packets st) (net_preempts st)
    (vision_frames st) (vision_preempts st) v.

Record Mem : Type := mkMem {
  shared_state : DroneState;
  global_stats : SystemStats;
  system_running : bool
}.

Definition Mem_init : Mem := mkMem DroneState_init SystemStats_init true.

Definition modify_state (f : DroneState -> DroneState) : Prog.t Mem unit :=
  Prog.modify (fun m => mkMem (f (shared_state m)) (global_stats m)
                              (system_running m)).
Definition modify_stats (f : SystemStats -> SystemStats) : Prog.t Mem unit :=
  Prog.modify (fun m => mkMem (shared_state m) (f (global_stats m))
                              (system_running m)).

(** [{ lock_guard l(console_mutex); cout << ...; }] *)
Definition say (text : string) : Prog.t Mem unit :=
  Prog.with_lock console_mutex (Prog.emit (Console text)).

(** The flight critical section; the loop over the local [temp_alt] that
    precedes the physics writes nothing shared. *)
Definition flight_critical_section : Prog.t Mem unit :=
  Prog.with_lock state_mutex (modify_state flight_critical).

(** *** [task_networking] *)

Definition acknowledgement (cmd : string) : string :=
  if String.eqb cmd "UP" then "Thr"
  else if String.eqb cmd "DOWN" then "Thr"
  else if String.eqb cmd "FRONT" then "Pitch FORWARD"
  else if String.eqb cmd "BACK" then "Pitch BACKWARD"
  else if String.eqb cmd "LEFT" then "Roll LEFT"
  else if String.eqb cmd "RIGHT" then "Roll RIGHT"
  else "CENTERED".

Definition handle_command (cmd : string) (current_preempts : Z)
  : Prog.t Mem unit :=
  Prog.with_lock state_mutex
    (if String.eqb cmd "PANIC"
     then (say "EMERGENCY!" ;;
           Prog.emit (Timeline "Network" "EMERGENCY" current_preempts) ;;
           modify_state (command_effect cmd) ;;
           Prog.emit NotifyOne ;;
           Prog.with_lock stats_mutex
             (modify_stats (set_emergency_status "TRIGGERED")))
     else (modify_state (command_effect cmd) ;;
           Prog.when (is_command cmd) (say (acknowledgement cmd)))).

(** [recvfrom(sockfd, buffer, 1024, 0, NULL, NULL)]. *)
Definition recv_capacity : Z := 1024.

(** One pass through the body of [while (system_running)]; the result is
    the updated [last_preempt_count].  The payload is what fits the
    buffer. *)
Definition net_iteration (r : RecvResult) (current_preempts preempts : Z)
    (last_preempt_count : Z) : Prog.t Mem Z :=
  Prog.emit RecvFrom ;;
  last <- (if 0 <? recv_n r
           then match r with
                | Datagram payload =>
                    let cmd := c_string payload in
                    last <- (if last_preempt_count <? current_preempts
                             then (Prog.emit (Timeline "Network" "PREEMPTED"
                                                current_preempts) ;;
                                   Prog.ret current_preempts)
                             else Prog.ret last_preempt_count) ;;
                    Prog.emit (Timeline "Network" "PACKET_RX"
                                 current_preempts) ;;
                    say ("[CMD] " ++ cmd) ;;
                    Prog.with_lock stats_mutex
                      (modify_stats (fun st =>
                         set_net (Long.incr (net_packets st)) preempts st)) ;;
                    handle_command cmd current_preempts ;;
                    Prog.ret last
                | Failure _ => Prog.ret last_preempt_count
                end
           else Prog.ret last_preempt_count) ;;
  Prog.emit (SleepFor 10000000) ;;
  Prog.ret last.

(** *** [task_monitor] *)

Record Snapshot : Type := mkSnapshot {
  f_time : Z; f_miss : Z; f_pre : Z;
  n_pack : Z; n_pre : Z;
  v_fps : Z; v_pre : Z;
  emg : string
}.

Definition monitor_read_stats : Prog.t Mem SystemStats :=
  Prog.with_lock stats_mutex
    (m <- Prog.get ;;
     modify_stats (set_vision_frames 0) ;;
     modify_stats (set_net_packets 0) ;;
     Prog.ret (global_stats m)).

Definition monitor_iteration : Prog.t Mem Snapshot :=
  Prog.emit (SleepFor 1000000000) ;;
  st <- monitor_read_stats ;;
  say "| row |" ;;
  Prog.ret (mkSnapshot (flight_exec_avg_us st) (flight_deadline_misses st)
              (flight_preempts st) (net_packets st) (net_preempts st)
              (vision_frames st) (vision_preempts st) (emergency_status st)).

Definition set_flight (loops avg pre : Z) (st : SystemStats) : SystemStats :=
  mkSystemStats loops avg pre (flight_deadline_misses st) (net_packets st)
    (net_preempts st) (vision_frames st) (vision_preempts st)
    (emergency_status st).
Definition set_flight_deadline_misses (v : Z) (st : SystemStats) : SystemStats :=
  mkSystemStats (flight_loops st) (flight_exec_avg_us st) (flight_preempts st)
    v (net_packets st) (net_preempts st) (vision_frames st)
    (vision_preempts st) (emergency_status st).
Definition set_vision (frames pre : Z) (st : SystemStats) : SystemStats :=
  mkSystemStats (flight_loops st) (flight_exec_avg_us st) (flight_preempts st)
    (flight_deadline_misses st) (net_packets st) (net_preempts st) frames pre
    (emergency_status st).
Definition set_system_running (b : bool) : Prog.t Mem unit :=
  Prog.modify (fun m => mkMem (shared_state m) (global_stats m) b).

(** [log_timeline_event]: one line of the timeline, when the file is open. *)
Definition log_timeline_event (thread event : string) (preempt_count : Z)
  : Prog.t Mem unit :=
  Prog.emit (Timeline thread event preempt_count).

(** The bookkeeping on [last_preempt_count] at the top of a pass. *)
Definition note_preemption (thread : string) (current last : Z)
  : Prog.t Mem Z :=
  if last <? current
  then (log_timeline_event thread "PREEMPTED" current ;; Prog.ret current)
  else Prog.ret last.

(** *** [task_flight] *)

(** One pass through the body of [while (system_running)].  [current] is
    the preemption count read at the top of the pass, [preempts_read env]
    the one read after the critical section; the result is the updated
    [next_wake] and [last_preempt_count]. *)
Definition flight_iteration (env : FlightEnv) (current : Z)
    (next_wake last : Z) : Prog.t Mem (Z * Z) :=
  let next_wake := next_deadline next_wake in
  log_timeline_event "Flight" "START" current ;;
  last <- note_preemption "Flight" current last ;;
  Prog.when (deadline_missed (now_at_check env) next_wake)
    (Prog.with_lock stats_mutex
       (modify_stats (fun st =>
          set_flight_deadline_misses
            (Long.incr (flight_deadline_misses st)) st) ;;
        log_timeline_event "Flight" "DEADLINE_MISS" current)) ;;
  flight_critical_section ;;
  let dur := duration_cast_us (Long.sub (end_time env) (start_time env)) in
  Prog.with_lock stats_mutex
    (modify_stats (fun st =>
       set_flight (Long.incr (flight_loops st))
                  (exec_avg (flight_exec_avg_us st) dur)
                  (preempts_read env) st)) ;;
  log_timeline_event "Flight" "END" (preempts_read env) ;;
  Prog.emit (SleepUntil next_wake) ;;
  Prog.ret (next_wake, last).

Fixpoint task_flight (envs : list (FlightEnv * Z)) (next_wake last : Z)
  : Prog.t Mem (Z * Z) :=
  match envs with
  | [] => Prog.ret (next_wake, last)
  | (env, current) :: rest =>
      m <- Prog.get ;;
      if system_running m
      then (r <- flight_iteration env current next_wake last ;;
            task_flight rest (fst r) (snd r))
      else Prog.ret (next_wake, last)
  end.

(** *** [task_vision]: one pass of the loop that burns CPU *)

Definition vision_iteration (current preempts last : Z) : Prog.t Mem Z :=
  last <- note_preemption "Vision" current last ;;
  Prog.with_lock stats_mutex
    (modify_stats (fun st =>
       set_vision (Long.incr (vision_frames st)) preempts st)) ;;
  Prog.emit (SleepFor 100000) ;;
  Prog.ret last.

Fixpoint vision_loop (readings : list (Z * Z)) (last : Z) : Prog.t Mem Z :=
  match readings with
  | [] => Prog.ret last
  | (current, preempts) :: rest =>
      m <- Prog.get ;;
      if system_running m
      then (last' <- vision_iteration current preempts last ;;
            vision_loop rest last')
      else Prog.ret last
  end.

(** *** [task_emergency] and [cleanup_resources] *)

(** The [unique_lock] on [state_mutex] is released when the function
    returns.  With the predicate false the wait does not return. *)
Definition task_emergency (preempts : Z) : Prog.t Mem unit :=
  log_timeline_event "Emergency" "WAITING" 0 ;;
  Prog.emit (Lock state_mutex) ;;
  Prog.emit WaitEmergency ;;
  m <- Prog.get ;;
  if emergency_triggered (shared_state m)
  then (log_timeline_event "Emergency" "TRIGGERED" preempts ;;
        say "!!! EMERGENCY STOP ACTIVATED !!!" ;;
        Prog.with_lock stats_mutex
          (modify_stats (set_emergency_status "ACTIVE")) ;;
        modify_state (set_throttle F32.zero) ;;
        Prog.emit (SleepFor 1000000000) ;;
        set_system_running false ;;
        Prog.emit (Unlock state_mutex))
  else Prog.ret tt.


(** [signal_handler]: [system_running = false] and nothing else. *)
Definition signal_handler (signum : Z) : Prog.t Mem unit :=
  set_system_running false.

End DataCollector.

(** ** phase4.cpp: the flight loop *)

Module Phase4.

Record SystemStats : Type := mkSystemStats {
  flight_loops : Z;
  flight_exec_avg_us : Z;
  flight_preempts : Z;
  flight_deadline_misses : Z;
  vision_frames : Z;
  vision_preempts : Z;
  emerg_wakeups : Z;
  emerg_preempts : Z
}.

Definition set_flight (loops avg pre : Z) (st : SystemStats) : SystemStats :=
  mkSystemStats loops avg pre (flight_deadline_misses st) (vision_frames st)
    (vision_preempts st) (emerg_wakeups st) (emerg_preempts st).
Definition set_flight_deadline_misses (v : Z) (st : SystemStats) : SystemStats :=
  mkSystemStats (flight_loops st) (flight_exec_avg_us st) (flight_preempts st)
    v (vision_frames st) (vision_preempts st) (emerg_wakeups st)
    (emerg_preempts st).

(** The globals [global_stats], [system_running], [emergency_active]. *)
Record Mem : Type := mkMem {
  global_stats : SystemStats;
  system_running : bool;
  emergency_active : bool
}.

Definition modify_stats (f : SystemStats -> SystemStats) : Prog.t Mem unit :=
  Prog.modify (fun m => mkMem (f (global_stats m)) (system_running m)
                              (emergency_active m)).
Definition set_emergency_active (b : bool) : Prog.t Mem unit :=
  Prog.modify (fun m => mkMem (global_stats m) (system_running m) b).

(** What [task_flight_control] keeps from one cycle to the next: the
    deadline and the [static int count]. *)
Record Locals : Type := mkLocals {
  deadline : Z;
  count : Z
}.

(** [count++] on a 32-bit [int]. *)
Definition int_incr (z : Z) : Z := (z + 1 + 2 ^ 31) mod 2 ^ 32 - 2 ^ 31.

(** One pass through the body of [while (system_running)].  The clock is
    read once, into [start], and that reading is compared with the deadline;
    the loop over the local [alt] writes nothing shared. *)
Definition flight_iteration (env : FlightEnv) (loc : Locals)
  : Prog.t Mem Locals :=
  let next := next_deadline (deadline loc) in
  let start := start_time env in
  Prog.when (deadline_missed start next)
    (Prog.with_lock stats_mutex
       (modify_stats (fun st =>
          set_flight_deadline_misses
            (Long.incr (flight_deadline_misses st)) st))) ;;
  let duration := duration_cast_us (Long.sub (end_time env) start) in
  Prog.with_lock stats_mutex
    (modify_stats (fun st =>
       set_flight (Long.incr (flight_loops st))
                  (exec_avg (flight_exec_avg_us st) duration)
                  (preempts_read env) st)) ;;
  let count := int_incr (count loc) in
  Prog.when (count =? 2000)
    (Prog.with_lock emergency_mutex (set_emergency_active true) ;;
     Prog.emit NotifyOne) ;;
  Prog.emit (SleepUntil next) ;;
  Prog.ret (mkLocals next count).

(** The loop, fed with the readings of as many cycles as are observed. *)
Fixpoint task_flight_control (envs : list FlightEnv) (loc : Locals)
  : Prog.t Mem Locals :=
  match envs with
  | [] => Prog.ret loc
  | env :: rest =>
      m <- Prog.get ;;
      if system_running m
      then (loc' <- flight_iteration env loc ;; task_flight_control rest loc')
      else Prog.ret loc
  end.

Definition set_emerg (wakeups pre : Z) (st : SystemStats) : SystemStats :=
  mkSystemStats (flight_loops st) (flight_exec_avg_us st) (flight_preempts st)
    (flight_deadline_misses st) (vision_frames st) (vision_preempts st)
    wakeups pre.
Definition set_vision (frames pre : Z) (st : SystemStats) : SystemStats :=
  mkSystemStats (flight_loops st) (flight_exec_avg_us st) (flight_preempts st)
    (flight_deadline_misses st) frames pre (emerg_wakeups st)
    (emerg_preempts st).
Definition set_system_running (b : bool) : Prog.t Mem unit :=
  Prog.modify (fun m => mkMem (global_stats m) b (emergency_active m)).

(** [task_emergency]: it owns [emergency_mutex] from the wait to its
    return.  With the predicate false the wait does not return. *)
Definition task_emergency (preempts : Z) : Prog.t Mem unit :=
  Prog.emit (Lock emergency_mutex) ;;
  Prog.emit WaitEmergency ;;
  m <- Prog.get ;;
  if emergency_active m
  then (Prog.with_lock stats_mutex
          (modify_stats (fun st =>
             set_emerg (Long.incr (emerg_wakeups st)) preempts st)) ;;
        Prog.emit (SleepFor 1000000000) ;;
        set_system_running false ;;
        Prog.emit (Unlock emergency_mutex))
  else Prog.ret tt.

(** One pass of [task_vision]. *)
Definition vision_iteration (preempts : Z) : Prog.t Mem unit :=
  Prog.with_lock stats_mutex
    (modify_stats (fun st =>
       set_vision (Long.incr (vision_frames st)) preempts st)) ;;
  Prog.emit (SleepFor 100000).

(** The loop of [task_vision], fed with the preemption counts it reads. *)
Fixpoint task_vision (readings : list Z) : Prog.t Mem unit :=
  match readings with
  | [] => Prog.ret tt
  | preempts :: rest =>
      m <- Prog.get ;;
      if system_running m
      then (vision_iteration preempts ;; task_vision rest)
      else Prog.ret tt
  end.

(** One pass of [task_monitor]; the result is the statistics it prints. *)
Definition monitor_iteration : Prog.t Mem SystemStats :=
  Prog.emit (SleepFor 1000000000) ;;
  st <- Prog.with_lock stats_mutex
          (m <- Prog.get ;;
           modify_stats (fun st => set_vision 0 (vision_preempts st) st) ;;
           Prog.ret (global_stats m)) ;;
  Prog.emit (Console "| row |") ;;
  Prog.ret st.

(** [pin_thread_to_core]: a negative core means no pinning. *)
Definition pin_thread_to_core (th : Thread) (core_id : Z) : list Setup :=
  if core_id <? 0 then [] else [PinThread th core_id].

Definition set_thread_priority (th : Thread) (priority : Z) : list Setup :=
  [SetPriority th priority].

(** [main]; the result also carries the mode the monitor is told. *)
Definition main (argv : list string) (finishes : Thread -> bool)
  : list Setup * Z :=
  let core := target_core argv in
  (([Spawn FlightThread; Spawn VisionThread; Spawn EmergencyThread;
     Spawn MonitorThread]
    ++ set_thread_priority EmergencyThread 90
    ++ set_thread_priority FlightThread 50
    ++ set_thread_priority VisionThread 10
    ++ (if core =? -1 then []
        else pin_thread_to_core FlightThread core
             ++ pin_thread_to_core VisionThread core
             ++ pin_thread_to_core EmergencyThread core)
    ++ join_all finishes
         [FlightThread; VisionThread; EmergencyThread; MonitorThread])%list,
   if core =? 0 then 1 else 4).

End Phase4.

(** ** Runs used to state the properties *)

(** The controls the flight loop finds at the start of a cycle. *)
Record Controls : Type := mkControls {
  c_throttle : F32.float;
  c_pitch : F32.float;
  c_roll : F32.float
}.

Definition apply_controls (c : Controls) (s : DroneState) : DroneState :=
  set_roll (c_roll c) (set_pitch (c_pitch c) (set_throttle (c_throttle c) s)).

(** The states after each cycle of a flight in which the controls are
    overwritten before every cycle. *)
Fixpoint fly (inputs : list Controls) (s : DroneState) : list DroneState :=
  match inputs with
  | [] => []
  | c :: rest =>
      let s' := flight_critical (apply_controls c s) in
      s' :: fly rest s'
  end.

(** The memory after the command task has handled the given tokens. *)
Fixpoint send (cmds : list string) (m : Udp.Mem) : Udp.Mem :=
  match cmds with
  | [] => m
  | cmd :: rest => send rest (Prog.memory (Udp.handle_command cmd) m)
  end.

(** The number of cycles that start more than one period after the
    previous deadline. *)
Fixpoint delayed_cycles (envs : list FlightEnv) (deadline : Z) : Z :=
  match envs with
  | [] => 0
  | env :: rest =>
      (if period <? now_at_check env - deadline then 1 else 0)
      + delayed_cycles rest (deadline + period)
  end.

(** The sample the flight loop computes from its two clock readings. *)
Definition sample (env : FlightEnv) : Z :=
  duration_cast_us (Long.sub (end_time env) (start_time env)).

(** A vehicle at ten metres, throttle fully open, with the flag set. *)
Definition falling : DroneState :=
  mkDroneState F32.f100 F32.zero F32.zero F32.zero F32.f10 F32.zero true.

(** The shape of one pass of a receive loop: it polls once, first, and
    sleeps ten milliseconds once, last. *)
Definition polls_then_sleeps (log : list Event) : Prop :=
  hd_error log = Some RecvFrom /\
  last log RecvFrom = SleepFor 10000000 /\
  filter is_sleep log = [SleepFor 10000000] /\
  filter is_recv log = [RecvFrom].

(** A memory in which the vision task has published thirty frames per
    second and seven packets are waiting to be reported. *)
Definition busy_memory : Udp.Mem :=
  Udp.mkMem DroneState_init
    (Udp.set_vision 30 4 (Udp.set_net 7 2 Udp.SystemStats_init)) true.

(** What the flight loop leaves behind after the given cycles. *)
Definition deadline_after (envs : list FlightEnv) (next_wake : Z)
    (m : Udp.Mem) : Z :=
  Prog.result (Udp.task_flight envs next_wake) m.

Definition misses_after (envs : list FlightEnv) (next_wake : Z)
    (m : Udp.Mem) : Z :=
  Udp.flight_deadline_misses
    (Udp.global_stats (Prog.memory (Udp.task_flight envs next_wake) m)).

Definition avg_after (envs : list FlightEnv) (next_wake : Z)
    (m : Udp.Mem) : Z :=
  Udp.flight_exec_avg_us
    (Udp.global_stats (Prog.memory (Udp.task_flight envs next_wake) m)).

(** The largest magnitude [duration_cast<microseconds>] can return. *)
Definition sample_bound : Z := Z.quot Long.max_value 1000.

(** Three cycles from time 0 of which the second starts 15 ms after the
    first deadline. *)
Definition three_cycles : list FlightEnv :=
  [mkFlightEnv 100 200 700200 0;
   mkFlightEnv 25000000 25000100 25500100 1;
   mkFlightEnv 25501000 25501100 25802100 1].

(** The flight loop of phase4.cpp about to start its first cycle. *)
Definition phase4_locals : Phase4.Locals := Phase4.mkLocals 0 0.

Definition phase4_memory : Phase4.Mem :=
  Phase4.mkMem (Phase4.mkSystemStats 0 0 0 0 0 0 0 0) true false.

(** Every poll of the socket but the first comes after a sleep since the
    poll before it. *)
Fixpoint sleeps_between_polls (slept : bool) (log : list Event) : bool :=
  match log with
  | [] => true
  | RecvFrom :: rest => slept && sleeps_between_polls false rest
  | SleepFor _ :: rest => sleeps_between_polls true rest
  | _ :: rest => sleeps_between_polls slept rest
  end.

(** Whether the thread has slept since its last poll. *)
Fixpoint slept_after (slept : bool) (log : list Event) : bool :=
  match log with
  | [] => slept
  | RecvFrom :: rest => slept_after false rest
  | SleepFor _ :: rest => slept_after true rest
  | _ :: rest => slept_after slept rest
  end.

(** A log in which every sleep happens with no mutex owned and at the end
    of which no mutex is owned. *)
Definition sleeps_free (log : list Event) : Prop :=
  sleeps_unlocked [] log = true /\ held_after [] log = [].

(** What the vision task of udp_test_receiver.cpp leaves alone, and the
    range of the rate it publishes. *)
Definition vision_keeps (m0 m : Udp.Mem) : Prop :=
  Udp.shared_state m = Udp.shared_state m0 /\
  Udp.system_running m = Udp.system_running m0 /\
  Udp.set_vision_active false (Udp.set_vision 0 0 (Udp.global_stats m))
  = Udp.set_vision_active false (Udp.set_vision 0 0 (Udp.global_stats m0)) /\
  0 <= Udp.vision_fps (Udp.global_stats m) <= 100.

(** The camera launches in a log. *)
Definition is_launch (e : Event) : bool :=
  match e with
  | Shell cmd => String.eqb cmd Udp.camera_launch
  | _ => false
  end.

(** A pass of the vision task in which the clock advances by 150 ms per
    frame and nothing preempts it. *)
Definition steady_pass : Udp.VisionPass :=
  Udp.mkVisionPass 0 (fun i => (150000000 * Z.of_nat (S i), 0)).

Definition is_notify (e : Event) : bool :=
  match e with NotifyOne => true | _ => false end.

(** Whether a loop whose counter stands at [c] passes 2000 within its next
    [n] increments. *)
Definition passes_2000 (c n : Z) : bool := (c <? 2000) && (2000 <=? c + n).

(** The passes of the receive loop in which a datagram of at least one
    byte arrived. *)
Fixpoint received (inputs : list (RecvResult * Z)) : Z :=
  match inputs with
  | [] => 0
  | (r, _) :: rest => (if 0 <? recv_n r then 1 else 0) + received rest
  end.

(** The command task is running and has counted [k] packets on top of
    [n0]. *)
Definition counted (n0 k : Z) (m : Udp.Mem) : Prop :=
  Udp.system_running m = true /\
  Udp.net_packets (Udp.global_stats m) = n0 + k.

(** A vehicle standing on the ground. *)
Definition at_rest (d : DroneState) : Prop :=
  altitude d = F32.zero /\ velocity d = F32.zero.

(** The least throttle of the command grid that lifts it: 40 when level,
    50 when pitched or rolled. *)
Definition takeoff_throttle (d : DroneState) : F32.float :=
  if F32.eqb (pitch d) F32.zero && F32.eqb (roll d) F32.zero
  then F32.of_Z 40 else F32.of_Z 50.

(** Whether the command line asks for the single-core mode. *)
Definition single_core (argv : list string) : bool :=
  String.eqb (nth 1 argv "") "1".

Definition Setup_eqb (a b : Setup) : bool :=
  match a, b with
  | Spawn x, Spawn y | Complain x, Complain y | Join x, Join y =>
      Thread_eqb x y
  | SetPriority x p, SetPriority y q | PinThread x p, PinThread y q =>
      Thread_eqb x y && (p =? q)
  | _, _ => false
  end.

(** Whether [main] performs the given step. *)
Definition asks (e : Setup) (setup : list Setup) : bool :=
  existsb (Setup_eqb e) setup.

(** The emergency status the monitor of udp_test_receiver.cpp would
    print. *)
Definition published_status (s : UdpSystem.System) : string :=
  Udp.emergency_status (Udp.global_stats (UdpSystem.mem s)).

(** The status is one of the three words, it has left [STANDBY] only if
    the flag is set, the emergency task has left its wait only if the flag
    is set, and [ACTIVE] is published only once that task has passed its
    wait. *)
Definition status_consistent (s : UdpSystem.System) : Prop :=
  In (published_status s) ["STANDBY"; "TRIGGERED"; "ACTIVE"] /\
  (published_status s = "STANDBY" \/ UdpSystem.emergency s = true) /\
  (UdpSystem.emergency_pc s = UdpSystem.Waiting \/
   UdpSystem.emergency s = true) /\
  (published_status s = "ACTIVE" ->
   UdpSystem.emergency_pc s = UdpSystem.Sleeping \/
   UdpSystem.emergency_pc s = UdpSystem.Blocked).

(** The lines of the timeline file a thread writes for an event type. *)
Definition is_timeline (thread event : string) (e : Event) : bool :=
  match e with
  | Timeline th ev _ => String.eqb th thread && String.eqb ev event
  | _ => false
  end.

Definition timeline_count (thread event : string) (log : list Event) : Z :=
  Z.of_nat (List.length (filter (is_timeline thread event) log)).

(** How often a reading of the preemption counter exceeds every earlier
    one and [last]. *)
Fixpoint rises (currents : list Z) (last : Z) : Z :=
  match currents with
  | [] => 0
  | c :: rest => (if last <? c then 1 else 0) + rises rest (Z.max last c)
  end.

(** The vision task is running and has counted [k] frames on top of
    [n0]. *)
Definition dc_framed (n0 k : Z) (m : DataCollector.Mem) : Prop :=
  DataCollector.system_running m = true /\
  DataCollector.vision_frames (DataCollector.global_stats m) = n0 + k.

Definition phase4_framed (n0 k : Z) (m : Phase4.Mem) : Prop :=
  Phase4.system_running m = true /\
  Phase4.vision_frames (Phase4.global_stats m) = n0 + k.


(** The pace of one cycle: [busy] ticks pass from the reading of the clock
    at its top to the call of [sleep_until], and the thread runs again
    [oversleep] ticks after the later of that call and the deadline. *)
Record Pace : Type := mkPace { busy : Z; oversleep : Z }.

(** The clock readings of a run of the flight loop that starts at [clock]
    with the deadline at [next_wake]: [sleep_until(next_wake)] returns no
    earlier than the deadline and no earlier than it was called. *)
Fixpoint paced (paces : list Pace) (clock next_wake : Z) : list FlightEnv :=
  match paces with
  | [] => []
  | c :: rest =>
      let deadline := next_wake + period in
      mkFlightEnv clock clock (clock + busy c) 0
      :: paced rest (Z.max (clock + busy c) deadline + oversleep c) deadline
  end.

(** The cycles that start more than a period after the deadline before
    them, when the first starts [lateness] ticks after it. *)
Fixpoint late_starts (paces : list Pace) (lateness : Z) : Z :=
  match paces with
  | [] => 0
  | c :: rest =>
      (if period <? lateness then 1 else 0)
      + late_starts rest (Z.max (lateness + busy c - period) 0 + oversleep c)
  end.

Definition unhurried (c : Pace) : Prop := 0 <= busy c /\ 0 <= oversleep c.

(** A cycle that is over, sleep included, within the period. *)
Definition on_time (c : Pace) : Prop :=
  unhurried c /\ busy c + oversleep c <= period.

(** A cycle that takes no time at all. *)
Definition instant (c : Pace) : Prop := busy c = 0 /\ oversleep c = 0.

(** The change of velocity in a cycle whose controls are zero:
    [((0 * 0.25) * 1 - 9.81) * 0.01] in binary32. *)
Definition fall_dv : F32.float := F32.mul (SFopp F32.f9_81) dt.

(** Altitude and velocity after such a cycle. *)
Definition fall_step (av : F32.float * F32.float) : F32.float * F32.float :=
  let v := F32.add (snd av) fall_dv in
  let a := F32.add (fst av) (F32.mul v dt) in
  if F32.ltb a F32.zero then (F32.zero, F32.zero) else (a, v).

Definition is_plus_zero (x : F32.float) : bool :=
  match x with S754_zero false => true | _ => false end.

(** Whether the vehicle gets strictly lower in every cycle, and strictly
    faster until the last, and the ground test leaves it at rest within
    [fuel] cycles; the number of cycles it takes. *)
Fixpoint lands (fuel : nat) (av : F32.float * F32.float) : option nat :=
  match fuel with
  | O => None
  | S fuel' =>
      let av' := fall_step av in
      if F32.ltb (fst av') (fst av)
      then if is_plus_zero (fst av') && is_plus_zero (snd av')
           then Some 1%nat
           else if F32.ltb (snd av') (snd av)
                then option_map S (lands fuel' av')
                else None
      else None
  end.

(** The heights 1, 2, ..., 100 m. *)
Definition drop_heights : list nat := seq 1 100.


(** * Properties *)

(** ** Numbers *)

(** The literals are the correctly rounded decimals. *)
Lemma f32_literals_rounded :
  F32.of_Z 0 = F32.zero /\ F32.of_Z 1 = F32.one /\
  F32.of_Z 10 = F32.f10 /\ F32.of_Z 15 = F32.f15 /\ F32.of_Z 100 = F32.f100 /\
  F32.of_decimal 25 100 = F32.f0_25 /\ F32.of_decimal 981 100 = F32.f9_81 /\
  F32.of_decimal 5 1000 = F32.f0_005 /\ F32.of_decimal 1 100 = F32.f0_01.
Proof. vm_compute. repeat split. Qed.

(** They are canonical binary32 numbers. *)
Lemma f32_literals_valid :
  forallb F32.valid
    [F32.zero; F32.one; F32.f0_25; F32.f9_81; F32.f0_005; F32.f0_01;
     F32.f10; F32.f15; F32.f100] = true.
Proof. vm_compute. reflexivity. Qed.

Lemma wrap_in_range z : Long.in_range z -> Long.wrap z = z.
Proof.
  unfold Long.in_range, Long.wrap, Long.min_value, Long.max_value.
  intros H. rewrite Z.mod_small; lia.
Qed.

Lemma wrap_range z : Long.in_range (Long.wrap z).
Proof.
  unfold Long.in_range, Long.wrap, Long.min_value, Long.max_value.
  pose proof (Z.mod_pos_bound (z + 2 ^ 63) (2 ^ 64) ltac:(lia)). lia.
Qed.

Lemma incr_in_range z : Long.in_range (z + 1) -> Long.incr z = z + 1.
Proof. intros H. unfold Long.incr, Long.add. now apply wrap_in_range. Qed.

(** ** Programs *)

Section Uniform.

Context {S : Type}.

Lemma uniform_ret {A} (a : A) : Prog.uniform (Prog.ret (S := S) a).
Proof. intros s l. cbv [Prog.ret Prog.result Prog.memory Prog.log fst snd].
       now rewrite app_nil_r. Qed.

Lemma uniform_emit e : Prog.uniform (Prog.emit (S := S) e).
Proof. intros s l. reflexivity. Qed.

Lemma uniform_get : Prog.uniform (Prog.get (S := S)).
Proof. intros s l. cbv [Prog.get Prog.result Prog.memory Prog.log fst snd].
       now rewrite app_nil_r. Qed.

Lemma uniform_modify f : Prog.uniform (Prog.modify (S := S) f).
Proof. intros s l. cbv [Prog.modify Prog.result Prog.memory Prog.log fst snd].
       now rewrite app_nil_r. Qed.

Lemma bind_run {A B} (c : Prog.t S A) (k : A -> Prog.t S B) s :
  Prog.uniform c -> Prog.uniform (k (Prog.result c s)) ->
  Prog.bind c k s []
  = (Prog.result (k (Prog.result c s)) (Prog.memory c s),
     Prog.memory (k (Prog.result c s)) (Prog.memory c s),
     (Prog.log c s ++ Prog.log (k (Prog.result c s)) (Prog.memory c s))%list).
Proof.
  intros Hc Hk. unfold Prog.bind. rewrite (Hc s []). cbn [app]. apply Hk.
Qed.

Lemma uniform_bind {A B} (c : Prog.t S A) (k : A -> Prog.t S B) :
  Prog.uniform c -> (forall a, Prog.uniform (k a)) ->
  Prog.uniform (Prog.bind c k).
Proof.
  intros Hc Hk s l.
  change (Prog.result (Prog.bind c k) s) with (fst (fst (Prog.bind c k s []))).
  change (Prog.memory (Prog.bind c k) s) with (snd (fst (Prog.bind c k s []))).
  change (Prog.log (Prog.bind c k) s) with (snd (Prog.bind c k s [])).
  rewrite (bind_run c k s Hc (Hk _)). cbn [fst snd].
  unfold Prog.bind. rewrite (Hc s l).
  rewrite (Hk _ (Prog.memory c s) (l ++ Prog.log c s)%list).
  now rewrite app_assoc.
Qed.

Lemma bind_memory {A B} (c : Prog.t S A) (k : A -> Prog.t S B) s :
  Prog.uniform c -> Prog.uniform (k (Prog.result c s)) ->
  Prog.memory (Prog.bind c k) s
  = Prog.memory (k (Prog.result c s)) (Prog.memory c s).
Proof.
  intros Hc Hk.
  change (Prog.memory (Prog.bind c k) s) with (snd (fst (Prog.bind c k s []))).
  now rewrite (bind_run c k s Hc Hk).
Qed.

Lemma bind_log {A B} (c : Prog.t S A) (k : A -> Prog.t S B) s :
  Prog.uniform c -> Prog.uniform (k (Prog.result c s)) ->
  Prog.log (Prog.bind c k) s
  = (Prog.log c s ++ Prog.log (k (Prog.result c s)) (Prog.memory c s))%list.
Proof.
  intros Hc Hk.
  change (Prog.log (Prog.bind c k) s) with (snd (Prog.bind c k s [])).
  now rewrite (bind_run c k s Hc Hk).
Qed.

(** A loop head: the test of [system_running]. *)
Lemma get_if_run {A} (test : S -> bool) (body : Prog.t S A) (a : A) s :
  Prog.bind Prog.get (fun m => if test m then body else Prog.ret a) s []
  = if test s then body s [] else (a, s, []).
Proof. unfold Prog.bind, Prog.get. now destruct (test s). Qed.

Lemma uniform_with_lock {A} m (c : Prog.t S A) :
  Prog.uniform c -> Prog.uniform (Prog.with_lock m c).
Proof.
  intros Hc. unfold Prog.with_lock.
  apply uniform_bind; [apply uniform_emit | intros _].
  apply uniform_bind; [exact Hc | intros r].
  apply uniform_bind; [apply uniform_emit | intros _; apply uniform_ret].
Qed.

Lemma uniform_when b (c : Prog.t S unit) :
  Prog.uniform c -> Prog.uniform (Prog.when b c).
Proof. intros Hc. destruct b; [exact Hc | apply uniform_ret]. Qed.

End Uniform.

Ltac uniform :=
  repeat first
    [ apply uniform_bind; [|intros ?]
    | apply uniform_with_lock
    | apply uniform_when
    | apply uniform_ret | apply uniform_emit | apply uniform_get
    | apply uniform_modify
    | match goal with
      | |- Prog.uniform (if ?b then _ else _) => destruct b
      | |- Prog.uniform (match ?r with Datagram _ => _ | Failure _ => _ end) =>
          destruct r
      end ].

Lemma ltb_zero_is_negative x : F32.ltb x F32.zero = F32.is_negative x.
Proof. destruct x as [[|]|[|]| |[|] m e]; reflexivity. Qed.

(** ** The flight critical section *)

Lemma integrate_altitude s : F32.ltb (altitude (integrate s)) F32.zero = false.
Proof.
  unfold integrate.
  destruct (F32.ltb (altitude (raw_step s)) F32.zero) eqn:E; [reflexivity | exact E].
Qed.

Lemma integrate_clamp s :
  hits_ground s = true ->
  altitude (integrate s) = F32.zero /\ velocity (integrate s) = F32.zero.
Proof.
  unfold hits_ground, integrate. intros ->. split; reflexivity.
Qed.

Lemma integrate_free s :
  hits_ground s = false -> integrate s = raw_step s.
Proof. unfold hits_ground, integrate. now intros ->. Qed.

Lemma fly_altitude inputs :
  forall s, Forall (fun s' => F32.ltb (altitude s') F32.zero = false)
                   (fly inputs s).
Proof.
  induction inputs as [|c rest IH]; intros s; simpl.
  - constructor.
  - constructor; [apply integrate_altitude | apply IH].
Qed.

Lemma fly_length inputs : forall s, List.length (fly inputs s) = List.length inputs.
Proof. induction inputs as [|c rest IH]; intros s; simpl; [|rewrite IH]; reflexivity. Qed.

(** C1: whatever throttle, pitch and roll are fed in and however many
    cycles are run, the altitude the integration step leaves behind is never
    below zero (the test [altitude < 0] is false of it), and in a cycle
    whose raw altitude is below zero both altitude and velocity come out as
    zero. *)
Theorem altitude_never_negative
    (inputs : list Controls) (s0 s : DroneState)
    (m : Udp.Mem) (m' : DataCollector.Mem) :
  Forall (fun s' => F32.ltb (altitude s') F32.zero = false) (fly inputs s0) /\
  List.length (fly inputs s0) = List.length inputs /\
  F32.ltb (altitude (flight_critical s)) F32.zero = false /\
  F32.is_negative (altitude (flight_critical s)) = false /\
  (if hits_ground (zero_controls s)
   then altitude (flight_critical s) = F32.zero /\
        velocity (flight_critical s) = F32.zero
   else flight_critical s = raw_step (zero_controls s)) /\
  Udp.shared_state (Prog.memory Udp.flight_critical_section m)
    = flight_critical (Udp.shared_state m) /\
  DataCollector.shared_state
      (Prog.memory DataCollector.flight_critical_section m')
    = flight_critical (DataCollector.shared_state m').
Proof.
  split; [apply fly_altitude|].
  split; [apply fly_length|].
  split; [apply integrate_altitude|].
  split; [rewrite <- ltb_zero_is_negative; apply integrate_altitude|].
  split; [|split; reflexivity].
  unfold flight_critical.
  destruct (hits_ground (zero_controls s)) eqn:E.
  - now apply integrate_clamp.
  - now apply integrate_free.
Qed.

(** With the flag set the controls are zeroed and the vehicle is then
    integrated in free fall. *)
Lemma zero_controls_set s :
  emergency_triggered s = true ->
  zero_controls s =
    set_roll F32.zero (set_pitch F32.zero (set_throttle F32.zero s)).
Proof. unfold zero_controls. now intros ->. Qed.

Lemma zero_controls_clear s :
  emergency_triggered s = false -> zero_controls s = s.
Proof. unfold zero_controls. now intros ->. Qed.

Lemma accel_zero_controls s :
  emergency_triggered s = true ->
  accel (zero_controls s) = SFopp F32.f9_81.
Proof. intros H. rewrite (zero_controls_set s H). reflexivity. Qed.

(** C5, as stated, fails: with the emergency flag set a cycle still
    integrates, so altitude and velocity change. *)
Lemma emergency_cycle_still_integrates :
  ~ (forall s, emergency_triggered s = true ->
               altitude (flight_critical s) = altitude s /\
               velocity (flight_critical s) = velocity s).
Proof.
  intros H. destruct (H falling eq_refl) as [Ha _].
  vm_compute in Ha. discriminate Ha.
Qed.

(** A vehicle released at rest from each of these heights lands within 500
    cycles. *)
Lemma all_land_true :
  forallb (fun h => match lands 500 (F32.of_Z (Z.of_nat h), F32.zero) with
                    | Some _ => true
                    | None => false
                    end) drop_heights = true.
Proof. vm_compute. reflexivity. Qed.

Lemma fall_dv_value :
  fall_dv = S754_finite true 13166759 (-27) /\
  F32.within (- (982 # 10000)) (- (980 # 10000)) fall_dv.
Proof.
  split; [vm_compute; reflexivity|].
  eexists. split; [vm_compute; reflexivity|]. split; vm_compute; discriminate.
Qed.

(** With the flag set a cycle takes altitude and velocity through
    [fall_step], whatever the controls were. *)
Lemma flight_critical_falls s :
  emergency_triggered s = true ->
  (altitude (flight_critical s), velocity (flight_critical s))
  = fall_step (altitude s, velocity s).
Proof.
  intros E. unfold flight_critical. rewrite (zero_controls_set s E).
  unfold integrate, raw_step, fall_step.
  rewrite <- (zero_controls_set s E), (accel_zero_controls s E).
  rewrite (zero_controls_set s E).
  destruct s as [t p r y a v e]. cbn [altitude velocity set_velocity
    set_altitude set_roll set_pitch set_throttle throttle pitch roll yaw
    emergency_triggered fst snd].
  fold fall_dv.
  destruct (F32.ltb _ _); reflexivity.
Qed.

Lemma iter_falls n : forall s,
  emergency_triggered s = true ->
  (altitude (Nat.iter n flight_critical s),
   velocity (Nat.iter n flight_critical s))
  = Nat.iter n fall_step (altitude s, velocity s).
Proof.
  induction n as [|n IH]; intros s E; [reflexivity|].
  rewrite !Nat.iter_succ_r, IH.
  - now rewrite flight_critical_falls.
  - unfold flight_critical, integrate. rewrite (zero_controls_set s E).
    destruct (F32.ltb _ _); exact E.
Qed.

Lemma is_plus_zero_eq x : is_plus_zero x = true -> x = F32.zero.
Proof. destruct x as [[|]|[|]| |[|] m e]; try discriminate. reflexivity. Qed.

Lemma lands_sound fuel : forall av n,
  lands fuel av = Some n ->
  (0 < n <= fuel)%nat /\
  Nat.iter n fall_step av = (F32.zero, F32.zero) /\
  (forall k, (k < n)%nat ->
     F32.ltb (fst (Nat.iter (S k) fall_step av))
             (fst (Nat.iter k fall_step av)) = true) /\
  (forall k, (S k < n)%nat ->
     F32.ltb (snd (Nat.iter (S k) fall_step av))
             (snd (Nat.iter k fall_step av)) = true).
Proof.
  induction fuel as [|fuel IH]; intros av n H; [discriminate|].
  cbn [lands] in H. cbv zeta in H.
  destruct (F32.ltb (fst (fall_step av)) (fst av)) eqn:La; [|discriminate].
  destruct (is_plus_zero (fst (fall_step av))
            && is_plus_zero (snd (fall_step av))) eqn:Z.
  - injection H as <-. apply andb_prop in Z. destruct Z as [Z1 Z2].
    apply is_plus_zero_eq in Z1, Z2.
    split; [lia|]. split.
    + cbn. destruct (fall_step av) as [a v]. cbn in *. now subst.
    + split; intros k Hk; [|lia].
      assert (k = 0%nat) by lia. subst k. exact La.
  - destruct (F32.ltb (snd (fall_step av)) (snd av)) eqn:Lv; [|discriminate].
    destruct (lands fuel (fall_step av)) as [n'|] eqn:L; [|discriminate].
    injection H as <-.
    destruct (IH _ _ L) as (Hn & Hz & Ha & Hv).
    split; [lia|]. split; [now rewrite Nat.iter_succ_r|].
    split; intros [|k] Hk.
    + exact La.
    + pose proof (Ha k ltac:(lia)) as Hk'.
      now rewrite <- !Nat.iter_succ_r in Hk'.
    + exact Lv.
    + pose proof (Hv k ltac:(lia)) as Hk'.
      now rewrite <- !Nat.iter_succ_r in Hk'.
Qed.

Lemma rest_stays j :
  Nat.iter j fall_step (F32.zero, F32.zero) = (F32.zero, F32.zero).
Proof.
  induction j as [|j IH]; [reflexivity|].
  rewrite Nat.iter_succ_r.
  replace (fall_step (F32.zero, F32.zero)) with (F32.zero, F32.zero)
    by (vm_compute; reflexivity).
  exact IH.
Qed.

Lemma drop_lands h :
  (1 <= h <= 100)%nat ->
  exists n, lands 500 (F32.of_Z (Z.of_nat h), F32.zero) = Some n.
Proof.
  intros Hh.
  assert (Hin : In h drop_heights) by (unfold drop_heights; apply in_seq; lia).
  pose proof (proj1 (forallb_forall _ _) all_land_true h Hin) as H.
  cbv beta in H.
  destruct (lands 500 (F32.of_Z (Z.of_nat h), F32.zero)) as [n|].
  - now exists n.
  - discriminate H.
Qed.

(** C5, amended: with the flag set the cycle zeroes throttle, pitch and
    roll and then integrates the vertical model with those zeroed controls:
    the acceleration is minus gravity, the velocity becomes
    [velocity + fall_dv] with [fall_dv = -9.81f * 0.01f] (about -0.0981) and
    the altitude [altitude + velocity * 0.01f], each operation rounded to
    binary32, and the ground test follows.  So a vehicle released at rest
    from 1, 2, ..., 100 m gets strictly lower in every cycle, and strictly
    faster until it lands, and after at most 500 cycles the ground test has
    put it at rest on the ground, where it stays.  The additions can absorb
    the change when the numbers are large: at altitude 2^40 and velocity
    2^22 a cycle changes neither.  With the flag clear the cycle integrates
    with the controls as they are.  Nothing but the integration touches
    altitude and velocity. *)
Theorem emergency_cycle_zeroes_then_integrates
    (s : DroneState) (m : Udp.Mem) (m' : DataCollector.Mem)
    (d : DroneState) (h : nat)
    (Hflag : emergency_triggered d = true)
    (Hrest : velocity d = F32.zero)
    (Hheight : altitude d = F32.of_Z (Z.of_nat h))
    (Hh : (1 <= h <= 100)%nat) :
  (if emergency_triggered s
   then flight_critical s =
          integrate (set_roll F32.zero
                       (set_pitch F32.zero (set_throttle F32.zero s))) /\
        throttle (flight_critical s) = F32.zero /\
        pitch (flight_critical s) = F32.zero /\
        roll (flight_critical s) = F32.zero /\
        accel (zero_controls s) = SFopp F32.f9_81 /\
        velocity (raw_step (zero_controls s))
        = F32.add (velocity s) fall_dv /\
        altitude (raw_step (zero_controls s))
        = F32.add (altitude s) (F32.mul (F32.add (velocity s) fall_dv) dt) /\
        (altitude (flight_critical s), velocity (flight_critical s))
        = fall_step (altitude s, velocity s)
   else flight_critical s = integrate s) /\
  emergency_triggered (flight_critical s) = emergency_triggered s /\
  yaw (flight_critical s) = yaw s /\
  Prog.memory Udp.flight_critical_section m =
    Udp.mkMem (flight_critical (Udp.shared_state m)) (Udp.global_stats m)
              (Udp.system_running m) /\
  Prog.memory DataCollector.flight_critical_section m' =
    DataCollector.mkMem (flight_critical (DataCollector.shared_state m'))
      (DataCollector.global_stats m') (DataCollector.system_running m') /\
  (fall_dv = S754_finite true 13166759 (-27) /\
   F32.within (- (982 # 10000)) (- (980 # 10000)) fall_dv) /\
  (exists n,
     (0 < n <= 500)%nat /\
     at_rest (Nat.iter n flight_critical d) /\
     (forall j, at_rest (Nat.iter (j + n) flight_critical d)) /\
     (forall k, (k < n)%nat ->
        F32.ltb (altitude (Nat.iter (S k) flight_critical d))
                (altitude (Nat.iter k flight_critical d)) = true) /\
     (forall k, (S k < n)%nat ->
        F32.ltb (velocity (Nat.iter (S k) flight_critical d))
                (velocity (Nat.iter k flight_critical d)) = true)) /\
  fall_step (F32.of_Z (2 ^ 40), F32.of_Z (2 ^ 22))
  = (F32.of_Z (2 ^ 40), F32.of_Z (2 ^ 22)).
Proof.
  split.
  { destruct (emergency_triggered s) eqn:E.
    - pose proof (flight_critical_falls s E) as Hf.
      unfold flight_critical in *. rewrite (zero_controls_set s E) in *.
      split; [reflexivity|].
      assert (Ha : accel (set_roll F32.zero
                            (set_pitch F32.zero (set_throttle F32.zero s)))
                   = SFopp F32.f9_81)
        by (rewrite <- (zero_controls_set s E); now apply accel_zero_controls).
      split; [|split; [|split; [|split; [exact Ha|]]]];
        try (unfold integrate; destruct (F32.ltb _ _); reflexivity).
      split; [|split; [|exact Hf]].
      + unfold raw_step. cbn [velocity set_velocity set_altitude].
        now rewrite Ha.
      + unfold raw_step. cbn [velocity altitude set_velocity set_altitude].
        now rewrite Ha.
    - unfold flight_critical. now rewrite (zero_controls_clear s E). }
  assert (Hframe :
            emergency_triggered (flight_critical s) = emergency_triggered s /\
            yaw (flight_critical s) = yaw s).
  { unfold flight_critical, integrate, zero_controls.
    destruct (emergency_triggered s) eqn:E; destruct (F32.ltb _ _);
      cbn; rewrite ?E; split; reflexivity. }
  split; [apply Hframe|]. split; [apply Hframe|].
  split; [reflexivity|]. split; [reflexivity|].
  split; [apply fall_dv_value|].
  split; [|vm_compute; reflexivity].
  destruct (drop_lands h Hh) as [n Hn].
  destruct (lands_sound _ _ _ Hn) as (Hb & Hz & Ha & Hv).
  assert (Hit : forall k,
            (altitude (Nat.iter k flight_critical d),
             velocity (Nat.iter k flight_critical d))
            = Nat.iter k fall_step (F32.of_Z (Z.of_nat h), F32.zero)).
  { intros k. rewrite (iter_falls k d Hflag). now rewrite Hheight, Hrest. }
  assert (Hal : forall k,
            altitude (Nat.iter k flight_critical d)
            = fst (Nat.iter k fall_step (F32.of_Z (Z.of_nat h), F32.zero)))
    by (intros k; now rewrite <- Hit).
  assert (Hve : forall k,
            velocity (Nat.iter k flight_critical d)
            = snd (Nat.iter k fall_step (F32.of_Z (Z.of_nat h), F32.zero)))
    by (intros k; now rewrite <- Hit).
  exists n. split; [exact Hb|].
  split; [split; [rewrite Hal | rewrite Hve]; now rewrite Hz|].
  split.
  { intros j. unfold at_rest. rewrite Hal, Hve, Nat.iter_add, Hz, rest_stays.
    split; reflexivity. }
  split; intros k Hk.
  - rewrite !Hal. now apply Ha.
  - rewrite !Hve. now apply Hv.
Qed.

(** From rest at ten metres with the throttle fully open. *)
Lemma emergency_cycle_zeroes_then_integrates_witness :
  emergency_triggered falling = true /\
  exists n, (0 < n <= 500)%nat /\ at_rest (Nat.iter n flight_critical falling).
Proof.
  split; [reflexivity|].
  destruct (emergency_cycle_zeroes_then_integrates falling Udp.Mem_init
              DataCollector.Mem_init falling 10 eq_refl eq_refl eq_refl
              ltac:(lia))
    as (_ & _ & _ & _ & _ & _ & (n & Hn & Hr & _) & _).
  exists n. split; [exact Hn | exact Hr].
Defined.

(** ** The command handler *)

Lemma is_command_false cmd s : is_command cmd = false -> command_effect cmd s = s.
Proof.
  unfold is_command, commands, command_effect. simpl existsb.
  repeat (destruct (String.eqb cmd _); [discriminate|]). reflexivity.
Qed.

Lemma handle_command_state cmd m :
  Udp.shared_state (Prog.memory (Udp.handle_command cmd) m)
  = command_effect cmd (Udp.shared_state m).
Proof.
  unfold Udp.handle_command, Prog.memory, Prog.with_lock, Prog.when.
  destruct (String.eqb cmd "PANIC"); reflexivity.
Qed.

Lemma handle_command_stats cmd m :
  Udp.global_stats (Prog.memory (Udp.handle_command cmd) m)
  = if String.eqb cmd "PANIC"
    then Udp.set_emergency_status "TRIGGERED" (Udp.global_stats m)
    else Udp.global_stats m.
Proof.
  unfold Udp.handle_command, Prog.memory, Prog.with_lock, Prog.when.
  destruct (String.eqb cmd "PANIC"); reflexivity.
Qed.

Lemma send_snoc cmds cmd : forall m,
  send (cmds ++ [cmd])%list m = Prog.memory (Udp.handle_command cmd) (send cmds m).
Proof.
  induction cmds as [|c rest IH]; intros m; simpl; [reflexivity | apply IH].
Qed.

Lemma repeat_snoc {A} (x : A) n : repeat x (S n) = (repeat x n ++ [x])%list.
Proof.
  induction n as [|n IH]; [reflexivity|].
  change (repeat x (S (S n))) with (x :: repeat x (S n)).
  rewrite IH at 1. reflexivity.
Qed.

Lemma up_on_grid t :
  In t throttle_grid ->
  In (F32.min F32.f100 (F32.add t F32.f10)) throttle_grid.
Proof.
  intros H. unfold throttle_grid in H. simpl map in H.
  repeat (destruct H as [<-|H]; [vm_compute; tauto|]). destruct H.
Qed.

Lemma down_on_grid t :
  In t throttle_grid ->
  In (F32.max F32.zero (F32.sub t F32.f10)) throttle_grid.
Proof.
  intros H. unfold throttle_grid in H. simpl map in H.
  repeat (destruct H as [<-|H]; [vm_compute; tauto|]). destruct H.
Qed.

Lemma grid_in_range t :
  In t throttle_grid ->
  F32.leb F32.zero t = true /\ F32.leb t F32.f100 = true /\
  F32.within 0 100 t.
Proof.
  intros H. unfold throttle_grid in H. simpl map in H.
  repeat (destruct H as [<-|H];
          [split; [reflexivity|split; [reflexivity|]];
           eexists; split; [reflexivity|split; vm_compute; discriminate]|]).
  destruct H.
Qed.

Lemma ups_throttle n :
  throttle (Udp.shared_state (send (repeat "UP" n) Udp.Mem_init))
  = F32.of_Z (Z.min (10 * Z.of_nat n) 100).
Proof.
  assert (Hbig : forall k,
             throttle (Udp.shared_state
                         (send (repeat "UP" (10 + k)) Udp.Mem_init)) = F32.f100).
  { induction k as [|k IH].
    - vm_compute. reflexivity.
    - replace (10 + S k)%nat with (S (10 + k)) by lia.
      rewrite repeat_snoc, send_snoc, handle_command_state.
      change (command_effect "UP" ?s)
        with (set_throttle (F32.min F32.f100 (F32.add (throttle s) F32.f10)) s).
      cbn [throttle set_throttle]. rewrite IH. vm_compute. reflexivity. }
  destruct (Nat.le_gt_cases 10 n) as [Hn|Hn].
  - replace n with (10 + (n - 10))%nat by lia. rewrite Hbig.
    replace (Z.min _ 100) with 100 by lia. reflexivity.
  - do 10 (destruct n as [|n]; [vm_compute; reflexivity|]). lia.
Qed.

Lemma dc_handle_command_state cmd current m :
  DataCollector.shared_state
    (Prog.memory (DataCollector.handle_command cmd current) m)
  = command_effect cmd (DataCollector.shared_state m).
Proof.
  unfold DataCollector.handle_command, Prog.memory, Prog.with_lock, Prog.when.
  destruct (String.eqb cmd "PANIC"); [reflexivity|].
  destruct (is_command cmd); reflexivity.
Qed.

(** The [PANIC] branch takes [stats_mutex] while it owns [state_mutex]. *)
Lemma panic_nests_locks m :
  never_both [] (Prog.log (Udp.handle_command "PANIC") m) = false.
Proof. reflexivity. Qed.

(** The emergency task still owns [state_mutex] when [cleanup_and_exit]
    locks it again. *)
Lemma task_emergency_relocks m :
  emergency_triggered (Udp.shared_state m) = true ->
  relocks [] (Prog.log Udp.task_emergency m) = true.
Proof.
  intros H. unfold Prog.log, Udp.task_emergency, Prog.bind, Prog.get, Prog.emit.
  rewrite H. reflexivity.
Qed.

Lemma handle_unknown cmd m :
  is_command cmd = false -> Prog.memory (Udp.handle_command cmd) m = m.
Proof.
  intros H.
  assert (Hp : String.eqb cmd "PANIC" = false).
  { unfold is_command, commands in H. simpl existsb in H.
    now destruct (String.eqb cmd "PANIC"). }
  pose proof (handle_command_state cmd m) as Hs.
  pose proof (handle_command_stats cmd m) as Ht.
  rewrite Hp in Ht. rewrite (is_command_false _ _ H) in Hs.
  unfold Udp.handle_command, Prog.memory, Prog.with_lock, Prog.when in *.
  rewrite Hp in *. cbn in *. destruct m as [ds st r]. cbn in *.
  now rewrite Hs.
Qed.

(** C3, as stated, fails: nine [UP]s from throttle 0 give 90, not 100. *)
Lemma nine_ups_give_ninety :
  ~ (throttle (Udp.shared_state (send (repeat "UP" 9) Udp.Mem_init))
     = F32.f100).
Proof. vm_compute. discriminate. Qed.

(** C3, amended: the handler compares the token with the eight command
    words exactly (case-sensitive, whole token).  [PANIC] sets the
    emergency flag, notifies and publishes the status; [UP] sets throttle to
    [min(100, throttle + 10)] and [DOWN] to [max(0, throttle - 10)];
    [FRONT]/[BACK] set pitch to +15/-15; [LEFT]/[RIGHT] set roll to
    -15/+15; [STOP] zeroes pitch and roll; any other token changes nothing.
    From throttle 0, two [UP]s give 20, [n] consecutive [UP]s give
    [min(10 n, 100)] - so nine give 90 and ten or more give exactly 100,
    never more - and [DOWN] gives 0. *)
Theorem command_table
    (cmd : string) (s : DroneState) (m : Udp.Mem) (n : nat)
    (current : Z) (m' : DataCollector.Mem) :
  Udp.shared_state (Prog.memory (Udp.handle_command cmd) m)
    = command_effect cmd (Udp.shared_state m) /\
  DataCollector.shared_state
      (Prog.memory (DataCollector.handle_command cmd current) m')
    = command_effect cmd (DataCollector.shared_state m') /\
  Udp.system_running (Prog.memory (Udp.handle_command cmd) m)
    = Udp.system_running m /\
  (if is_command cmd then True
   else Prog.memory (Udp.handle_command cmd) m = m) /\
  (command_effect "PANIC" s = set_emergency_triggered true s /\
   Udp.global_stats (Prog.memory (Udp.handle_command "PANIC") m)
     = Udp.set_emergency_status "TRIGGERED" (Udp.global_stats m) /\
   In NotifyOne (Prog.log (Udp.handle_command "PANIC") m)) /\
  (command_effect "UP" s
     = set_throttle (F32.min F32.f100 (F32.add (throttle s) F32.f10)) s /\
   command_effect "DOWN" s
     = set_throttle (F32.max F32.zero (F32.sub (throttle s) F32.f10)) s /\
   command_effect "FRONT" s = set_pitch F32.f15 s /\
   command_effect "BACK" s = set_pitch (SFopp F32.f15) s /\
   command_effect "LEFT" s = set_roll (SFopp F32.f15) s /\
   command_effect "RIGHT" s = set_roll F32.f15 s /\
   command_effect "STOP" s = set_roll F32.zero (set_pitch F32.zero s)) /\
  (is_command "up" = false /\ is_command "U" = false /\
   is_command "UPS" = false /\ is_command " UP" = false /\
   is_command "PANIC!" = false /\ is_command "Stop" = false /\
   is_command "" = false) /\
  (throttle (Udp.shared_state (send ["UP"; "UP"] Udp.Mem_init))
     = F32.of_Z 20 /\
   throttle (Udp.shared_state (send (repeat "UP" n) Udp.Mem_init))
     = F32.of_Z (Z.min (10 * Z.of_nat n) 100) /\
   F32.leb (throttle (Udp.shared_state (send (repeat "UP" n) Udp.Mem_init)))
           F32.f100 = true /\
   throttle (Udp.shared_state (send (repeat "UP" 9) Udp.Mem_init))
     = F32.of_Z 90 /\
   throttle (Udp.shared_state (send (repeat "UP" 10) Udp.Mem_init))
     = F32.f100 /\
   throttle (Udp.shared_state (send ["DOWN"] Udp.Mem_init)) = F32.zero).
Proof.
  split; [apply handle_command_state|].
  split; [apply dc_handle_command_state|].
  split.
  { unfold Udp.handle_command, Prog.memory, Prog.with_lock, Prog.when.
    destruct (String.eqb cmd "PANIC"); reflexivity. }
  split.
  { destruct (is_command cmd) eqn:E; [exact I | now apply handle_unknown]. }
  split; [repeat split; cbn; tauto|].
  split; [repeat split|].
  split; [repeat split|].
  split; [vm_compute; reflexivity|].
  split; [apply ups_throttle|].
  split.
  { rewrite ups_throttle.
    destruct (Z.min_spec (10 * Z.of_nat n) 100) as [[Hlt ->]|[Hge ->]];
      [|reflexivity].
    do 10 (destruct n as [|n]; [reflexivity|]). lia. }
  split; [vm_compute; reflexivity|].
  split; vm_compute; reflexivity.
Qed.

(** ** The receive loop of the command task *)

Ltac run_prog :=
  unfold Prog.log, Prog.memory, Prog.result;
  cbv [Udp.net_iteration Udp.net_count_packet Udp.handle_command
       DataCollector.net_iteration DataCollector.handle_command
       DataCollector.say
       Prog.with_lock Prog.when Prog.bind Prog.emit Prog.ret Prog.modify
       Prog.get Udp.modify_state Udp.modify_stats
       DataCollector.modify_state DataCollector.modify_stats].

Lemma recv_n_datagram c rest :
  (0 <? recv_n (Datagram (String c rest))) = true.
Proof. unfold recv_n. cbn [String.length]. apply Z.ltb_lt. lia. Qed.

Lemma udp_net_iteration_log r preempts m :
  polls_then_sleeps (Prog.log (Udp.net_iteration r preempts) m).
Proof.
  unfold polls_then_sleeps.
  destruct r as [[|c rest]|[|]]; try (repeat split; fail).
  run_prog. rewrite recv_n_datagram.
  destruct (String.eqb (c_string (String c rest)) "PANIC"); repeat split.
Qed.

Lemma dc_net_iteration_log r current preempts last m :
  polls_then_sleeps
    (Prog.log (DataCollector.net_iteration r current preempts last) m).
Proof.
  unfold polls_then_sleeps.
  destruct r as [[|c rest]|b]; try (repeat split; fail).
  run_prog. rewrite recv_n_datagram.
  destruct (last <? current);
    destruct (String.eqb (c_string (String c rest)) "PANIC");
    try destruct (is_command (c_string (String c rest)));
    repeat split.
Qed.

Lemma uniform_net_iteration r preempts :
  Prog.uniform (Udp.net_iteration r preempts).
Proof.
  unfold Udp.net_iteration, Udp.net_count_packet, Udp.handle_command,
    Udp.modify_state, Udp.modify_stats.
  uniform.
Qed.

Lemma sleeps_between_polls_app l1 : forall slept l2,
  sleeps_between_polls slept (l1 ++ l2)%list
  = sleeps_between_polls slept l1
    && sleeps_between_polls (slept_after slept l1) l2.
Proof.
  induction l1 as [|e rest IH]; intros slept l2; [reflexivity|].
  destruct e; cbn [app sleeps_between_polls slept_after]; rewrite ?IH;
    try reflexivity.
  now rewrite andb_assoc.
Qed.

Lemma net_iteration_paced r preempts m slept :
  sleeps_between_polls slept (Prog.log (Udp.net_iteration r preempts) m)
    = slept /\
  slept_after slept (Prog.log (Udp.net_iteration r preempts) m) = true.
Proof.
  destruct r as [[|c rest]|[|]]; try (split; cbn; now rewrite ?andb_true_r).
  run_prog. rewrite recv_n_datagram.
  destruct (String.eqb (c_string (String c rest)) "PANIC");
    split; cbn; now rewrite ?andb_true_r.
Qed.

Lemma uniform_task_networking inputs : Prog.uniform (Udp.task_networking inputs).
Proof.
  induction inputs as [|[r preempts] rest IH]; cbn [Udp.task_networking].
  - apply uniform_ret.
  - apply uniform_bind; [apply uniform_get | intros m].
    destruct (Udp.system_running m); [|apply uniform_ret].
    apply uniform_bind; [apply uniform_net_iteration | intros _; exact IH].
Qed.

Lemma task_networking_paced inputs : forall m,
  sleeps_between_polls true (Prog.log (Udp.task_networking inputs) m) = true.
Proof.
  induction inputs as [|[r preempts] rest IH]; intros m; [reflexivity|].
  unfold Prog.log. cbn [Udp.task_networking]. rewrite get_if_run.
  destruct (Udp.system_running m); [|reflexivity].
  rewrite bind_run
    by (apply uniform_net_iteration || apply uniform_task_networking).
  cbn [snd]. rewrite sleeps_between_polls_app.
  destruct (net_iteration_paced r preempts m true) as [-> ->].
  apply IH.
Qed.

(** The token handled in a pass is the datagram cut at its first NUL. *)
Lemma net_iteration_token payload preempts m :
  Udp.shared_state
    (Prog.memory (Udp.net_iteration (Datagram payload) preempts) m)
  = command_effect (c_string payload) (Udp.shared_state m).
Proof.
  destruct payload as [|c rest]; [reflexivity|].
  run_prog. rewrite recv_n_datagram.
  destruct (String.eqb (c_string (String c rest)) "PANIC"); reflexivity.
Qed.

(** C8, as stated, fails: a pass that received a token sleeps as well. *)
Lemma received_token_still_sleeps :
  ~ (forall payload preempts m,
       0 < recv_n (Datagram payload) ->
       existsb is_sleep
         (Prog.log (Udp.net_iteration (Datagram payload) preempts) m) = false).
Proof.
  intros H. specialize (H "UP" 0 Udp.Mem_init ltac:(reflexivity)).
  vm_compute in H. discriminate H.
Qed.

(** C8, amended: every pass of the command task's receive loop polls the
    socket once without blocking and ends with the ten-millisecond sleep,
    whether the poll returned a token, nothing, or an error; after a pass
    that received a token the task sleeps before it polls again, so in any
    run of the loop there is a sleep between two polls.  Both variants of
    the task behave so. *)
Theorem receive_loop_always_sleeps
    (r : RecvResult) (preempts current last : Z)
    (inputs : list (RecvResult * Z))
    (m : Udp.Mem) (m' : DataCollector.Mem) :
  sleeps_between_polls true (Prog.log (Udp.task_networking inputs) m) = true /\
  polls_then_sleeps (Prog.log (Udp.net_iteration r preempts) m) /\
  polls_then_sleeps
    (Prog.log (DataCollector.net_iteration r current preempts last) m') /\
  Prog.log (Udp.net_iteration (Datagram "UP") preempts) m
    = [RecvFrom; Lock stats_mutex; Unlock stats_mutex;
       Lock state_mutex; Unlock state_mutex; SleepFor 10000000] /\
  Prog.log (Udp.net_iteration (Failure true) preempts) m
    = [RecvFrom; SleepFor 10000000].
Proof.
  split; [apply task_networking_paced|].
  split; [apply udp_net_iteration_log|].
  split; [apply dc_net_iteration_log|].
  split; reflexivity.
Qed.

(** ** The monitor *)

Lemma never_both_app l1 : forall held l2,
  never_both held (l1 ++ l2)%list
  = never_both held l1 && never_both (held_after held l1) l2.
Proof.
  induction l1 as [|e rest IH]; intros held l2.
  - cbn [app never_both held_after fold_left].
    destruct l2; cbn [never_both]; destruct (owns_both held); reflexivity.
  - cbn [app never_both held_after fold_left]. rewrite IH.
    unfold held_after. now rewrite andb_assoc.
Qed.

Lemma uniform_monitor_iteration : Prog.uniform Udp.monitor_iteration.
Proof.
  unfold Udp.monitor_iteration, Udp.monitor_read_stats,
    Udp.monitor_read_state, Udp.modify_stats.
  uniform.
Qed.

Lemma uniform_task_monitor passes : Prog.uniform (Udp.task_monitor passes).
Proof.
  induction passes as [|n IH]; cbn [Udp.task_monitor]; [apply uniform_ret|].
  apply uniform_bind; [apply uniform_get | intros m].
  destruct (Udp.system_running m); [|apply uniform_ret].
  apply uniform_bind; [apply uniform_monitor_iteration | intros row].
  apply uniform_bind; [exact IH | intros rows; apply uniform_ret].
Qed.

Lemma task_monitor_unfold n m :
  Udp.system_running m = true ->
  Prog.memory (Udp.task_monitor (S n)) m
    = Prog.memory (Udp.task_monitor n)
        (Prog.memory Udp.monitor_iteration m) /\
  Prog.log (Udp.task_monitor (S n)) m
    = (Prog.log Udp.monitor_iteration m
       ++ Prog.log (Udp.task_monitor n)
            (Prog.memory Udp.monitor_iteration m))%list.
Proof.
  intros R.
  assert (Hk : forall row,
             Prog.uniform (Prog.bind (Udp.task_monitor n)
                             (fun rows => Prog.ret (row :: rows)))).
  { intros row. apply uniform_bind; [apply uniform_task_monitor|].
    intros rows. apply uniform_ret. }
  unfold Prog.memory at 1, Prog.log at 1.
  cbn [Udp.task_monitor]. rewrite get_if_run, R.
  rewrite bind_run by (apply uniform_monitor_iteration || apply Hk).
  cbn [fst snd].
  rewrite bind_memory, bind_log
    by (apply uniform_task_monitor || apply uniform_ret).
  cbn [Prog.ret Prog.memory Prog.log fst snd]. now rewrite app_nil_r.
Qed.

Lemma task_monitor_run n : forall m,
  never_both [] (Prog.log (Udp.task_monitor n) m) = true /\
  held_after [] (Prog.log (Udp.task_monitor n) m) = [] /\
  Prog.memory (Udp.task_monitor n) m
    = if (0 <? Z.of_nat n) && Udp.system_running m
      then Udp.mkMem (Udp.shared_state m)
             (Udp.set_net_packets 0 (Udp.global_stats m))
             (Udp.system_running m)
      else m.
Proof.
  induction n as [|n IH]; intros m; [repeat split|].
  destruct (Udp.system_running m) eqn:R.
  - destruct (task_monitor_unfold n m R) as [-> ->].
    destruct (IH (Prog.memory Udp.monitor_iteration m)) as (Hn & Hh & Hm).
    rewrite never_both_app. unfold held_after in *. rewrite fold_left_app.
    change (fold_left held_step (Prog.log Udp.monitor_iteration m) [])
      with (@nil Mutex).
    rewrite Hn, Hh, Hm.
    change (never_both [] (Prog.log Udp.monitor_iteration m)) with true.
    split; [reflexivity|]. split; [reflexivity|].
    replace (0 <? Z.of_nat (S n)) with true by (symmetry; apply Z.ltb_lt; lia).
    change (Prog.memory Udp.monitor_iteration m)
      with (Udp.mkMem (Udp.shared_state m)
              (Udp.set_net_packets 0 (Udp.global_stats m))
              (Udp.system_running m)).
    cbn [Udp.system_running]. rewrite R.
    destruct (0 <? Z.of_nat n); reflexivity.
  - unfold Prog.memory, Prog.log.
    cbn [Udp.task_monitor]. rewrite get_if_run, R.
    rewrite andb_false_r. repeat split.
Qed.

(** Statistics with thirty frames per second on display. *)
Lemma monitor_keeps_vision_fps_example :
  Udp.vision_fps
    (Udp.global_stats (Prog.memory Udp.monitor_iteration busy_memory)) = 30.
Proof. reflexivity. Qed.

(** C6, as stated, fails: the monitor of udp_test_receiver.cpp leaves the
    frame statistic as it found it. *)
Lemma monitor_does_not_reset_frames :
  ~ (forall m,
       Udp.net_packets
         (Udp.global_stats (Prog.memory Udp.monitor_iteration m)) = 0 /\
       Udp.vision_fps
         (Udp.global_stats (Prog.memory Udp.monitor_iteration m)) = 0).
Proof.
  intros H. destruct (H busy_memory) as [_ Hf].
  vm_compute in Hf. discriminate Hf.
Qed.

(** C6, amended: in udp_test_receiver.cpp a monitor pass reads the
    statistics under [stats_mutex], releases it, then reads altitude and
    throttle under [state_mutex], never owning both; it resets the packet
    count only ([vision_fps] is a rate written by the vision task and is
    left alone) and changes nothing else.  In data_collector.cpp a pass
    reads the statistics under [stats_mutex], resets the frame count and the
    packet count, and neither locks nor reads the drone state.  In both the
    printed row holds the values read before the reset; over any number of
    passes the monitor of udp_test_receiver.cpp leaves the memory as it was
    but for the packet count. *)
Theorem monitor_frame
    (passes : nat) (m : Udp.Mem) (m' : DataCollector.Mem) :
  (never_both [] (Prog.log (Udp.task_monitor passes) m) = true /\
   Prog.memory (Udp.task_monitor passes) m
     = if (0 <? Z.of_nat passes) && Udp.system_running m
       then Udp.mkMem (Udp.shared_state m)
              (Udp.set_net_packets 0 (Udp.global_stats m))
              (Udp.system_running m)
       else m) /\
  (Prog.log Udp.monitor_iteration m
     = [SleepFor 1000000000; Lock stats_mutex; Unlock stats_mutex;
        Lock state_mutex; Unlock state_mutex; Console "| row |"] /\
   never_both [] (Prog.log Udp.monitor_iteration m) = true /\
   Prog.memory Udp.monitor_iteration m
     = Udp.mkMem (Udp.shared_state m)
         (Udp.set_net_packets 0 (Udp.global_stats m))
         (Udp.system_running m) /\
   Udp.vision_fps (Udp.global_stats (Prog.memory Udp.monitor_iteration m))
     = Udp.vision_fps (Udp.global_stats m) /\
   Udp.n_pack (Prog.result Udp.monitor_iteration m)
     = Udp.net_packets (Udp.global_stats m) /\
   Udp.v_fps (Prog.result Udp.monitor_iteration m)
     = Udp.vision_fps (Udp.global_stats m) /\
   Udp.alt (Prog.result Udp.monitor_iteration m)
     = altitude (Udp.shared_state m) /\
   Udp.thr (Prog.result Udp.monitor_iteration m)
     = throttle (Udp.shared_state m)) /\
  (Prog.log DataCollector.monitor_iteration m'
     = [SleepFor 1000000000; Lock stats_mutex; Unlock stats_mutex;
        Lock console_mutex; Console "| row |"; Unlock console_mutex] /\
   never_both [] (Prog.log DataCollector.monitor_iteration m') = true /\
   Prog.memory DataCollector.monitor_iteration m'
     = DataCollector.mkMem (DataCollector.shared_state m')
         (DataCollector.set_net_packets 0
            (DataCollector.set_vision_frames 0
               (DataCollector.global_stats m')))
         (DataCollector.system_running m') /\
   DataCollector.n_pack (Prog.result DataCollector.monitor_iteration m')
     = DataCollector.net_packets (DataCollector.global_stats m') /\
   DataCollector.v_fps (Prog.result DataCollector.monitor_iteration m')
     = DataCollector.vision_frames (DataCollector.global_stats m')).
Proof.
  destruct (task_monitor_run passes m) as (Hn & _ & Hm).
  split; [split; assumption|]. repeat split.
Qed.

(** ** The flight loop: deadlines and statistics *)

Lemma flight_iteration_steps env nw s l :
  exists l',
    Udp.flight_iteration env nw s l
    = (next_deadline nw,
       Udp.mkMem
         (flight_critical (Udp.shared_state s))
         (Udp.set_flight
            (Long.incr (Udp.flight_loops (Udp.global_stats s)))
            (exec_avg (Udp.flight_exec_avg_us (Udp.global_stats s)) (sample env))
            (preempts_read env)
            (if deadline_missed (now_at_check env) (next_deadline nw)
             then Udp.set_flight_deadline_misses
                    (Long.incr (Udp.flight_deadline_misses (Udp.global_stats s)))
                    (Udp.global_stats s)
             else Udp.global_stats s))
         (Udp.system_running s),
       l').
Proof.
  unfold Udp.flight_iteration, Udp.flight_check_deadline, sample.
  destruct (deadline_missed (now_at_check env) (next_deadline nw));
    eexists; reflexivity.
Qed.

Lemma task_flight_stopped envs : forall nw s l,
  Udp.system_running s = false -> Udp.task_flight envs nw s l = (nw, s, l).
Proof.
  destruct envs as [|env rest]; intros nw s l H; [reflexivity|].
  cbn [Udp.task_flight]. unfold Prog.bind at 1, Prog.get. now rewrite H.
Qed.

Lemma task_flight_cons env rest nw s l :
  Udp.system_running s = true ->
  Udp.task_flight (env :: rest) nw s l
  = let '(nw', s', l') := Udp.flight_iteration env nw s l in
    Udp.task_flight rest nw' s' l'.
Proof.
  intros H. cbn [Udp.task_flight]. unfold Prog.bind at 1, Prog.get.
  rewrite H. reflexivity.
Qed.

Lemma task_flight_app l1 : forall l2 nw s l,
  Udp.task_flight (l1 ++ l2)%list nw s l
  = let '(nw', s', l') := Udp.task_flight l1 nw s l in
    Udp.task_flight l2 nw' s' l'.
Proof.
  induction l1 as [|env rest IH]; intros l2 nw s l; [reflexivity|].
  destruct (Udp.system_running s) eqn:R.
  - rewrite <- app_comm_cons, !task_flight_cons by exact R.
    destruct (Udp.flight_iteration env nw s l) as [[nw' s'] l'].
    apply IH.
  - rewrite !task_flight_stopped by exact R. reflexivity.
Qed.

Lemma task_flight_running envs : forall nw s l,
  Udp.system_running (snd (fst (Udp.task_flight envs nw s l)))
  = Udp.system_running s.
Proof.
  induction envs as [|env rest IH]; intros nw s l; [reflexivity|].
  destruct (Udp.system_running s) eqn:R.
  - rewrite task_flight_cons by exact R.
    destruct (flight_iteration_steps env nw s l) as [l' ->].
    rewrite IH. exact R.
  - rewrite task_flight_stopped by exact R. exact R.
Qed.

Lemma next_deadline_exact nw :
  Long.in_range (nw + period) -> next_deadline nw = nw + period.
Proof. intros H. unfold next_deadline, Long.add. now apply wrap_in_range. Qed.

Lemma delayed_cycles_bounds envs : forall nw,
  0 <= delayed_cycles envs nw <= Z.of_nat (List.length envs).
Proof.
  induction envs as [|env rest IH]; intros nw.
  - cbn. lia.
  - cbn [delayed_cycles List.length]. specialize (IH (nw + period)).
    destruct (period <? now_at_check env - nw); lia.
Qed.

Lemma delayed_cycles_app l1 : forall l2 nw,
  delayed_cycles (l1 ++ l2)%list nw
  = delayed_cycles l1 nw
    + delayed_cycles l2 (nw + period * Z.of_nat (List.length l1)).
Proof.
  induction l1 as [|env rest IH]; intros l2 nw.
  - cbn. f_equal. lia.
  - cbn [app delayed_cycles List.length]. rewrite IH.
    replace (nw + period + period * Z.of_nat (List.length rest))
      with (nw + period * Z.of_nat (S (List.length rest))) by lia.
    lia.
Qed.

Lemma task_flight_accounting envs : forall nw s l,
  Udp.system_running s = true ->
  Long.min_value <= nw ->
  nw + period * Z.of_nat (List.length envs) <= Long.max_value ->
  Long.min_value <= Udp.flight_deadline_misses (Udp.global_stats s) ->
  Udp.flight_deadline_misses (Udp.global_stats s)
    + Z.of_nat (List.length envs) <= Long.max_value ->
  fst (fst (Udp.task_flight envs nw s l))
    = nw + period * Z.of_nat (List.length envs) /\
  Udp.flight_deadline_misses
    (Udp.global_stats (snd (fst (Udp.task_flight envs nw s l))))
    = Udp.flight_deadline_misses (Udp.global_stats s)
      + delayed_cycles envs nw.
Proof.
  induction envs as [|env rest IH]; intros nw s l R Hlo Hhi Mlo Mhi.
  - cbn. split; lia.
  - cbn [List.length] in Hhi, Mhi. rewrite Nat2Z.inj_succ in Hhi, Mhi.
    assert (Hp : 0 < period) by reflexivity.
    assert (Hn : next_deadline nw = nw + period).
    { apply next_deadline_exact. unfold Long.in_range. nia. }
    rewrite task_flight_cons by exact R.
    destruct (flight_iteration_steps env nw s l) as [l' ->].
    rewrite Hn. cbn [List.length delayed_cycles]. rewrite Nat2Z.inj_succ.
    match goal with
    | |- context [Udp.task_flight rest _ ?m l'] => set (s' := m)
    end.
    assert (Hm' : Udp.flight_deadline_misses (Udp.global_stats s')
                  = Udp.flight_deadline_misses (Udp.global_stats s)
                    + (if period <? now_at_check env - nw then 1 else 0)).
    { subst s'. unfold deadline_missed.
      cbn [Udp.global_stats Udp.set_flight Udp.flight_deadline_misses].
      destruct (nw + period <? now_at_check env) eqn:E1;
        destruct (period <? now_at_check env - nw) eqn:E2;
        cbn [Udp.set_flight_deadline_misses Udp.flight_deadline_misses];
        try rewrite incr_in_range by (unfold Long.in_range; lia);
        try lia;
        (apply Z.ltb_lt in E1 || apply Z.ltb_ge in E1);
        (apply Z.ltb_lt in E2 || apply Z.ltb_ge in E2); lia. }
    assert (Hb : 0 <= (if period <? now_at_check env - nw then 1 else 0) <= 1)
      by (destruct (period <? now_at_check env - nw); lia).
    destruct (IH (nw + period) s' l') as [Hd Hm];
      try exact R; try (rewrite Hm'); lia.
Qed.

Lemma phase4_flight_iteration env loc p :
  Phase4.deadline (Prog.result (Phase4.flight_iteration env loc) p)
    = next_deadline (Phase4.deadline loc) /\
  Phase4.flight_deadline_misses
    (Phase4.global_stats (Prog.memory (Phase4.flight_iteration env loc) p))
    = (if deadline_missed (start_time env) (next_deadline (Phase4.deadline loc))
       then Long.incr
              (Phase4.flight_deadline_misses (Phase4.global_stats p))
       else Phase4.flight_deadline_misses (Phase4.global_stats p)) /\
  Phase4.flight_exec_avg_us
    (Phase4.global_stats (Prog.memory (Phase4.flight_iteration env loc) p))
    = exec_avg (Phase4.flight_exec_avg_us (Phase4.global_stats p)) (sample env).
Proof.
  unfold Phase4.flight_iteration, Prog.result, Prog.memory, Prog.when, sample.
  destruct (deadline_missed _ _);
    destruct (Phase4.int_incr (Phase4.count loc) =? 2000); repeat split.
Qed.

Lemma accounting_after envs nw m :
  Udp.system_running m = true ->
  Long.min_value <= nw ->
  nw + period * Z.of_nat (List.length envs) <= Long.max_value ->
  Long.min_value <= Udp.flight_deadline_misses (Udp.global_stats m) ->
  Udp.flight_deadline_misses (Udp.global_stats m)
    + Z.of_nat (List.length envs) <= Long.max_value ->
  deadline_after envs nw m = nw + period * Z.of_nat (List.length envs) /\
  misses_after envs nw m
    = Udp.flight_deadline_misses (Udp.global_stats m) + delayed_cycles envs nw.
Proof. intros. now apply task_flight_accounting. Qed.

Lemma paced_length paces : forall clock nw,
  List.length (paced paces clock nw) = List.length paces.
Proof.
  induction paces as [|c rest IH]; intros clock nw; cbn; [|rewrite IH];
    reflexivity.
Qed.

Lemma delayed_paced paces : forall clock nw,
  delayed_cycles (paced paces clock nw) nw = late_starts paces (clock - nw).
Proof.
  induction paces as [|c rest IH]; intros clock nw; [reflexivity|].
  cbn [paced delayed_cycles late_starts now_at_check]. rewrite IH.
  do 2 f_equal. lia.
Qed.

Lemma late_starts_bounds paces : forall l,
  0 <= late_starts paces l <= Z.of_nat (List.length paces).
Proof.
  induction paces as [|c rest IH]; intros l; cbn [late_starts List.length];
    [lia|].
  specialize (IH (Z.max (l + busy c - period) 0 + oversleep c)).
  destruct (period <? l); lia.
Qed.

Lemma late_starts_on_time paces : forall l,
  l <= period -> Forall on_time paces -> late_starts paces l = 0.
Proof.
  induction paces as [|c rest IH]; intros l Hl Hp; [reflexivity|].
  inversion Hp as [|? ? [[Hb Ho] Hc] Hr]; subst.
  cbn [late_starts].
  replace (period <? l) with false by (symmetry; apply Z.ltb_ge; lia).
  rewrite IH; [reflexivity | lia | exact Hr].
Qed.

Lemma late_starts_instant paces : forall l,
  0 <= l -> Forall instant paces ->
  late_starts paces l
  = Z.min (Z.of_nat (List.length paces)) (Z.max 0 ((l - 1) / period)).
Proof.
  assert (Hp : period = 10000000) by reflexivity.
  induction paces as [|c rest IH]; intros l Hl Hi.
  - cbn. lia.
  - inversion Hi as [|? ? [Hb Ho] Hr]; subst.
    cbn [late_starts List.length]. rewrite Hb, Ho, IH by (lia || assumption).
    rewrite Nat2Z.inj_succ.
    destruct (period <? l) eqn:E;
      [apply Z.ltb_lt in E | apply Z.ltb_ge in E]; rewrite Hp in *.
    + replace (Z.max (l + 0 - 10000000) 0 + 0) with (l - 10000000) by lia.
      replace ((l - 10000000 - 1) / 10000000) with ((l - 1) / 10000000 - 1)
        by (Z.to_euclidean_division_equations; lia).
      assert (1 <= (l - 1) / 10000000)
        by (Z.to_euclidean_division_equations; lia).
      lia.
    + replace (Z.max (l + 0 - 10000000) 0 + 0) with 0 by lia.
      assert ((l - 1) / 10000000 <= 0)
        by (Z.to_euclidean_division_equations; lia).
      assert ((0 - 1) / 10000000 <= 0)
        by (Z.to_euclidean_division_equations; lia).
      lia.
Qed.

Lemma late_starts_mono paces : forall l l',
  l <= l' -> late_starts paces l <= late_starts paces l'.
Proof.
  induction paces as [|c rest IH]; intros l l' H; cbn [late_starts]; [lia|].
  specialize (IH (Z.max (l + busy c - period) 0 + oversleep c)
                 (Z.max (l' + busy c - period) 0 + oversleep c) ltac:(lia)).
  destruct (period <? l) eqn:E1; destruct (period <? l') eqn:E2; lia.
Qed.

Lemma late_starts_at_least paces : forall l,
  0 <= l -> Forall unhurried paces ->
  Z.min (Z.of_nat (List.length paces)) (Z.max 0 ((l - 1) / period))
  <= late_starts paces l.
Proof.
  assert (Hp : period = 10000000) by reflexivity.
  induction paces as [|c rest IH]; intros l Hl Hu.
  - cbn. lia.
  - inversion Hu as [|? ? [Hb Ho] Hr]; subst.
    cbn [late_starts List.length]. rewrite Nat2Z.inj_succ.
    pose proof (IH (Z.max (l - period) 0) ltac:(lia) Hr) as H1.
    pose proof (late_starts_mono rest (Z.max (l - period) 0)
                  (Z.max (l + busy c - period) 0 + oversleep c) ltac:(lia))
      as H2.
    destruct (period <? l) eqn:E;
      [apply Z.ltb_lt in E | apply Z.ltb_ge in E]; rewrite Hp in *.
    + replace (Z.max (l - 10000000) 0) with (l - 10000000) in H1, H2 by lia.
      replace ((l - 10000000 - 1) / 10000000) with ((l - 1) / 10000000 - 1)
        in H1 by (Z.to_euclidean_division_equations; lia).
      lia.
    + assert ((l - 1) / 10000000 <= 0)
        by (Z.to_euclidean_division_equations; lia).
      pose proof (late_starts_bounds rest
                    (Z.max (l + busy c - 10000000) 0 + oversleep c)).
      lia.
Qed.

Lemma one_delay_recorded delay followers nw m :
  Udp.system_running m = true ->
  Long.min_value <= nw ->
  nw + period * Z.of_nat (S (List.length followers)) <= Long.max_value ->
  Long.min_value <= Udp.flight_deadline_misses (Udp.global_stats m) ->
  Udp.flight_deadline_misses (Udp.global_stats m)
    + Z.of_nat (S (List.length followers)) <= Long.max_value ->
  misses_after (paced (mkPace delay 0 :: followers) nw nw) nw m
  - Udp.flight_deadline_misses (Udp.global_stats m)
  = late_starts followers (Z.max (delay - period) 0).
Proof.
  intros R Hlo Hhi Mlo Mhi.
  destruct (accounting_after (paced (mkPace delay 0 :: followers) nw nw) nw m)
    as [_ ->]; rewrite ?paced_length; try assumption.
  rewrite delayed_paced. cbn [late_starts busy oversleep].
  rewrite Z.sub_diag. cbn [Z.ltb Z.compare].
  replace (period <? 0) with false by reflexivity.
  f_equal; lia || (ring_simplify; f_equal; lia).
Qed.

(** C2, as stated, fails: a cycle delayed by 15 ms, more than one period,
    is followed by a start that is 5 ms late, within the new deadline, and
    no miss is recorded. *)
Lemma delayed_cycle_not_one_miss :
  ~ (forall delay, period < delay ->
       misses_after
         (paced [mkPace delay 0; mkPace 0 0; mkPace 0 0; mkPace 0 0] 0 0)
         0 Udp.Mem_init = 1).
Proof.
  intros H. specialize (H 15000000 eq_refl). vm_compute in H. discriminate H.
Qed.

(** C2, amended: in every cycle of the flight loop the deadline is the
    previous deadline plus the 10 ms period, and the miss counter goes up by
    one exactly when the clock read at the start of the cycle is past that
    deadline, that is, when the cycle starts more than one period after the
    previous deadline; otherwise it stays.  A delay inside a cycle is
    therefore not counted in that cycle but in the cycles that follow, one
    for every later deadline that has passed when they start: after a
    cycle that takes [delay] from an on-time start the loop records no miss
    if the delay is at most two periods and the following cycles are on
    time, exactly [min(n, max(0, (delay - period - 1) / period))] misses in
    [n] following cycles that take no time, and at least that many
    whatever time they take - not one per delayed cycle. *)
Theorem deadline_accounting
    (before : list FlightEnv) (env : FlightEnv) (rest : list FlightEnv)
    (next_wake : Z) (m : Udp.Mem)
    (loc : Phase4.Locals) (p : Phase4.Mem)
    (delay : Z) (followers : list Pace)
    (Hrun : Udp.system_running m = true)
    (Hlo : Long.min_value <= next_wake)
    (Hhi : next_wake
           + period * Z.of_nat (List.length (before ++ env :: rest)%list)
           <= Long.max_value)
    (Mlo : Long.min_value <= Udp.flight_deadline_misses (Udp.global_stats m))
    (Mhi : Udp.flight_deadline_misses (Udp.global_stats m)
           + Z.of_nat (List.length (before ++ env :: rest)%list)
           <= Long.max_value)
    (Hfit : next_wake + period * Z.of_nat (S (List.length followers))
            <= Long.max_value)
    (Mfit : Udp.flight_deadline_misses (Udp.global_stats m)
            + Z.of_nat (S (List.length followers)) <= Long.max_value) :
  let previous := deadline_after before next_wake m in
  let deadline := deadline_after (before ++ [env])%list next_wake m in
  let missed := misses_after before next_wake m in
  let missed' := misses_after (before ++ [env])%list next_wake m in
  let recorded :=
    misses_after (paced (mkPace delay 0 :: followers) next_wake next_wake)
      next_wake m
    - Udp.flight_deadline_misses (Udp.global_stats m) in
  let passed := Z.max 0 ((delay - period - 1) / period) in
  period = 10 * 1000000 /\
  deadline = previous + period /\
  missed' = missed + (if deadline_missed (now_at_check env) deadline
                      then 1 else 0) /\
  (if period <? now_at_check env - previous
   then missed' = missed + 1 else missed' = missed) /\
  misses_after (before ++ env :: rest)%list next_wake m
    = Udp.flight_deadline_misses (Udp.global_stats m)
      + delayed_cycles (before ++ env :: rest)%list next_wake /\
  Phase4.deadline (Prog.result (Phase4.flight_iteration env loc) p)
    = next_deadline (Phase4.deadline loc) /\
  Phase4.flight_deadline_misses
    (Phase4.global_stats (Prog.memory (Phase4.flight_iteration env loc) p))
    = (if deadline_missed (start_time env) (next_deadline (Phase4.deadline loc))
       then Long.incr
              (Phase4.flight_deadline_misses (Phase4.global_stats p))
       else Phase4.flight_deadline_misses (Phase4.global_stats p)) /\
  recorded = late_starts followers (Z.max (delay - period) 0) /\
  0 <= recorded <= Z.of_nat (List.length followers) /\
  (Forall on_time followers -> delay <= 2 * period -> recorded = 0) /\
  (Forall instant followers ->
   recorded = Z.min (Z.of_nat (List.length followers)) passed) /\
  (Forall unhurried followers ->
   Z.min (Z.of_nat (List.length followers)) passed <= recorded).
Proof.
  intros previous deadline missed missed' recorded passed.
  assert (Hrec : recorded = late_starts followers (Z.max (delay - period) 0))
    by (now apply one_delay_recorded).
  assert (Hpassed : passed
                    = Z.max 0 ((Z.max (delay - period) 0 - 1) / period)).
  { subst passed. change period with 10000000.
    destruct (Z.max_spec (delay - 10000000) 0) as [[Hc ->]|[Hc ->]].
    - change ((0 - 1) / 10000000) with (-1).
      assert ((delay - 10000000 - 1) / 10000000 < 0)
        by (Z.to_euclidean_division_equations; lia).
      lia.
    - reflexivity. }
  clearbody recorded passed.
  assert (P4 := phase4_flight_iteration env loc p).
  rewrite length_app in Hhi, Mhi. cbn [List.length] in Hhi, Mhi.
  assert (Hp : 0 < period) by reflexivity.
  destruct (accounting_after before next_wake m) as [Hd0 Hm0];
    try assumption; try nia.
  destruct (accounting_after (before ++ [env])%list next_wake m) as [Hd1 Hm1];
    try assumption; rewrite ?length_app; cbn [List.length]; try nia.
  destruct (accounting_after (before ++ env :: rest)%list next_wake m)
    as [_ Hm2];
    try assumption; rewrite ?length_app; cbn [List.length]; try nia.
  rewrite length_app in Hd1. cbn [List.length] in Hd1.
  rewrite delayed_cycles_app in Hm1. cbn [delayed_cycles] in Hm1.
  subst previous deadline missed missed'.
  rewrite Hd0, Hd1, Hm0, Hm1, Hm2. unfold deadline_missed.
  split; [reflexivity|]. split; [lia|].
  replace (next_wake + period * Z.of_nat (List.length before + 1))
    with (next_wake + period * Z.of_nat (List.length before) + period) by lia.
  assert (Hnew :
    recorded = late_starts followers (Z.max (delay - period) 0) /\
    0 <= recorded <= Z.of_nat (List.length followers) /\
    (Forall on_time followers -> delay <= 2 * period -> recorded = 0) /\
    (Forall instant followers ->
     recorded = Z.min (Z.of_nat (List.length followers)) passed) /\
    (Forall unhurried followers ->
     Z.min (Z.of_nat (List.length followers)) passed <= recorded)).
  { split; [exact Hrec|]. rewrite Hrec, Hpassed.
    split; [apply late_starts_bounds|].
    split; [intros Ho Hd; apply late_starts_on_time; [lia | exact Ho]|].
    split; intros Hf.
    - apply late_starts_instant; [lia | exact Hf].
    - apply late_starts_at_least; [lia | exact Hf]. }
  destruct (period <? now_at_check env
                      - (next_wake + period * Z.of_nat (List.length before)))
    eqn:E1;
    destruct (next_wake + period * Z.of_nat (List.length before) + period
              <? now_at_check env) eqn:E2;
    (apply Z.ltb_lt in E1 || apply Z.ltb_ge in E1);
    (apply Z.ltb_lt in E2 || apply Z.ltb_ge in E2);
    (split; [lia|]); (split; [lia|]); (split; [lia|]);
    (split; [apply P4|]); (split; [apply P4 | exact Hnew]).
Qed.

(** A run of three cycles from time 0 in which only the second starts
    late: one miss is recorded.  A cycle that takes 35 ms, followed by three
    that take no time: two misses are recorded. *)
Lemma deadline_accounting_witness :
  Udp.system_running Udp.Mem_init = true /\
  misses_after three_cycles 0 Udp.Mem_init = 1 /\
  deadline_after [mkFlightEnv 100 200 700200 0;
                  mkFlightEnv 25000000 25000100 25500100 1] 0 Udp.Mem_init
    = 20000000 /\
  misses_after
    (paced [mkPace 35000000 0; mkPace 0 0; mkPace 0 0; mkPace 0 0] 0 0)
    0 Udp.Mem_init
  - Udp.flight_deadline_misses (Udp.global_stats Udp.Mem_init) = 2.
Proof.
  pose proof (deadline_accounting
                [mkFlightEnv 100 200 700200 0]
                (mkFlightEnv 25000000 25000100 25500100 1)
                [mkFlightEnv 25501000 25501100 25802100 1]
                0 Udp.Mem_init phase4_locals phase4_memory
                35000000 [mkPace 0 0; mkPace 0 0; mkPace 0 0] eq_refl
                ltac:(vm_compute; discriminate)
                ltac:(vm_compute; discriminate)
                ltac:(vm_compute; discriminate)
                ltac:(vm_compute; discriminate)
                ltac:(vm_compute; discriminate)
                ltac:(vm_compute; discriminate)) as H.
  cbv zeta in H.
  destruct H as (_ & Hd & _ & _ & Hm & _ & _ & _ & _ & _ & Hi & _).
  split; [reflexivity|]. split; [exact Hm|]. split; [exact Hd|].
  exact (Hi ltac:(repeat constructor)).
Defined.

(** The deadlines are absolute: a start that is 25 ms late is still past the
    deadline of the following cycle, which is therefore counted as well. *)
Lemma late_start_carries_over :
  misses_after [mkFlightEnv 100 200 700200 0;
                mkFlightEnv 35000000 35000100 35000700 1;
                mkFlightEnv 35001000 35001100 35001900 1;
                mkFlightEnv 40000000 40000100 40000700 1] 0 Udp.Mem_init = 2.
Proof. vm_compute. reflexivity. Qed.

Lemma sample_bounded env : - sample_bound <= sample env <= sample_bound.
Proof.
  unfold sample, duration_cast_us, Long.sub.
  pose proof (wrap_range (end_time env - start_time env)) as H.
  unfold Long.in_range, Long.min_value, Long.max_value in H.
  unfold sample_bound, Long.max_value.
  Z.to_euclidean_division_equations. lia.
Qed.

Lemma exec_avg_exact old dur :
  Long.in_range (old + dur) -> exec_avg old dur = Z.quot (old + dur) 2.
Proof.
  intros H. unfold exec_avg, Long.add, Long.div.
  rewrite (wrap_in_range _ H). apply wrap_in_range.
  unfold Long.in_range, Long.min_value, Long.max_value in *.
  Z.to_euclidean_division_equations. lia.
Qed.

Lemma exec_avg_bounded old dur :
  - sample_bound <= old <= sample_bound ->
  - sample_bound <= dur <= sample_bound ->
  exec_avg old dur = Z.quot (old + dur) 2 /\
  - sample_bound <= exec_avg old dur <= sample_bound.
Proof.
  intros Ho Hd.
  assert (Hr : Long.in_range (old + dur)).
  { unfold Long.in_range, Long.min_value, Long.max_value.
    unfold sample_bound, Long.max_value in *.
    Z.to_euclidean_division_equations. lia. }
  rewrite (exec_avg_exact _ _ Hr). split; [reflexivity|].
  Z.to_euclidean_division_equations. lia.
Qed.

Lemma task_flight_avg envs : forall nw s l,
  - sample_bound <= Udp.flight_exec_avg_us (Udp.global_stats s)
    <= sample_bound ->
  - sample_bound
  <= Udp.flight_exec_avg_us
       (Udp.global_stats (snd (fst (Udp.task_flight envs nw s l))))
  <= sample_bound.
Proof.
  induction envs as [|env rest IH]; intros nw s l H; [exact H|].
  destruct (Udp.system_running s) eqn:R.
  - rewrite task_flight_cons by exact R.
    destruct (flight_iteration_steps env nw s l) as [l' ->].
    apply IH. cbn [Udp.global_stats Udp.set_flight Udp.flight_exec_avg_us].
    apply exec_avg_bounded; [exact H | apply sample_bounded].
  - rewrite task_flight_stopped by exact R. exact H.
Qed.

Lemma avg_after_snoc before env nw m :
  Udp.system_running m = true ->
  avg_after (before ++ [env])%list nw m
  = exec_avg (avg_after before nw m) (sample env).
Proof.
  intros R. unfold avg_after, Prog.memory.
  rewrite task_flight_app.
  pose proof (task_flight_running before nw m []) as Hr.
  destruct (Udp.task_flight before nw m []) as [[nw' s'] l'].
  cbn [fst snd] in *. rewrite R in Hr.
  rewrite task_flight_cons by exact Hr.
  destruct (flight_iteration_steps env nw' s' l') as [l'' ->].
  reflexivity.
Qed.

(** C7: the average the flight task records is half the sum of the old
    average and the new sample, [(old_avg + sample) / 2] in the integer
    arithmetic of [long] (the quotient is truncated, so twice the new
    average differs from the sum by at most one).  In the loop the sum never
    leaves the range of [long], whatever the clock readings are. *)
Theorem rolling_average
    (old dur preempts : Z) (st : Udp.Mem)
    (before : list FlightEnv) (env : FlightEnv) (next_wake : Z) (m : Udp.Mem)
    (loc : Phase4.Locals) (p : Phase4.Mem)
    (Hsum : Long.in_range (old + dur))
    (Hrun : Udp.system_running m = true)
    (Havg : - sample_bound
            <= Udp.flight_exec_avg_us (Udp.global_stats m) <= sample_bound) :
  exec_avg old dur = Z.quot (old + dur) 2 /\
  -1 <= old + dur - 2 * exec_avg old dur <= 1 /\
  Udp.flight_exec_avg_us
    (Udp.global_stats (Prog.memory (Udp.flight_update_stats dur preempts) st))
    = exec_avg (Udp.flight_exec_avg_us (Udp.global_stats st)) dur /\
  avg_after (before ++ [env])%list next_wake m
    = Z.quot (avg_after before next_wake m + sample env) 2 /\
  - sample_bound <= avg_after (before ++ [env])%list next_wake m
    <= sample_bound /\
  Phase4.flight_exec_avg_us
    (Phase4.global_stats (Prog.memory (Phase4.flight_iteration env loc) p))
    = exec_avg (Phase4.flight_exec_avg_us (Phase4.global_stats p)) (sample env).
Proof.
  split; [now apply exec_avg_exact|].
  split.
  { rewrite (exec_avg_exact _ _ Hsum). Z.to_euclidean_division_equations. lia. }
  split; [reflexivity|].
  assert (Hloop : avg_after (before ++ [env])%list next_wake m
                  = Z.quot (avg_after before next_wake m + sample env) 2 /\
                  - sample_bound
                  <= avg_after (before ++ [env])%list next_wake m
                  <= sample_bound).
  { rewrite (avg_after_snoc _ _ _ _ Hrun).
    apply exec_avg_bounded; [|apply sample_bounded].
    unfold avg_after, Prog.memory. now apply task_flight_avg. }
  destruct Hloop as [Heq Hb].
  split; [exact Heq|]. split; [exact Hb|]. apply phase4_flight_iteration.
Qed.

(** An average of 300 us meets a cycle that took 701 us. *)
Lemma rolling_average_witness :
  Long.in_range (300 + 701) /\
  Udp.system_running Udp.Mem_init = true /\
  exec_avg 300 701 = 500 /\
  avg_after three_cycles 0 Udp.Mem_init = 363.
Proof.
  assert (Hs : Long.in_range (300 + 701)) by (vm_compute; split; discriminate).
  assert (Hb : - sample_bound
               <= Udp.flight_exec_avg_us (Udp.global_stats Udp.Mem_init)
               <= sample_bound) by (vm_compute; split; discriminate).
  pose proof (rolling_average 300 701 0 Udp.Mem_init
                [mkFlightEnv 100 200 700200 0;
                 mkFlightEnv 25000000 25000100 25500100 1]
                (mkFlightEnv 25501000 25501100 25802100 1)
                0 Udp.Mem_init phase4_locals phase4_memory Hs eq_refl Hb)
    as (He & _ & _ & Ha & _).
  split; [exact Hs|]. split; [reflexivity|]. split; [exact He | exact Ha].
Defined.

(** ** All tasks together: what every reachable state satisfies *)

Section Reachability.

Import UdpSystem.

(** A signal cuts the motors only when [state_mutex] is free. *)
Ltac split_signal :=
  match goal with
  | |- context [pc_eqb ?a ?b] => destruct (pc_eqb a b)
  end.

Lemma exec_drone a s :
  drone (exec a s)
  = match a with
    | FlightCriticalSection => flight_critical (drone s)
    | NetCommand cmd => command_effect cmd (drone s)
    | Signal =>
        if pc_eqb (emergency_pc s) Waiting then kill_motors (drone s)
        else drone s
    | _ => drone s
    end.
Proof.
  destruct a; try reflexivity.
  - unfold drone, exec, on_mem, Prog.memory, Udp.flight_check_deadline,
      Prog.when.
    destruct (deadline_missed now next_wake); reflexivity.
  - apply handle_command_state.
  - unfold exec. destruct (pc_eqb (emergency_pc s) Waiting); reflexivity.
Qed.

Lemma integrate_controls d :
  throttle (integrate d) = throttle d /\ pitch (integrate d) = pitch d /\
  roll (integrate d) = roll d /\ yaw (integrate d) = yaw d /\
  emergency_triggered (integrate d) = emergency_triggered d.
Proof.
  unfold integrate. destruct (F32.ltb _ _); repeat split.
Qed.

Lemma zero_on_grids : In F32.zero throttle_grid /\ In F32.zero tilt_grid.
Proof. split; [left; reflexivity | right; left; reflexivity]. Qed.

Lemma flight_critical_on_grid d : on_grid d -> on_grid (flight_critical d).
Proof.
  intros (Ht & Hp & Hr). unfold on_grid, flight_critical.
  destruct (integrate_controls (zero_controls d)) as (-> & -> & -> & _).
  unfold zero_controls. destruct (emergency_triggered d); cbn.
  - repeat split; apply zero_on_grids.
  - now repeat split.
Qed.

Lemma command_effect_on_grid cmd d : on_grid d -> on_grid (command_effect cmd d).
Proof.
  intros (Ht & Hp & Hr). unfold on_grid, command_effect.
  repeat (destruct (String.eqb cmd _);
          [cbn; repeat split;
           first [assumption | now apply up_on_grid | now apply down_on_grid
                 | apply zero_on_grids | cbn; tauto] |]).
  now repeat split.
Qed.

Lemma kill_motors_on_grid d : on_grid d -> on_grid (kill_motors d).
Proof. intros _. repeat split; apply zero_on_grids. Qed.

Lemma exec_on_grid a s : on_grid (drone s) -> on_grid (drone (exec a s)).
Proof.
  intros H. rewrite exec_drone.
  destruct a; try split_signal;
    auto using flight_critical_on_grid, command_effect_on_grid,
               kill_motors_on_grid.
Qed.

Lemma command_effect_flag cmd d :
  emergency_triggered d = true ->
  emergency_triggered (command_effect cmd d) = true.
Proof.
  intros H. unfold command_effect.
  repeat (destruct (String.eqb cmd _); [cbn; first [reflexivity | exact H]|]).
  exact H.
Qed.

Lemma exec_flag a s : emergency s = true -> emergency (exec a s) = true.
Proof.
  unfold emergency. intros H. rewrite exec_drone.
  destruct a; try split_signal; try exact H.
  - unfold flight_critical.
    destruct (integrate_controls (zero_controls (drone s)))
      as (_ & _ & _ & _ & ->).
    unfold zero_controls. rewrite H. exact H.
  - now apply command_effect_flag.
Qed.

Lemma run_app acts : forall more s,
  run (acts ++ more)%list s
  = match run acts s with Some s' => run more s' | None => None end.
Proof.
  induction acts as [|a rest IH]; intros more s; cbn [app run];
    [reflexivity|].
  destruct (enabled a s); [apply IH | reflexivity].
Qed.

Lemma run_flag acts : forall s s',
  run acts s = Some s' -> emergency s = true -> emergency s' = true.
Proof.
  induction acts as [|a rest IH]; intros s s' H F; cbn [run] in H.
  - now injection H as <-.
  - destruct (enabled a s); [|discriminate].
    eapply IH; [exact H | now apply exec_flag].
Qed.

Lemma run_on_grid acts : forall s s',
  run acts s = Some s' -> on_grid (drone s) -> on_grid (drone s').
Proof.
  induction acts as [|a rest IH]; intros s s' H G; cbn [run] in H.
  - now injection H as <-.
  - destruct (enabled a s); [|discriminate].
    eapply IH; [exact H | now apply exec_on_grid].
Qed.

Lemma command_effect_altitude cmd d :
  altitude (command_effect cmd d) = altitude d /\
  velocity (command_effect cmd d) = velocity d.
Proof.
  unfold command_effect.
  repeat (destruct (String.eqb cmd _); [split; reflexivity|]).
  split; reflexivity.
Qed.

Lemma exec_altitude a s :
  F32.is_negative (altitude (drone s)) = false ->
  F32.is_negative (altitude (drone (exec a s))) = false.
Proof.
  intros H. rewrite exec_drone.
  destruct a; try split_signal; try exact H.
  - rewrite <- ltb_zero_is_negative. apply integrate_altitude.
  - now rewrite (proj1 (command_effect_altitude cmd (drone s))).
Qed.

(** Whatever the tasks do, in whatever order, the stored altitude is never
    below zero. *)
Lemma reachable_altitude acts : forall s s',
  run acts s = Some s' ->
  F32.is_negative (altitude (drone s)) = false ->
  F32.is_negative (altitude (drone s')) = false.
Proof.
  induction acts as [|a rest IH]; intros s s' H G; cbn [run] in H.
  - now injection H as <-.
  - destruct (enabled a s); [|discriminate].
    eapply IH; [exact H | now apply exec_altitude].
Qed.

Lemma init_on_grid : on_grid (drone System_init).
Proof. repeat split; apply zero_on_grids. Qed.

Lemma run_counts acts : forall s s',
  run acts s = Some s' ->
  (count is_wake acts + wakes_left (emergency_pc s')
     <= wakes_left (emergency_pc s))%nat /\
  (count is_shutdown acts + shutdowns_left (emergency_pc s')
     <= shutdowns_left (emergency_pc s))%nat.
Proof.
  induction acts as [|a rest IH]; intros s s' H; cbn [run] in H.
  - injection H as <-. cbn. lia.
  - destruct (enabled a s) eqn:E; [|discriminate].
    destruct (IH _ _ H) as [Hw Hs]. clear IH H.
    unfold enabled in E. apply andb_prop in E. destruct E as [_ E].
    unfold count in *.
    destruct a; cbn [filter is_wake is_shutdown List.length] in *;
      cbn [exec on_mem emergency_pc] in *;
      destruct (emergency_pc s); cbn in *; try discriminate; lia.
Qed.

End Reachability.

Section Claims.

Import UdpSystem.

Lemma tilt_factor_values d :
  In (pitch d) tilt_grid -> In (roll d) tilt_grid ->
  In (tilt_factor d)
     [F32.one; F32.of_decimal 925 1000; F32.of_decimal 85 100] /\
  F32.within (85 # 100) 1 (tilt_factor d) /\
  F32.ltb F32.zero (tilt_factor d) = true.
Proof.
  intros Hp Hr. unfold tilt_factor.
  destruct d as [t p r y al v e]. cbn [pitch roll] in *.
  unfold tilt_grid in Hp, Hr. cbn [In] in Hp, Hr.
  destruct Hp as [<-|[<-|[<-|[]]]]; destruct Hr as [<-|[<-|[<-|[]]]];
    (split; [vm_compute; tauto|]);
    (split; [eexists; split; [reflexivity|split; vm_compute; discriminate]
            | reflexivity]).
Qed.

(** C4: the emergency flag only ever goes from false to true - no
    action of any task clears it, along any continuation of any reachable
    state; raising the emergency sets it, raising it again changes neither
    the drone state nor the published status, and in any execution the
    emergency task passes its wait at most once and runs its shutdown
    sequence at most once. *)
Theorem emergency_once
    (acts more : list Action) (s s' : System) (a : Action)
    (Hs : run acts System_init = Some s)
    (Hs' : run more s = Some s') :
  emergency System_init = false /\
  implb (emergency s) (emergency (exec a s)) = true /\
  implb (emergency s) (emergency s') = true /\
  emergency (exec (NetCommand "PANIC") s) = true /\
  mem (exec (NetCommand "PANIC") (exec (NetCommand "PANIC") s))
    = mem (exec (NetCommand "PANIC") s) /\
  (if emergency s
   then drone (exec (NetCommand "PANIC") s) = drone s
   else drone (exec (NetCommand "PANIC") s)
        = set_emergency_triggered true (drone s)) /\
  (count is_wake (acts ++ more) <= 1)%nat /\
  (count is_shutdown (acts ++ more) <= 1)%nat.
Proof.
  split; [reflexivity|].
  split.
  { destruct (emergency s) eqn:E; [|reflexivity].
    now rewrite (exec_flag a s E). }
  split.
  { destruct (emergency s) eqn:E; [|reflexivity].
    now rewrite (run_flag more s s' Hs' E). }
  split; [reflexivity|].
  split; [reflexivity|].
  split.
  { unfold emergency. rewrite exec_drone.
    change (command_effect "PANIC" (drone s))
      with (set_emergency_triggered true (drone s)).
    destruct (emergency_triggered (drone s)) eqn:E; [|reflexivity].
    destruct (drone s); cbn in *. now rewrite E. }
  assert (Hrun : run (acts ++ more)%list System_init = Some s')
    by (now rewrite run_app, Hs).
  destruct (run_counts _ _ _ Hrun) as [Hw Hd]. cbn in Hw, Hd.
  split; lia.
Qed.

(** Two [PANIC]s, then the emergency task wakes, publishes and shuts
    down. *)
Lemma emergency_once_witness :
  (exists s, run [NetCommand "PANIC"; NetCommand "PANIC"; EmergencyWake]
                 System_init = Some s /\ emergency s = true) /\
  count is_shutdown
    [NetCommand "PANIC"; NetCommand "PANIC"; EmergencyWake;
     FlightCriticalSection; EmergencyMarkActive; EmergencyShutdown] = 1%nat /\
  (count is_shutdown
     ([NetCommand "PANIC"; NetCommand "PANIC"; EmergencyWake]
      ++ [FlightCriticalSection; EmergencyMarkActive; EmergencyShutdown])
   <= 1)%nat.
Proof.
  split; [eexists; split; reflexivity|].
  split; [reflexivity|].
  exact (proj2 (proj2 (proj2 (proj2 (proj2 (proj2 (proj2
           (emergency_once
              [NetCommand "PANIC"; NetCommand "PANIC"; EmergencyWake]
              [FlightCriticalSection; EmergencyMarkActive; EmergencyShutdown]
              _ _ MonitorReadStats eq_refl eq_refl)))))))).
Defined.

(** C9: throttle starts at 0 and in every reachable state lies in
    [0, 100] - it is one of 0, 10, ..., 100 - and every operation that
    writes the drone state (each command, the flight cycle with its
    emergency zeroing, the shutdown) leaves it there. *)
Theorem throttle_in_range
    (acts : list Action) (s : System) (a : Action) (cmd : string)
    (Hs : run acts System_init = Some s) :
  throttle (drone System_init) = F32.zero /\
  In (throttle (drone s)) throttle_grid /\
  F32.leb F32.zero (throttle (drone s)) = true /\
  F32.leb (throttle (drone s)) F32.f100 = true /\
  F32.within 0 100 (throttle (drone s)) /\
  F32.within 0 100 (throttle (command_effect cmd (drone s))) /\
  F32.within 0 100 (throttle (flight_critical (drone s))) /\
  F32.within 0 100 (throttle (kill_motors (drone s))) /\
  F32.within 0 100 (throttle (drone (exec a s))).
Proof.
  pose proof (run_on_grid _ _ _ Hs init_on_grid) as G.
  split; [reflexivity|].
  split; [apply G|].
  destruct (grid_in_range _ (proj1 G)) as (H0 & H1 & Hq).
  repeat (split; [assumption|]).
  split; [apply grid_in_range, (command_effect_on_grid cmd _ G)|].
  split; [apply grid_in_range, (flight_critical_on_grid _ G)|].
  split; [apply grid_in_range, (kill_motors_on_grid _ G)|].
  apply grid_in_range, (exec_on_grid a s G).
Qed.

(** Eleven [UP]s and a [DOWN]: throttle is 90. *)
Lemma throttle_in_range_witness :
  (exists s, run (repeat (NetCommand "UP") 11 ++ [NetCommand "DOWN"])
                 System_init = Some s /\
             throttle (drone s) = F32.of_Z 90) /\
  F32.within 0 100 (F32.of_Z 90).
Proof.
  split; [eexists; split; vm_compute; reflexivity|].
  exact (proj1 (proj2 (proj2 (proj2 (proj2
           (throttle_in_range
              (repeat (NetCommand "UP") 11 ++ [NetCommand "DOWN"])
              _ Signal "UP" eq_refl)))))).
Defined.

(** C10: in every reachable state pitch and roll are each -15, 0 or 15,
    so the tilt factor [1 - 0.005 (|pitch| + |roll|)], as computed in
    binary32, is 1, 0.925f or 0.85f: it lies in [0.85, 1] and is
    positive. *)
Theorem tilt_factor_in_range
    (acts : list Action) (s : System)
    (Hs : run acts System_init = Some s) :
  tilt_grid = [F32.of_Z (-15); F32.of_Z 0; F32.of_Z 15] /\
  In (pitch (drone s)) tilt_grid /\
  In (roll (drone s)) tilt_grid /\
  In (tilt_factor (drone s))
     [F32.one; F32.of_decimal 925 1000; F32.of_decimal 85 100] /\
  F32.within (85 # 100) 1 (tilt_factor (drone s)) /\
  F32.ltb F32.zero (tilt_factor (drone s)) = true.
Proof.
  destruct (run_on_grid _ _ _ Hs init_on_grid) as (_ & Hp & Hr).
  split; [reflexivity|].
  split; [exact Hp|]. split; [exact Hr|].
  now apply tilt_factor_values.
Qed.

(** Pitched back and rolled right: the factor is 0.85f. *)
Lemma tilt_factor_in_range_witness :
  (exists s, run [NetCommand "BACK"; NetCommand "RIGHT";
                  FlightCriticalSection] System_init = Some s /\
             tilt_factor (drone s) = F32.of_decimal 85 100) /\
  F32.within (85 # 100) 1 (F32.of_decimal 85 100).
Proof.
  split; [eexists; split; vm_compute; reflexivity|].
  exact (proj1 (proj2 (proj2 (proj2 (proj2
           (tilt_factor_in_range
              [NetCommand "BACK"; NetCommand "RIGHT"; FlightCriticalSection]
              _ eq_refl)))))).
Defined.

End Claims.


(** * More of the code *)

(** ** Reasoning about programs *)

Section Hoare.

Context {S : Type}.

Lemma hoare_ret {A} (P : S -> Prop) (a : A) (Q : A -> S -> Prop) :
  (forall s, P s -> Q a s) -> Prog.hoare P (Prog.ret a) Q.
Proof. intros H s l HP. now apply H. Qed.

Lemma hoare_emit (P : S -> Prop) e (Q : unit -> S -> Prop) :
  (forall s, P s -> Q tt s) -> Prog.hoare P (Prog.emit e) Q.
Proof. intros H s l HP. now apply H. Qed.

Lemma hoare_get (P : S -> Prop) (Q : S -> S -> Prop) :
  (forall s, P s -> Q s s) -> Prog.hoare P Prog.get Q.
Proof. intros H s l HP. now apply H. Qed.

Lemma hoare_modify (P : S -> Prop) f (Q : unit -> S -> Prop) :
  (forall s, P s -> Q tt (f s)) -> Prog.hoare P (Prog.modify f) Q.
Proof. intros H s l HP. now apply H. Qed.

Lemma hoare_bind {A B} (P : S -> Prop) (c : Prog.t S A) (R : A -> S -> Prop)
    (k : A -> Prog.t S B) (Q : B -> S -> Prop) :
  Prog.hoare P c R -> (forall a, Prog.hoare (R a) (k a) Q) ->
  Prog.hoare P (Prog.bind c k) Q.
Proof.
  intros Hc Hk s l HP. specialize (Hc s l HP). unfold Prog.bind.
  destruct (c s l) as [[a s'] l']. now apply Hk.
Qed.

Lemma hoare_conseq {A} (P P' : S -> Prop) (c : Prog.t S A)
    (Q Q' : A -> S -> Prop) :
  Prog.hoare P' c Q' -> (forall s, P s -> P' s) ->
  (forall a s, Q' a s -> Q a s) -> Prog.hoare P c Q.
Proof. intros H HP HQ s l Hs. apply HQ, H, HP, Hs. Qed.

Lemma hoare_with_lock {A} (P : S -> Prop) m (c : Prog.t S A)
    (Q : A -> S -> Prop) :
  Prog.hoare P c Q -> Prog.hoare P (Prog.with_lock m c) Q.
Proof.
  intros H. unfold Prog.with_lock.
  apply hoare_bind with (R := fun _ => P); [apply hoare_emit; auto|].
  intros _. apply hoare_bind with (R := Q); [exact H|].
  intros r. apply hoare_bind with (R := fun _ => Q r);
    [apply hoare_emit; auto|].
  intros _. apply hoare_ret; auto.
Qed.

Lemma hoare_when (P : S -> Prop) b (c : Prog.t S unit)
    (Q : unit -> S -> Prop) :
  (b = true -> Prog.hoare P c Q) -> (b = false -> forall s, P s -> Q tt s) ->
  Prog.hoare P (Prog.when b c) Q.
Proof.
  intros Hc Hs. destruct b; [now apply Hc | apply hoare_ret; now apply Hs].
Qed.

Lemma hoare_run {A} (P : S -> Prop) (c : Prog.t S A) (Q : A -> S -> Prop) s :
  Prog.hoare P c Q -> P s -> Q (Prog.result c s) (Prog.memory c s).
Proof. intros H HP. exact (H s [] HP). Qed.

End Hoare.

(** Logs that are built from pieces satisfying a property closed under
    concatenation. *)
Section Logs.

Context {S : Type}.
Variable G : list Event -> Prop.
Hypothesis G_nil : G [].
Hypothesis G_app : forall l1 l2, G l1 -> G l2 -> G (l1 ++ l2)%list.

Lemma logs_uniform {A} (c : Prog.t S A) : Prog.logs G c -> Prog.uniform c.
Proof. intros [H _]. exact H. Qed.

Lemma logs_of_uniform {A} (c : Prog.t S A) :
  Prog.uniform c -> (forall s, G (Prog.log c s)) -> Prog.logs G c.
Proof. intros Hu Hg. split; [exact Hu | exact Hg]. Qed.

Lemma logs_ret {A} (a : A) : Prog.logs G (Prog.ret (S := S) a).
Proof. apply logs_of_uniform; [apply uniform_ret | intros s; exact G_nil]. Qed.

Lemma logs_get : Prog.logs G (Prog.get (S := S)).
Proof. apply logs_of_uniform; [apply uniform_get | intros s; exact G_nil]. Qed.

Lemma logs_modify f : Prog.logs G (Prog.modify (S := S) f).
Proof.
  apply logs_of_uniform; [apply uniform_modify | intros s; exact G_nil].
Qed.

Lemma logs_emit e : G [e] -> Prog.logs G (Prog.emit (S := S) e).
Proof. intros H. apply logs_of_uniform; [apply uniform_emit | intros s; exact H]. Qed.

Lemma logs_bind {A B} (c : Prog.t S A) (k : A -> Prog.t S B) :
  Prog.logs G c -> (forall a, Prog.logs G (k a)) -> Prog.logs G (Prog.bind c k).
Proof.
  intros Hc Hk. apply logs_of_uniform.
  - apply uniform_bind; [apply (logs_uniform _ Hc)|].
    intros a. apply (logs_uniform _ (Hk a)).
  - intros s. rewrite bind_log;
      [| apply (logs_uniform _ Hc) | apply (logs_uniform _ (Hk _))].
    apply G_app; [apply Hc | apply (Hk _)].
Qed.

Lemma logs_if {A} (b : bool) (c1 c2 : Prog.t S A) :
  Prog.logs G c1 -> Prog.logs G c2 -> Prog.logs G (if b then c1 else c2).
Proof. now destruct b. Qed.

Lemma logs_when (b : bool) (c : Prog.t S unit) :
  Prog.logs G c -> Prog.logs G (Prog.when b c).
Proof. intros H. destruct b; [exact H | apply logs_ret]. Qed.

(** A program whose log does not depend on the memory. *)
Lemma logs_fixed {A} (c : Prog.t S A) (l0 : list Event) :
  Prog.uniform c -> (forall s, Prog.log c s = l0) -> G l0 -> Prog.logs G c.
Proof.
  intros Hu Hl Hg. apply logs_of_uniform; [exact Hu|].
  intros s. now rewrite Hl.
Qed.

End Logs.

(** ** Locks and sleeps *)

Lemma held_after_app l1 l2 held :
  held_after held (l1 ++ l2)%list = held_after (held_after held l1) l2.
Proof. unfold held_after. apply fold_left_app. Qed.

Lemma sleeps_unlocked_app l1 : forall held l2,
  sleeps_unlocked held (l1 ++ l2)%list
  = sleeps_unlocked held l1 && sleeps_unlocked (held_after held l1) l2.
Proof.
  induction l1 as [|e rest IH]; intros held l2; [reflexivity|].
  cbn [app sleeps_unlocked]. rewrite IH.
  change (held_after held (e :: rest))
    with (held_after (held_step held e) rest).
  now rewrite andb_assoc.
Qed.

Lemma sleeps_free_nil : sleeps_free [].
Proof. split; reflexivity. Qed.

Lemma sleeps_free_app l1 l2 :
  sleeps_free l1 -> sleeps_free l2 -> sleeps_free (l1 ++ l2)%list.
Proof.
  intros [H1 E1] [H2 E2]. split.
  - now rewrite sleeps_unlocked_app, H1, E1, H2.
  - now rewrite held_after_app, E1, E2.
Qed.

Ltac sleeps_free_loop leaf :=
  repeat first
    [ solve [leaf] | exact sleeps_free_nil | exact sleeps_free_app
    | apply logs_get | apply logs_ret | apply logs_modify
    | apply logs_if | apply logs_when | apply logs_bind | intros ? ].

Lemma udp_flight_iteration_sleeps env nw :
  Prog.logs sleeps_free (Udp.flight_iteration env nw).
Proof.
  apply logs_of_uniform.
  - unfold Udp.flight_iteration, Udp.flight_check_deadline,
      Udp.flight_critical_section, Udp.flight_update_stats,
      Udp.modify_state, Udp.modify_stats.
    uniform.
  - intros s. unfold Prog.log, Udp.flight_iteration, Udp.flight_check_deadline.
    destruct (deadline_missed _ _); split; reflexivity.
Qed.

Lemma udp_task_flight_sleeps envs : forall nw,
  Prog.logs sleeps_free (Udp.task_flight envs nw).
Proof.
  induction envs as [|env rest IH]; intros nw; cbn [Udp.task_flight];
    sleeps_free_loop ltac:(apply IH || apply udp_flight_iteration_sleeps).
Qed.

Lemma udp_net_iteration_sleeps r preempts :
  Prog.logs sleeps_free (Udp.net_iteration r preempts).
Proof.
  apply logs_of_uniform; [apply uniform_net_iteration|].
  intros s. destruct r as [[|c rest]|[|]]; try (split; reflexivity).
  run_prog. rewrite recv_n_datagram.
  destruct (String.eqb (c_string (String c rest)) "PANIC"); split; reflexivity.
Qed.

Lemma udp_task_networking_sleeps inputs :
  Prog.logs sleeps_free (Udp.task_networking inputs).
Proof.
  induction inputs as [|[r preempts] rest IH]; cbn [Udp.task_networking];
    sleeps_free_loop ltac:(apply IH || apply udp_net_iteration_sleeps).
Qed.

Lemma udp_monitor_iteration_sleeps : Prog.logs sleeps_free Udp.monitor_iteration.
Proof.
  apply logs_of_uniform; [apply uniform_monitor_iteration|].
  intros s. split; reflexivity.
Qed.

Lemma udp_task_monitor_sleeps passes :
  Prog.logs sleeps_free (Udp.task_monitor passes).
Proof.
  induction passes as [|n IH]; cbn [Udp.task_monitor];
    sleeps_free_loop ltac:(apply IH || apply udp_monitor_iteration_sleeps).
Qed.

Ltac fixed_log :=
  apply logs_of_uniform;
  [ cbv beta delta
      [Udp.vision_iteration Udp.vision_report Udp.vision_mark
       Udp.modify_state Udp.modify_stats
       DataCollector.flight_iteration DataCollector.flight_critical_section
       DataCollector.vision_iteration DataCollector.note_preemption
       DataCollector.log_timeline_event DataCollector.monitor_iteration
       DataCollector.monitor_read_stats DataCollector.say
       DataCollector.net_iteration DataCollector.handle_command
       DataCollector.modify_state DataCollector.modify_stats
       Phase4.flight_iteration Phase4.vision_iteration
       Phase4.monitor_iteration Phase4.modify_stats
       Phase4.set_emergency_active];
    uniform
  | intros ?s ].

Lemma udp_vision_iteration_sleeps elapsed preempts frame_count :
  Prog.logs sleeps_free (Udp.vision_iteration elapsed preempts frame_count).
Proof.
  fixed_log. unfold Prog.log, Udp.vision_iteration.
  destruct (1 <=? elapsed); split; reflexivity.
Qed.

Lemma udp_vision_frames_sleeps todo : forall i reading last_check frame_count,
  Prog.logs sleeps_free
    (Udp.vision_frames todo i reading last_check frame_count).
Proof.
  induction todo as [|todo IH]; intros i reading last_check frame_count;
    cbn [Udp.vision_frames];
    sleeps_free_loop ltac:(apply IH || apply udp_vision_iteration_sleeps).
Qed.

Lemma udp_vision_mark_sleeps b : Prog.logs sleeps_free (Udp.vision_mark b).
Proof.
  apply logs_fixed with (l0 := [Lock stats_mutex; Unlock stats_mutex]).
  - unfold Udp.vision_mark, Udp.modify_stats. uniform.
  - reflexivity.
  - split; reflexivity.
Qed.

Lemma udp_vision_pass_sleeps p :
  Prog.logs sleeps_free (Udp.vision_pass p).
Proof.
  unfold Udp.vision_pass.
  sleeps_free_loop
    ltac:(apply udp_vision_frames_sleeps
          || (apply logs_emit; split; reflexivity)
          || apply udp_vision_mark_sleeps).
Qed.

Lemma udp_task_vision_sleeps passes :
  Prog.logs sleeps_free (Udp.task_vision passes).
Proof.
  induction passes as [|p rest IH]; cbn [Udp.task_vision];
    sleeps_free_loop
      ltac:(apply IH || apply udp_vision_pass_sleeps
            || (apply logs_emit; split; reflexivity)
            || apply udp_vision_mark_sleeps).
Qed.

Lemma dc_flight_iteration_sleeps env current nw last :
  Prog.logs sleeps_free (DataCollector.flight_iteration env current nw last).
Proof.
  fixed_log.
  unfold Prog.log, DataCollector.flight_iteration,
    DataCollector.note_preemption.
  destruct (last <? current); destruct (deadline_missed _ _);
    split; reflexivity.
Qed.

Lemma dc_task_flight_sleeps envs : forall nw last,
  Prog.logs sleeps_free (DataCollector.task_flight envs nw last).
Proof.
  induction envs as [|[env current] rest IH]; intros nw last;
    cbn [DataCollector.task_flight];
    sleeps_free_loop ltac:(apply IH || apply dc_flight_iteration_sleeps).
Qed.

Lemma dc_vision_iteration_sleeps current preempts last :
  Prog.logs sleeps_free (DataCollector.vision_iteration current preempts last).
Proof.
  fixed_log.
  unfold Prog.log, DataCollector.vision_iteration,
    DataCollector.note_preemption.
  destruct (last <? current); split; reflexivity.
Qed.

Lemma dc_vision_loop_sleeps readings : forall last,
  Prog.logs sleeps_free (DataCollector.vision_loop readings last).
Proof.
  induction readings as [|[current preempts] rest IH]; intros last;
    cbn [DataCollector.vision_loop];
    sleeps_free_loop ltac:(apply IH || apply dc_vision_iteration_sleeps).
Qed.

Lemma dc_net_iteration_sleeps r current preempts last :
  Prog.logs sleeps_free (DataCollector.net_iteration r current preempts last).
Proof.
  fixed_log.
  destruct r as [[|c rest]|b]; try (split; reflexivity).
  run_prog. rewrite recv_n_datagram.
  destruct (last <? current);
    destruct (String.eqb (c_string (String c rest)) "PANIC");
    try destruct (is_command (c_string (String c rest)));
    split; reflexivity.
Qed.

Lemma dc_monitor_iteration_sleeps :
  Prog.logs sleeps_free DataCollector.monitor_iteration.
Proof. fixed_log. split; reflexivity. Qed.

Lemma phase4_flight_iteration_sleeps env loc :
  Prog.logs sleeps_free (Phase4.flight_iteration env loc).
Proof.
  fixed_log. unfold Prog.log, Phase4.flight_iteration.
  destruct (deadline_missed _ _);
    destruct (Phase4.int_incr (Phase4.count loc) =? 2000); split; reflexivity.
Qed.

Lemma phase4_task_flight_control_sleeps envs : forall loc,
  Prog.logs sleeps_free (Phase4.task_flight_control envs loc).
Proof.
  induction envs as [|env rest IH]; intros loc;
    cbn [Phase4.task_flight_control];
    sleeps_free_loop ltac:(apply IH || apply phase4_flight_iteration_sleeps).
Qed.

(** X1: whatever they read, the loops of the flight, command, monitor and
    vision tasks - in all three programs - never sleep while they own a
    mutex, and own none when a pass ends. *)
Theorem loops_sleep_unlocked
    (envs : list FlightEnv) (next_wake : Z) (inputs : list (RecvResult * Z))
    (passes : nat) (vision : list Udp.VisionPass) (m : Udp.Mem)
    (envs' : list (FlightEnv * Z)) (last : Z) (readings : list (Z * Z))
    (r : RecvResult) (current preempts : Z) (m' : DataCollector.Mem)
    (loc : Phase4.Locals) (p : Phase4.Mem) :
  sleeps_free (Prog.log (Udp.task_flight envs next_wake) m) /\
  sleeps_free (Prog.log (Udp.task_networking inputs) m) /\
  sleeps_free (Prog.log (Udp.task_monitor passes) m) /\
  sleeps_free (Prog.log (Udp.task_vision vision) m) /\
  sleeps_free (Prog.log (DataCollector.task_flight envs' next_wake last) m') /\
  sleeps_free (Prog.log (DataCollector.vision_loop readings last) m') /\
  sleeps_free
    (Prog.log (DataCollector.net_iteration r current preempts last) m') /\
  sleeps_free (Prog.log DataCollector.monitor_iteration m') /\
  sleeps_free (Prog.log (Phase4.task_flight_control envs loc) p).
Proof.
  repeat split;
    first [ apply udp_task_flight_sleeps | apply udp_task_networking_sleeps
          | apply udp_task_monitor_sleeps | apply udp_task_vision_sleeps
          | apply dc_task_flight_sleeps | apply dc_vision_loop_sleeps
          | apply dc_net_iteration_sleeps | apply dc_monitor_iteration_sleeps
          | apply phase4_task_flight_control_sleeps ].
Qed.

(** X2: the command handler owns [state_mutex] and [stats_mutex] together
    exactly when the token is [PANIC]; for every token it has released all
    its locks when it returns.  Both variants. *)
Theorem command_handler_locks
    (cmd : string) (current : Z) (m : Udp.Mem) (m' : DataCollector.Mem) :
  never_both [] (Prog.log (Udp.handle_command cmd) m)
    = negb (String.eqb cmd "PANIC") /\
  held_after [] (Prog.log (Udp.handle_command cmd) m) = [] /\
  never_both [] (Prog.log (DataCollector.handle_command cmd current) m')
    = negb (String.eqb cmd "PANIC") /\
  held_after [] (Prog.log (DataCollector.handle_command cmd current) m') = [].
Proof.
  unfold Udp.handle_command, DataCollector.handle_command, Prog.log,
    Prog.with_lock, Prog.when, DataCollector.say.
  destruct (String.eqb cmd "PANIC"); [repeat split|].
  destruct (is_command cmd); repeat split.
Qed.

(** X3: an emergency task whose flag is clear stays in its wait and writes
    nothing.  With the flag set, the one of udp_test_receiver.cpp publishes
    ACTIVE, sleeps two seconds while it owns [state_mutex] and then enters
    [cleanup_and_exit] still owning it, so that the lock taken there is a
    second lock of the same mutex by the same thread: that lock is the last
    thing the thread does - it clears [system_running] before it, but
    neither cuts the motors nor exits.  The one of data_collector.cpp zeroes
    throttle only, sleeps one second while it owns [state_mutex], clears
    [system_running] and returns with no lock owned and none locked
    twice. *)
Theorem emergency_task_holds_state_mutex
    (preempts : Z) (m : Udp.Mem) (m' : DataCollector.Mem) :
  (if emergency_triggered (Udp.shared_state m)
   then sleeps_unlocked [] (Prog.log Udp.task_emergency m) = false /\
        relocks [] (Prog.log Udp.task_emergency m) = true /\
        Udp.emergency_status
          (Udp.global_stats (Prog.memory Udp.task_emergency m)) = "ACTIVE" /\
        last (Prog.log Udp.task_emergency m) RecvFrom = Lock state_mutex /\
        existsb is_exit (Prog.log Udp.task_emergency m) = false /\
        Prog.memory Udp.task_emergency m
        = Udp.mkMem (Udp.shared_state m)
            (Udp.set_emergency_status "ACTIVE" (Udp.global_stats m)) false
   else Prog.log Udp.task_emergency m = [Lock state_mutex; WaitEmergency] /\
        Prog.memory Udp.task_emergency m = m) /\
  returns (Prog.log Udp.task_emergency m) = false /\
  (if emergency_triggered (DataCollector.shared_state m')
   then sleeps_unlocked []
          (Prog.log (DataCollector.task_emergency preempts) m') = false /\
        relocks [] (Prog.log (DataCollector.task_emergency preempts) m')
          = false /\
        held_after [] (Prog.log (DataCollector.task_emergency preempts) m')
          = [] /\
        Prog.memory (DataCollector.task_emergency preempts) m'
          = DataCollector.mkMem
              (set_throttle F32.zero (DataCollector.shared_state m'))
              (DataCollector.set_emergency_status "ACTIVE"
                 (DataCollector.global_stats m'))
              false /\
        returns (Prog.log (DataCollector.task_emergency preempts) m') = true
   else Prog.memory (DataCollector.task_emergency preempts) m' = m' /\
        existsb is_sleep
          (Prog.log (DataCollector.task_emergency preempts) m') = false).
Proof.
  cbv beta iota zeta delta
    [Udp.task_emergency DataCollector.task_emergency Prog.log Prog.memory
     Prog.bind Prog.get Prog.emit DataCollector.log_timeline_event].
  destruct (emergency_triggered (Udp.shared_state m));
    destruct (emergency_triggered (DataCollector.shared_state m'));
    repeat split.
Qed.


(** ** The vision task of udp_test_receiver.cpp *)

Lemma elapsed_seconds_range now last_check :
  - (Long.max_value / 1000000000) - 1
  <= Udp.elapsed_seconds now last_check <= Long.max_value / 1000000000.
Proof.
  unfold Udp.elapsed_seconds, Long.sub.
  pose proof (wrap_range (now - last_check)) as H.
  unfold Long.in_range, Long.min_value, Long.max_value in *.
  Z.to_euclidean_division_equations. lia.
Qed.

Lemma vision_rate_range frame_count elapsed :
  0 <= frame_count < 100 -> 1 <= elapsed ->
  0 <= Long.div (Long.incr frame_count) elapsed <= 100.
Proof.
  intros Hf He. rewrite incr_in_range
    by (unfold Long.in_range, Long.min_value, Long.max_value; lia).
  unfold Long.div. rewrite wrap_in_range.
  - Z.to_euclidean_division_equations. nia.
  - unfold Long.in_range, Long.min_value, Long.max_value.
    Z.to_euclidean_division_equations. nia.
Qed.

Lemma vision_iteration_keeps m0 elapsed preempts frame_count :
  0 <= frame_count < 100 ->
  Prog.hoare (vision_keeps m0)
    (Udp.vision_iteration elapsed preempts frame_count)
    (fun fc m => vision_keeps m0 m /\ 0 <= fc <= frame_count + 1).
Proof.
  intros Hf s l (Hs & Hr & Hg & Hv).
  unfold Udp.vision_iteration, Udp.vision_report.
  destruct (1 <=? elapsed) eqn:E.
  - apply Z.leb_le in E. cbn. split; [|lia].
    split; [exact Hs|]. split; [exact Hr|]. split.
    + destruct (Udp.global_stats s), (Udp.global_stats m0). cbn in *. exact Hg.
    + now apply vision_rate_range.
  - cbn. split; [now repeat split|].
    rewrite incr_in_range
      by (unfold Long.in_range, Long.min_value, Long.max_value; lia).
    lia.
Qed.

Lemma vision_frames_keeps m0 todo : forall i reading last_check frame_count,
  0 <= frame_count -> frame_count + Z.of_nat todo <= 100 ->
  Prog.hoare (vision_keeps m0)
    (Udp.vision_frames todo i reading last_check frame_count)
    (fun _ m => vision_keeps m0 m).
Proof.
  induction todo as [|todo IH]; intros i reading last_check frame_count H0 H1;
    cbn [Udp.vision_frames].
  - apply hoare_ret. auto.
  - apply hoare_bind with (R := fun _ m => vision_keeps m0 m);
      [apply hoare_get; auto|].
    intros m. destruct (Udp.system_running m); [|apply hoare_ret; auto].
    apply hoare_bind
      with (R := fun fc m => vision_keeps m0 m /\ 0 <= fc <= frame_count + 1).
    + apply vision_iteration_keeps. lia.
    + intros fc s l [Hk Hfc].
      apply IH; [lia | lia | exact Hk].
Qed.

Lemma vision_mark_keeps m0 b :
  Prog.hoare (vision_keeps m0) (Udp.vision_mark b)
    (fun _ m => vision_keeps m0 m).
Proof.
  intros s l (Hs & Hr & Hg & Hv). cbn.
  split; [exact Hs|]. split; [exact Hr|]. split; [|exact Hv].
  destruct (Udp.global_stats s), (Udp.global_stats m0). cbn in *. exact Hg.
Qed.

Lemma vision_pass_keeps m0 p :
  Prog.hoare (vision_keeps m0) (Udp.vision_pass p)
    (fun _ m => vision_keeps m0 m).
Proof.
  unfold Udp.vision_pass.
  apply hoare_bind with (R := fun _ m => vision_keeps m0 m);
    [apply hoare_emit; auto | intros _].
  apply hoare_bind with (R := fun _ m => vision_keeps m0 m);
    [apply hoare_emit; auto | intros _].
  apply hoare_bind with (R := fun _ m => vision_keeps m0 m);
    [apply vision_mark_keeps | intros _].
  apply hoare_bind with (R := fun _ m => vision_keeps m0 m);
    [apply hoare_emit; auto | intros _].
  apply vision_frames_keeps; cbn; lia.
Qed.

Lemma task_vision_keeps m0 passes :
  Prog.hoare (vision_keeps m0) (Udp.task_vision passes)
    (fun _ m => vision_keeps m0 m).
Proof.
  induction passes as [|p rest IH]; cbn [Udp.task_vision].
  - apply hoare_ret. auto.
  - apply hoare_bind with (R := fun _ m => vision_keeps m0 m);
      [apply hoare_get; auto|].
    intros m. destruct (Udp.system_running m).
    + apply hoare_bind with (R := fun _ m => vision_keeps m0 m);
        [apply vision_pass_keeps | intros _; exact IH].
    + apply hoare_bind with (R := fun _ m => vision_keeps m0 m);
        [apply hoare_emit; auto | intros _; apply vision_mark_keeps].
Qed.

Lemma no_launch_app l1 l2 :
  filter is_launch l1 = [] -> filter is_launch l2 = [] ->
  filter is_launch (l1 ++ l2)%list = [].
Proof. intros H1 H2. now rewrite filter_app, H1, H2. Qed.

Lemma vision_iteration_no_launch elapsed preempts frame_count :
  Prog.logs (fun l => filter is_launch l = [])
    (Udp.vision_iteration elapsed preempts frame_count).
Proof.
  fixed_log. unfold Prog.log, Udp.vision_iteration.
  destruct (1 <=? elapsed); reflexivity.
Qed.

Lemma vision_frames_no_launch todo : forall i reading last_check frame_count,
  Prog.logs (fun l => filter is_launch l = [])
    (Udp.vision_frames todo i reading last_check frame_count).
Proof.
  induction todo as [|todo IH]; intros i reading last_check frame_count;
    cbn [Udp.vision_frames];
    repeat first
      [ solve [apply IH | apply vision_iteration_no_launch]
      | reflexivity | exact no_launch_app
      | apply logs_get | apply logs_ret | apply logs_if | apply logs_bind
      | intros ? ].
Qed.

Lemma vision_pass_launches p m :
  List.length (filter is_launch (Prog.log (Udp.vision_pass p) m)) = 1%nat.
Proof.
  pose proof (vision_frames_no_launch 100 0 (Udp.reading p)
                (Udp.launched_at p) 0) as [Hu Hn].
  unfold Udp.vision_pass.
  revert Hu Hn.
  generalize (Udp.vision_frames 100 0 (Udp.reading p) (Udp.launched_at p) 0).
  intros frames Hu Hn.
  rewrite bind_log; [|apply uniform_emit|].
  2:{ unfold Udp.vision_mark, Udp.modify_stats. uniform. exact Hu. }
  rewrite bind_log; [|apply uniform_emit|].
  2:{ unfold Udp.vision_mark, Udp.modify_stats. uniform. exact Hu. }
  rewrite bind_log;
    [| unfold Udp.vision_mark, Udp.modify_stats; uniform |].
  2:{ uniform. exact Hu. }
  rewrite bind_log; [|apply uniform_emit | exact Hu].
  rewrite !filter_app. unfold Prog.log at 5. rewrite Hn.
  reflexivity.
Qed.

Lemma get_branch {S A} (test : S -> bool) (c1 c2 : Prog.t S A) s l :
  Prog.bind Prog.get (fun m => if test m then c1 else c2) s l
  = if test s then c1 s l else c2 s l.
Proof. unfold Prog.bind, Prog.get. now destruct (test s). Qed.

Lemma vision_keeps_refl m :
  0 <= Udp.vision_fps (Udp.global_stats m) <= 100 -> vision_keeps m m.
Proof. intros H. now repeat split. Qed.

Lemma vision_keeps_trans m0 m1 m2 :
  vision_keeps m0 m1 -> vision_keeps m1 m2 -> vision_keeps m0 m2.
Proof.
  intros (A1 & B1 & C1 & D1) (A2 & B2 & C2 & D2).
  repeat split; try congruence; apply D2.
Qed.

Lemma task_vision_launches passes : forall m,
  Udp.system_running m = true ->
  0 <= Udp.vision_fps (Udp.global_stats m) <= 100 ->
  List.length (filter is_launch (Prog.log (Udp.task_vision passes) m))
  = List.length passes.
Proof.
  induction passes as [|p rest IH]; intros m R F; [reflexivity|].
  unfold Prog.log. cbn [Udp.task_vision]. rewrite get_branch, R.
  rewrite bind_run;
    [| apply (logs_uniform _ _ (udp_vision_pass_sleeps p))
     | apply (logs_uniform _ _ (udp_task_vision_sleeps rest)) ].
  cbn [snd]. rewrite filter_app, length_app, vision_pass_launches.
  pose proof (hoare_run _ _ _ m (vision_pass_keeps m p) (vision_keeps_refl m F))
    as (_ & R' & _ & F').
  rewrite IH; [reflexivity | congruence | exact F'].
Qed.

(** X5: the vision task of udp_test_receiver.cpp touches nothing but its
    own three statistics; the rate it publishes is a quotient by at least
    one second of at most 100 frames, so it stays between 0 and 100; and
    while the system runs it kills and launches the camera anew in every
    pass of its outer loop, that is after every 100 frames. *)
Theorem vision_task_frame
    (passes : list Udp.VisionPass) (m : Udp.Mem)
    (Hrun : Udp.system_running m = true)
    (Hfps : 0 <= Udp.vision_fps (Udp.global_stats m) <= 100) :
  vision_keeps m (Prog.memory (Udp.task_vision passes) m) /\
  0 <= Udp.vision_fps
         (Udp.global_stats (Prog.memory (Udp.task_vision passes) m)) <= 100 /\
  List.length (filter is_launch (Prog.log (Udp.task_vision passes) m))
  = List.length passes.
Proof.
  pose proof (hoare_run _ _ _ m (task_vision_keeps m passes)
                (vision_keeps_refl m Hfps)) as K.
  split; [exact K|]. split; [apply K|].
  now apply task_vision_launches.
Qed.

(** Two passes in which the clock advances by 150 ms per frame. *)
Lemma vision_task_frame_witness :
  Udp.system_running Udp.Mem_init = true /\
  0 <= Udp.vision_fps
         (Udp.global_stats
            (Prog.memory (Udp.task_vision [steady_pass; steady_pass])
               Udp.Mem_init)) <= 100 /\
  List.length
    (filter is_launch
       (Prog.log (Udp.task_vision [steady_pass; steady_pass]) Udp.Mem_init))
  = 2%nat.
Proof.
  split; [reflexivity|].
  exact (proj2 (vision_task_frame [steady_pass; steady_pass] Udp.Mem_init
                  eq_refl ltac:(vm_compute; split; discriminate))).
Defined.

(** ** The flight loop of phase4.cpp raises the emergency itself *)

Lemma int_incr_exact c : - 2 ^ 31 <= c + 1 < 2 ^ 31 -> Phase4.int_incr c = c + 1.
Proof. intros H. unfold Phase4.int_incr. rewrite Z.mod_small; lia. Qed.

Lemma phase4_iteration_steps env loc s l :
  exists L,
    Phase4.flight_iteration env loc s l
    = (Phase4.mkLocals (next_deadline (Phase4.deadline loc))
         (Phase4.int_incr (Phase4.count loc)),
       Phase4.mkMem
         (Phase4.global_stats
            (Prog.memory (Phase4.flight_iteration env loc) s))
         (Phase4.system_running s)
         (if Phase4.int_incr (Phase4.count loc) =? 2000 then true
          else Phase4.emergency_active s),
       (l ++ L)%list) /\
    List.length (filter is_notify L)
    = (if Phase4.int_incr (Phase4.count loc) =? 2000 then 1%nat else 0%nat).
Proof.
  unfold Phase4.flight_iteration, Prog.memory.
  cbv beta iota zeta delta
    [Prog.bind Prog.when Prog.with_lock Prog.emit Prog.ret Prog.modify
     Phase4.modify_stats Phase4.set_emergency_active fst snd].
  destruct (deadline_missed _ _);
    destruct (Phase4.int_incr (Phase4.count loc) =? 2000);
    cbv beta iota zeta; repeat rewrite <- app_assoc; cbn [app];
    (eexists; split; [reflexivity | reflexivity]).
Qed.

Lemma phase4_loop envs : forall loc s l,
  Phase4.system_running s = true ->
  0 <= Phase4.count loc ->
  Phase4.count loc + Z.of_nat (List.length envs) < 2 ^ 31 ->
  exists L s',
    Phase4.task_flight_control envs loc s l
    = (Phase4.mkLocals
         (Phase4.deadline
            (fst (fst (Phase4.task_flight_control envs loc s l))))
         (Phase4.count loc + Z.of_nat (List.length envs)),
       s', (l ++ L)%list) /\
    Phase4.system_running s' = true /\
    Phase4.emergency_active s'
    = Phase4.emergency_active s
      || passes_2000 (Phase4.count loc) (Z.of_nat (List.length envs)) /\
    List.length (filter is_notify L)
    = (if passes_2000 (Phase4.count loc) (Z.of_nat (List.length envs))
       then 1%nat else 0%nat).
Proof.
  induction envs as [|env rest IH]; intros loc s l R C0 C1.
  - exists [], s. cbn. unfold passes_2000.
    rewrite app_nil_r, Z.add_0_r, orb_comm.
    destruct loc as [d c]. cbn in *.
    replace ((c <? 2000) && (2000 <=? c)) with false
      by (destruct (c <? 2000) eqn:E1; destruct (2000 <=? c) eqn:E2; cbn;
          try reflexivity; apply Z.ltb_lt in E1; apply Z.leb_le in E2; lia).
    repeat split; exact R.
  - cbn [List.length] in C1. rewrite Nat2Z.inj_succ in C1.
    cbn [Phase4.task_flight_control]. rewrite get_branch, R.
    unfold Prog.bind at 1 2.
    destruct (phase4_iteration_steps env loc s l) as (L1 & -> & N1).
    rewrite (int_incr_exact (Phase4.count loc)) in * by lia.
    match goal with
    | |- context [Phase4.task_flight_control rest ?loc' ?s' ?l'] =>
        destruct (IH loc' s' l') as (L2 & s2 & E2 & R2 & A2 & N2);
        [exact R | cbn; lia | cbn; lia |]
    end.
    cbn [Phase4.count Phase4.emergency_active] in *.
    rewrite E2. cbn [fst snd Phase4.deadline].
    exists (L1 ++ L2)%list, s2.
    cbn [List.length]. rewrite Nat2Z.inj_succ.
    split; [rewrite app_assoc; do 3 f_equal; lia|].
    split; [exact R2|].
    rewrite filter_app, length_app, N1, N2, A2.
    unfold passes_2000.
    set (c := Phase4.count loc) in *. set (n := Z.of_nat (List.length rest)) in *.
    assert (Hn : 0 <= n) by (subst n; lia).
    destruct (c + 1 =? 2000) eqn:E0;
      destruct (c + 1 <? 2000) eqn:E1; destruct (2000 <=? c + 1 + n) eqn:E3;
      destruct (c <? 2000) eqn:E4; destruct (2000 <=? c + Z.succ n) eqn:E5;
      cbn; rewrite ?orb_true_r, ?orb_false_r; try (split; reflexivity);
      repeat match goal with
             | H : (_ =? _) = true |- _ => apply Z.eqb_eq in H
             | H : (_ =? _) = false |- _ => apply Z.eqb_neq in H
             | H : (_ <? _) = true |- _ => apply Z.ltb_lt in H
             | H : (_ <? _) = false |- _ => apply Z.ltb_ge in H
             | H : (_ <=? _) = true |- _ => apply Z.leb_le in H
             | H : (_ <=? _) = false |- _ => apply Z.leb_gt in H
             end; lia.
Qed.

(** X6: the flight loop of phase4.cpp raises the emergency by itself, in
    its 2000th cycle and in no other (the comment there says loop 500): a
    run of fewer cycles leaves [emergency_active] clear and notifies nobody,
    a run of 2000 or more sets it and notifies exactly once.  The emergency
    task, which writes nothing before the flag is set, then counts one
    wake-up and clears [system_running], after which the flight loop does
    nothing more. *)
Theorem phase4_raises_emergency_at_2000
    (envs more : list FlightEnv) (start preempts : Z) (p : Phase4.Mem)
    (Hrun : Phase4.system_running p = true)
    (Hclear : Phase4.emergency_active p = false)
    (Hlen : Z.of_nat (List.length envs) < 2 ^ 31) :
  let loc := Phase4.mkLocals start 0 in
  let p' := Prog.memory (Phase4.task_flight_control envs loc) p in
  let p'' := Prog.memory (Phase4.task_emergency preempts) p' in
  Phase4.emergency_active p' = (2000 <=? Z.of_nat (List.length envs)) /\
  List.length
    (filter is_notify (Prog.log (Phase4.task_flight_control envs loc) p))
  = (if 2000 <=? Z.of_nat (List.length envs) then 1%nat else 0%nat) /\
  Phase4.system_running p' = true /\
  (if 2000 <=? Z.of_nat (List.length envs)
   then Phase4.system_running p'' = false /\
        Phase4.emerg_wakeups (Phase4.global_stats p'')
        = Long.incr (Phase4.emerg_wakeups (Phase4.global_stats p')) /\
        Prog.memory (Phase4.task_flight_control more loc) p'' = p'' /\
        Prog.log (Phase4.task_flight_control more loc) p'' = []
   else p'' = p').
Proof.
  intros loc p' p''.
  destruct (phase4_loop envs loc p [] Hrun) as (L & s' & E & R & A & N);
    [cbn; lia | cbn; lia |].
  cbn [Phase4.count loc] in A, N.
  change (passes_2000 0 (Z.of_nat (List.length envs)))
    with (2000 <=? Z.of_nat (List.length envs)) in A, N.
  rewrite Hclear in A. cbn [orb] in A.
  assert (Hp' : p' = s') by (subst p'; unfold Prog.memory; now rewrite E).
  assert (HL : Prog.log (Phase4.task_flight_control envs loc) p = L)
    by (unfold Prog.log; now rewrite E).
  rewrite HL, Hp'. split; [exact A|]. split; [exact N|]. split; [exact R|].
  subst p''. rewrite Hp'.
  unfold Phase4.task_emergency, Prog.memory.
  cbv beta iota zeta delta [Prog.bind Prog.get Prog.emit].
  rewrite A. destruct (2000 <=? Z.of_nat (List.length envs)); [|reflexivity].
  cbn. split; [reflexivity|]. split; [reflexivity|].
  destruct more as [|env rest]; split; reflexivity.
Qed.

(** Two thousand cycles of 10 ms. *)
Lemma phase4_raises_emergency_at_2000_witness :
  Phase4.system_running phase4_memory = true /\
  Phase4.emergency_active
    (Prog.memory
       (Phase4.task_flight_control (repeat (mkFlightEnv 0 0 0 0) 2000)
          (Phase4.mkLocals 0 0)) phase4_memory) = true.
Proof.
  split; [reflexivity|].
  exact (proj1 (phase4_raises_emergency_at_2000
                  (repeat (mkFlightEnv 0 0 0 0) 2000) [] 0 0 phase4_memory
                  eq_refl eq_refl ltac:(vm_compute; reflexivity))).
Defined.

(** ** Packets counted by the command task *)

Lemma received_bounds inputs :
  0 <= received inputs <= Z.of_nat (List.length inputs).
Proof.
  induction inputs as [|[r pre] rest IH]; cbn [received List.length]; [lia|].
  destruct (0 <? recv_n r); lia.
Qed.

Lemma net_iteration_counted n0 k r preempts :
  Long.in_range (n0 + k + 1) ->
  Prog.hoare (counted n0 k) (Udp.net_iteration r preempts)
    (fun _ m => counted n0 (k + (if 0 <? recv_n r then 1 else 0)) m).
Proof.
  intros Hr s l [R N]. unfold counted.
  destruct r as [[|c rest]|b].
  - cbn. rewrite Z.add_0_r. now split.
  - run_prog. rewrite recv_n_datagram.
    destruct (String.eqb (c_string (String c rest)) "PANIC"); cbn;
      rewrite N, incr_in_range by exact Hr; split; (exact R || lia).
  - destruct b; cbn; rewrite Z.add_0_r; now split.
Qed.

Lemma task_networking_counted n0 inputs : forall k,
  Long.min_value <= n0 + k ->
  n0 + k + Z.of_nat (List.length inputs) <= Long.max_value ->
  Prog.hoare (counted n0 k) (Udp.task_networking inputs)
    (fun _ m => counted n0 (k + received inputs) m).
Proof.
  induction inputs as [|[r preempts] rest IH]; intros k Hlo Hhi;
    cbn [Udp.task_networking received List.length] in *.
  - apply hoare_ret. intros s H. now rewrite Z.add_0_r.
  - rewrite Nat2Z.inj_succ in Hhi.
    intros s l H. rewrite get_branch. destruct H as [R N]. rewrite R.
    revert s l R N.
    cut (Prog.hoare (counted n0 k)
           (Prog.bind (Udp.net_iteration r preempts)
              (fun _ => Udp.task_networking rest))
           (fun _ m =>
              counted n0
                (k + ((if 0 <? recv_n r then 1 else 0) + received rest)) m)).
    { intros H s l R N. apply H. now split. }
    apply hoare_bind
      with (R := fun _ m =>
                   counted n0 (k + (if 0 <? recv_n r then 1 else 0)) m).
    + apply net_iteration_counted.
      unfold Long.in_range. lia.
    + intros _. rewrite Z.add_assoc. apply IH; destruct (0 <? recv_n r); lia.
Qed.

(** X7: while the system runs the command task counts every datagram of
    at least one byte, whether or not its token is a command, and nothing
    else (empty datagrams, polls without data and errors are not counted).
    So the number the monitor prints is the number of such datagrams since
    its previous pass, and the counter is back at zero afterwards. *)
Theorem packets_counted
    (inputs : list (RecvResult * Z)) (m : Udp.Mem)
    (Hrun : Udp.system_running m = true)
    (Hlo : 0 <= Udp.net_packets (Udp.global_stats m))
    (Hhi : Udp.net_packets (Udp.global_stats m)
           + Z.of_nat (List.length inputs) <= Long.max_value) :
  let since := Prog.memory (Udp.task_networking inputs)
                 (Prog.memory Udp.monitor_iteration m) in
  Udp.net_packets
    (Udp.global_stats (Prog.memory (Udp.task_networking inputs) m))
  = Udp.net_packets (Udp.global_stats m) + received inputs /\
  0 <= received inputs <= Z.of_nat (List.length inputs) /\
  Udp.n_pack (Prog.result Udp.monitor_iteration since) = received inputs /\
  Udp.net_packets (Udp.global_stats (Prog.memory Udp.monitor_iteration since))
  = 0.
Proof.
  intros since.
  assert (Hm : Long.min_value <= 0) by (vm_compute; discriminate).
  pose proof (hoare_run _ _ _ m
                (task_networking_counted
                   (Udp.net_packets (Udp.global_stats m)) inputs 0
                   ltac:(lia) ltac:(lia))
                ltac:(split; [exact Hrun | lia])) as [_ H1].
  pose proof (hoare_run _ _ _ (Prog.memory Udp.monitor_iteration m)
                (task_networking_counted 0 inputs 0 ltac:(lia) ltac:(lia))
                ltac:(split; [exact Hrun | reflexivity])) as [_ H2].
  cbn [Z.add] in H1, H2.
  split; [exact H1|]. split; [apply received_bounds|].
  split; [exact H2 | reflexivity].
Qed.

(** An [UP], an unknown token, an empty datagram and a poll without data:
    two packets are counted. *)
Lemma packets_counted_witness :
  Udp.system_running Udp.Mem_init = true /\
  Udp.net_packets
    (Udp.global_stats
       (Prog.memory
          (Udp.task_networking
             [(Datagram "UP", 0); (Datagram "hello", 0); (Datagram "", 0);
              (Failure true, 0)]) Udp.Mem_init)) = 2.
Proof.
  split; [reflexivity|].
  exact (proj1 (packets_counted
                  [(Datagram "UP", 0); (Datagram "hello", 0);
                   (Datagram "", 0); (Failure true, 0)] Udp.Mem_init
                  eq_refl ltac:(vm_compute; discriminate)
                  ltac:(vm_compute; discriminate))).
Defined.

(** ** The flight loop as a whole *)

Lemma task_flight_run envs : forall nw s l,
  Udp.system_running s = true ->
  Long.min_value <= Udp.flight_loops (Udp.global_stats s) ->
  Udp.flight_loops (Udp.global_stats s) + Z.of_nat (List.length envs)
    <= Long.max_value ->
  let s' := snd (fst (Udp.task_flight envs nw s l)) in
  Udp.shared_state s'
    = Nat.iter (List.length envs) flight_critical (Udp.shared_state s) /\
  Udp.flight_loops (Udp.global_stats s')
    = Udp.flight_loops (Udp.global_stats s) + Z.of_nat (List.length envs) /\
  Udp.set_flight 0 0 0
    (Udp.set_flight_deadline_misses 0 (Udp.global_stats s'))
  = Udp.set_flight 0 0 0
      (Udp.set_flight_deadline_misses 0 (Udp.global_stats s)) /\
  Udp.system_running s' = true.
Proof.
  induction envs as [|env rest IH]; intros nw s l R Hlo Hhi.
  - cbn. rewrite Z.add_0_r. now repeat split.
  - cbn [List.length] in *. rewrite Nat2Z.inj_succ in Hhi.
    rewrite task_flight_cons by exact R.
    destruct (flight_iteration_steps env nw s l) as [l' ->].
    cbv zeta.
    match goal with
    | |- context [Udp.task_flight rest ?nw' ?s1 l'] =>
        destruct (IH nw' s1 l') as (H1 & H2 & H3 & H4)
    end; cbn [Udp.system_running Udp.global_stats Udp.set_flight
                Udp.flight_loops Udp.shared_state] in *;
      try rewrite incr_in_range in *
        by (unfold Long.in_range; lia);
      try exact R; try lia.
    rewrite H1, H2, H3, Nat.iter_succ_r.
    split; [reflexivity|]. split; [lia|]. split; [|exact H4].
    destruct (deadline_missed _ _); reflexivity.
Qed.

Lemma flight_critical_flag d :
  emergency_triggered (flight_critical d) = emergency_triggered d.
Proof.
  unfold flight_critical.
  destruct (integrate_controls (zero_controls d)) as (_ & _ & _ & _ & ->).
  unfold zero_controls. destruct d as [t p r y a v []]; reflexivity.
Qed.

Lemma flight_critical_zeroes d :
  emergency_triggered d = true ->
  throttle (flight_critical d) = F32.zero /\
  pitch (flight_critical d) = F32.zero /\
  roll (flight_critical d) = F32.zero.
Proof.
  intros E. unfold flight_critical.
  destruct (integrate_controls (zero_controls d)) as (-> & -> & -> & _).
  unfold zero_controls. rewrite E. repeat split.
Qed.

Lemma iter_flight_critical_succ n d :
  Nat.iter (S n) flight_critical d
  = flight_critical (Nat.iter n flight_critical d).
Proof. reflexivity. Qed.

Lemma iter_flight_critical_flag n d :
  emergency_triggered (Nat.iter n flight_critical d) = emergency_triggered d.
Proof.
  induction n as [|n IH]; [reflexivity|].
  now rewrite iter_flight_critical_succ, flight_critical_flag.
Qed.

(** X8: while the system runs, a run of the flight loop applies the
    critical section once per cycle to the drone state, counts each cycle
    once, writes none of the networking, vision or emergency statistics and
    leaves [system_running] alone; so with the emergency flag set, throttle,
    pitch and roll are zero after the first cycle and stay zero.  Once
    [system_running] is false the loop returns at once. *)
Theorem flight_loop_steps
    (envs : list FlightEnv) (next_wake : Z) (m stopped : Udp.Mem)
    (Hrun : Udp.system_running m = true)
    (Hstop : Udp.system_running stopped = false)
    (Hlo : Long.min_value <= Udp.flight_loops (Udp.global_stats m))
    (Hhi : Udp.flight_loops (Udp.global_stats m)
           + Z.of_nat (List.length envs) <= Long.max_value) :
  let m' := Prog.memory (Udp.task_flight envs next_wake) m in
  Udp.shared_state m'
    = Nat.iter (List.length envs) flight_critical (Udp.shared_state m) /\
  Udp.flight_loops (Udp.global_stats m')
    = Udp.flight_loops (Udp.global_stats m) + Z.of_nat (List.length envs) /\
  Udp.set_flight 0 0 0
    (Udp.set_flight_deadline_misses 0 (Udp.global_stats m'))
  = Udp.set_flight 0 0 0
      (Udp.set_flight_deadline_misses 0 (Udp.global_stats m)) /\
  Udp.system_running m' = true /\
  (if emergency_triggered (Udp.shared_state m)
      && (0 <? Z.of_nat (List.length envs))
   then throttle (Udp.shared_state m') = F32.zero /\
        pitch (Udp.shared_state m') = F32.zero /\
        roll (Udp.shared_state m') = F32.zero
   else True) /\
  Prog.memory (Udp.task_flight envs next_wake) stopped = stopped /\
  Prog.log (Udp.task_flight envs next_wake) stopped = [].
Proof.
  intros m'.
  destruct (task_flight_run envs next_wake m [] Hrun Hlo Hhi)
    as (H1 & H2 & H3 & H4).
  fold (Prog.memory (Udp.task_flight envs next_wake) m) in H1, H2, H3, H4.
  fold m' in H1, H2, H3, H4.
  split; [exact H1|]. split; [exact H2|]. split; [exact H3|].
  split; [exact H4|]. split.
  - destruct (emergency_triggered (Udp.shared_state m)) eqn:E; [|exact I].
    destruct envs as [|env rest]; [exact I|].
    cbn [andb List.length]. replace (0 <? _) with true
      by (symmetry; apply Z.ltb_lt; lia).
    rewrite H1. cbn [List.length]. rewrite iter_flight_critical_succ.
    apply flight_critical_zeroes.
    now rewrite iter_flight_critical_flag.
  - unfold Prog.memory, Prog.log.
    rewrite task_flight_stopped by exact Hstop. split; reflexivity.
Qed.

(** Three cycles with the flag set, and a memory after the shutdown. *)
Lemma flight_loop_steps_witness :
  Udp.system_running (Udp.mkMem falling Udp.SystemStats_init true) = true /\
  throttle
    (Udp.shared_state
       (Prog.memory (Udp.task_flight three_cycles 0)
          (Udp.mkMem falling Udp.SystemStats_init true))) = F32.zero.
Proof.
  split; [reflexivity|].
  pose proof (flight_loop_steps three_cycles 0
                (Udp.mkMem falling Udp.SystemStats_init true)
                (Prog.memory Udp.cleanup_and_exit Udp.Mem_init)
                eq_refl eq_refl
                ltac:(vm_compute; discriminate)
                ltac:(vm_compute; discriminate)) as H.
  cbv zeta in H. destruct H as (_ & _ & _ & _ & H & _).
  exact (proj1 H).
Defined.

(** ** Leaving the ground *)

(** X9: for a vehicle at rest on the ground whose controls are among those
    the commands can set, one flight cycle lifts it (altitude and velocity
    become positive) exactly when throttle is at least 40 with pitch and
    roll zero, or at least 50 otherwise; below that it stays at rest.  With
    the emergency flag set it stays at rest whatever the controls. *)
Theorem takeoff_threshold
    (d : DroneState)
    (Hgrid : UdpSystem.on_grid d) (Hrest : at_rest d) :
  (if emergency_triggered d then at_rest (flight_critical d)
   else if F32.leb (takeoff_throttle d) (throttle d)
        then F32.ltb F32.zero (altitude (flight_critical d)) = true /\
             F32.ltb F32.zero (velocity (flight_critical d)) = true
        else at_rest (flight_critical d)) /\
  throttle (flight_critical d)
  = (if emergency_triggered d then F32.zero else throttle d).
Proof.
  destruct d as [t p r y a v e]. destruct Hrest as [Ha Hv].
  destruct Hgrid as (Ht & Hp & Hr). cbn [altitude velocity throttle pitch roll] in *.
  subst a v. unfold throttle_grid, tilt_grid in *.
  cbn [map In] in Ht, Hp, Hr.
  destruct Hp as [<-|[<-|[<-|[]]]]; destruct Hr as [<-|[<-|[<-|[]]]];
    destruct e;
    destruct Ht
      as [<-|[<-|[<-|[<-|[<-|[<-|[<-|[<-|[<-|[<-|[<-|[]]]]]]]]]]]];
    vm_compute; repeat split.
Qed.

(** Throttle 40, pitched forward: it stays on the ground. *)
Lemma takeoff_threshold_witness :
  UdpSystem.on_grid (set_pitch F32.f15 (set_throttle (F32.of_Z 40) DroneState_init))
  /\
  at_rest (flight_critical
             (set_pitch F32.f15 (set_throttle (F32.of_Z 40) DroneState_init))).
Proof.
  assert (G : UdpSystem.on_grid
                (set_pitch F32.f15
                   (set_throttle (F32.of_Z 40) DroneState_init)))
    by (vm_compute; tauto).
  split; [exact G|].
  exact (proj1 (takeoff_threshold _ G (conj eq_refl eq_refl))).
Defined.

(** ** The rolling average of the execution time *)

Lemma avg_step_towards a d :
  Z.min a d <= Z.quot (a + d) 2 <= Z.max a d /\
  2 * Z.abs (Z.quot (a + d) 2 - d) <= Z.abs (a - d) + 1.
Proof. Z.to_euclidean_division_equations. lia. Qed.

Lemma avg_after_bounded envs nw m :
  - sample_bound <= Udp.flight_exec_avg_us (Udp.global_stats m)
    <= sample_bound ->
  - sample_bound <= avg_after envs nw m <= sample_bound.
Proof. intros H. unfold avg_after, Prog.memory. now apply task_flight_avg. Qed.

(** X10: the recorded execution time forgets its past by halves.  If the
    next [n] cycles all take [d] microseconds, the average moves from where
    it was ([a0]) towards [d] without passing it and ends within
    [|a0 - d| / 2^n + 1] of [d]: the last sample weighs as much as all the
    history. *)
Theorem average_forgets
    (before envs : list FlightEnv) (next_wake d : Z) (m : Udp.Mem)
    (Hrun : Udp.system_running m = true)
    (Havg : - sample_bound
            <= Udp.flight_exec_avg_us (Udp.global_stats m) <= sample_bound)
    (Hsame : forall env, In env envs -> sample env = d) :
  let a0 := avg_after before next_wake m in
  let a := avg_after (before ++ envs)%list next_wake m in
  let n := Z.of_nat (List.length envs) in
  Z.min a0 d <= a <= Z.max a0 d /\
  2 ^ n * Z.abs (a - d) <= Z.abs (a0 - d) + 2 ^ n - 1.
Proof.
  induction envs as [|env envs IH] using rev_ind; cbv zeta.
  - rewrite app_nil_r. cbn [List.length Z.of_nat]. change (2 ^ 0) with 1. lia.
  - rewrite app_assoc, (avg_after_snoc _ _ _ _ Hrun).
    assert (Hd : sample env = d) by (apply Hsame, in_or_app; right; now left).
    rewrite Hd.
    destruct (exec_avg_bounded (avg_after (before ++ envs)%list next_wake m) d)
      as [-> _].
    { now apply avg_after_bounded. }
    { rewrite <- Hd. apply sample_bounded. }
    specialize (IH (fun e H => Hsame e (in_or_app _ _ _ (or_introl H)))).
    cbv zeta in IH. destruct IH as [IH1 IH2].
    rewrite length_app. cbn [List.length].
    replace (Z.of_nat (List.length envs + 1))
      with (Z.of_nat (List.length envs) + 1) by lia.
    rewrite Z.pow_add_r by lia. change (2 ^ 1) with 2.
    set (P := 2 ^ Z.of_nat (List.length envs)) in *.
    assert (HP : 0 < P) by (subst P; apply Z.pow_pos_nonneg; lia).
    set (b := avg_after (before ++ envs)%list next_wake m) in *.
    destruct (avg_step_towards b d) as [E1 E2].
    split; [lia|].
    assert (P * (2 * Z.abs (Z.quot (b + d) 2 - d)) <= P * (Z.abs (b - d) + 1))
      by (apply Z.mul_le_mono_nonneg_l; lia).
    lia.
Qed.

(** Three cycles of 500 us from an average of 0: 250, 375, 437. *)
Lemma average_forgets_witness :
  Udp.system_running Udp.Mem_init = true /\
  avg_after ([] ++ repeat (mkFlightEnv 0 0 500000 0) 3)%list 0 Udp.Mem_init
  = 437 /\
  2 ^ Z.of_nat (List.length (repeat (mkFlightEnv 0 0 500000 0) 3))
  * Z.abs (avg_after ([] ++ repeat (mkFlightEnv 0 0 500000 0) 3)%list 0
             Udp.Mem_init - 500)
  <= Z.abs (avg_after [] 0 Udp.Mem_init - 500)
     + 2 ^ Z.of_nat (List.length (repeat (mkFlightEnv 0 0 500000 0) 3)) - 1.
Proof.
  split; [reflexivity|]. split; [vm_compute; reflexivity|].
  exact (proj2 (average_forgets [] (repeat (mkFlightEnv 0 0 500000 0) 3) 0 500
                  Udp.Mem_init eq_refl
                  ltac:(vm_compute; split; discriminate)
                  ltac:(intros env H; apply repeat_spec in H; subst env;
                        reflexivity))).
Defined.

(** ** The token of a datagram *)

Lemma c_string_cut p junk :
  c_string (p ++ String Ascii.zero junk) = c_string p.
Proof.
  induction p as [|c p IH]; cbn [String.append c_string]; [reflexivity|].
  destruct (Ascii.eqb c Ascii.zero); [reflexivity | now rewrite IH].
Qed.

Lemma c_string_idem p : c_string (c_string p) = c_string p.
Proof.
  induction p as [|c p IH]; cbn [c_string]; [reflexivity|].
  destruct (Ascii.eqb c Ascii.zero) eqn:E; [reflexivity|].
  cbn [c_string]. now rewrite E, IH.
Qed.

Lemma c_string_app p q : c_string p = p -> c_string (p ++ q) = p ++ c_string q.
Proof.
  induction p as [|c p IH]; cbn [String.append c_string]; [reflexivity|].
  destruct (Ascii.eqb c Ascii.zero); [discriminate|].
  intros H. injection H as H. now rewrite IH.
Qed.

Lemma is_command_cases w :
  is_command w = true -> In w commands.
Proof.
  unfold is_command. intros H. apply existsb_exists in H.
  destruct H as (x & Hx & E). apply String.eqb_eq in E. now subst.
Qed.

Lemma command_suffix w c rest :
  is_command w = true -> is_command (w ++ String c rest) = false.
Proof.
  intros H. apply is_command_cases in H. unfold commands in H. cbn [In] in H.
  repeat (destruct H as [<-|H]; [vm_compute; reflexivity|]).
  contradiction.
Qed.

Lemma append_nonempty p q : (0 <? recv_n (Datagram p)) = true ->
  (0 <? recv_n (Datagram (p ++ q))) = true.
Proof.
  destruct p as [|c p]; [discriminate|]. intros _. apply recv_n_datagram.
Qed.

Lemma commands_have_no_nul w : is_command w = true -> c_string w = w.
Proof.
  intros H. apply is_command_cases in H. unfold commands in H. cbn [In] in H.
  repeat (destruct H as [<-|H]; [reflexivity|]). contradiction.
Qed.

Lemma not_command_not_panic tok :
  is_command tok = false -> String.eqb tok "PANIC" = false.
Proof.
  unfold is_command, commands. cbn [existsb].
  now destruct (String.eqb tok "PANIC").
Qed.

Lemma net_iteration_unknown payload preempts m :
  (0 <? recv_n (Datagram payload)) = true ->
  is_command (c_string payload) = false ->
  Prog.memory (Udp.net_iteration (Datagram payload) preempts) m
  = Prog.memory (Udp.net_count_packet preempts) m.
Proof.
  intros Hn Hno. run_prog. rewrite Hn.
  rewrite (not_command_not_panic _ Hno). cbn.
  rewrite (is_command_false _ _ Hno). reflexivity.
Qed.

(** X11: the command task of udp_test_receiver.cpp reads a datagram as the
    bytes before its first NUL: what follows a NUL is ignored, so a datagram
    of at least one byte and the same datagram followed by a NUL and
    anything else are handled alike.  A command word followed by any other
    byte (a newline, a space) is no command: the packet is counted and
    nothing else changes. *)
Theorem datagram_token
    (payload junk w rest : string) (c : ascii) (preempts : Z) (m : Udp.Mem)
    (Hn : 0 < recv_n (Datagram payload))
    (Hw : is_command w = true)
    (Hc : Ascii.eqb c Ascii.zero = false) :
  c_string (payload ++ String Ascii.zero junk) = c_string payload /\
  c_string (c_string payload) = c_string payload /\
  Udp.net_iteration (Datagram (payload ++ String Ascii.zero junk)) preempts m []
  = Udp.net_iteration (Datagram payload) preempts m [] /\
  is_command (c_string (w ++ String c rest)) = false /\
  Prog.memory (Udp.net_iteration (Datagram (w ++ String c rest)) preempts) m
  = Prog.memory (Udp.net_count_packet preempts) m.
Proof.
  apply Z.ltb_lt in Hn.
  assert (Hcut := c_string_cut payload junk).
  assert (Hs : c_string (w ++ String c rest) = w ++ String c (c_string rest)).
  { rewrite c_string_app by now apply commands_have_no_nul.
    cbn [c_string]. now rewrite Hc. }
  assert (Hno : is_command (c_string (w ++ String c rest)) = false)
    by (rewrite Hs; now apply command_suffix).
  split; [exact Hcut|]. split; [apply c_string_idem|].
  split.
  { unfold Udp.net_iteration.
    rewrite (append_nonempty payload (String Ascii.zero junk) Hn), Hn, Hcut.
    reflexivity. }
  split; [exact Hno|].
  assert (Hw' : (0 <? recv_n (Datagram (w ++ String c rest))) = true).
  { destruct w as [|c0 w0]; apply recv_n_datagram. }
  now apply net_iteration_unknown.
Qed.

(** [UP] followed by a NUL and more is [UP]; [UP] followed by a newline is
    no command. *)
Lemma datagram_token_witness :
  0 < recv_n (Datagram "UP") /\
  c_string ("UP" ++ String Ascii.zero "xyz") = c_string "UP" /\
  is_command (c_string ("UP" ++ String "010"%char "")) = false.
Proof.
  pose proof (datagram_token "UP" "xyz" "UP" "" "010"%char 0 Udp.Mem_init
                ltac:(reflexivity) eq_refl eq_refl)
    as (H1 & _ & _ & H2 & _).
  split; [reflexivity|]. split; [exact H1 | exact H2].
Defined.

(** ** Thread set-up *)

Lemma task_emergency_never_returns m :
  returns (Prog.log Udp.task_emergency m) = false.
Proof.
  unfold Prog.log, Udp.task_emergency, Prog.bind, Prog.get, Prog.emit.
  destruct (emergency_triggered (Udp.shared_state m)); reflexivity.
Qed.

(** X12: what [main] asks of the scheduler.  In udp_test_receiver.cpp the
    emergency thread gets priority 90, flight 50, networking 30 and vision
    10, whatever the arguments and whether or not the request is granted (a
    refusal only prints a complaint); the monitor gets none.  The four are
    pinned, all to core 0, exactly when the first argument is the string 1;
    the monitor is never pinned.  All five are started.  [main] then joins
    them in the order flight, vision, networking, emergency, monitor, each
    only once the one before has returned; [task_emergency] never returns -
    it is left in its wait or at the lock of [cleanup_and_exit] - so the
    monitor is never joined and [main] does not get past its joins.
    phase4.cpp sets up its three tasks in the same way, has no networking
    thread, tells the monitor mode 1 or 4, and joins in the order flight,
    vision, emergency, monitor. *)
Theorem thread_setup
    (argv : list string) (granted finishes finishes4 : Thread -> bool)
    (th : Thread) (m : Udp.Mem)
    (Hem : finishes EmergencyThread = returns (Prog.log Udp.task_emergency m)) :
  let setup := Udp.main argv granted finishes in
  let setup4 := fst (Phase4.main argv finishes4) in
  (priority_of th setup
   = match th with
     | EmergencyThread => Some 90
     | FlightThread => Some 50
     | NetworkingThread => Some 30
     | VisionThread => Some 10
     | MonitorThread => None
     end /\
   core_of th setup
   = (if single_core argv && negb (Thread_eqb th MonitorThread)
      then Some 0 else None) /\
   asks (Complain th) setup
   = negb (granted th) && negb (Thread_eqb th MonitorThread) /\
   asks (Spawn th) setup = true /\
   asks (Join th) setup
   = match th with
     | FlightThread => true
     | VisionThread => finishes FlightThread
     | NetworkingThread => finishes FlightThread && finishes VisionThread
     | EmergencyThread =>
         finishes FlightThread && finishes VisionThread
         && finishes NetworkingThread
     | MonitorThread => false
     end) /\
  returns (Prog.log Udp.task_emergency m) = false /\
  (priority_of th setup4
   = match th with
     | EmergencyThread => Some 90
     | FlightThread => Some 50
     | VisionThread => Some 10
     | NetworkingThread | MonitorThread => None
     end /\
   core_of th setup4
   = (if single_core argv
         && negb (Thread_eqb th MonitorThread)
         && negb (Thread_eqb th NetworkingThread)
      then Some 0 else None) /\
   asks (Spawn th) setup4 = negb (Thread_eqb th NetworkingThread) /\
   asks (Join th) setup4
   = match th with
     | FlightThread => true
     | VisionThread => finishes4 FlightThread
     | EmergencyThread => finishes4 FlightThread && finishes4 VisionThread
     | MonitorThread =>
         finishes4 FlightThread && finishes4 VisionThread
         && finishes4 EmergencyThread
     | NetworkingThread => false
     end /\
   snd (Phase4.main argv finishes4) = (if single_core argv then 1 else 4)).
Proof.
  cbv zeta. rewrite task_emergency_never_returns in Hem.
  assert (Hcore : target_core argv = if single_core argv then 0 else -1).
  { unfold target_core, single_core.
    destruct argv as [|a0 [|a1 rest]]; reflexivity. }
  unfold Udp.main, Phase4.main. cbv zeta. rewrite Hcore.
  split; [|split; [apply task_emergency_never_returns|]].
  - cbn [join_all]. rewrite Hem.
    destruct th; destruct (single_core argv);
      destruct (granted EmergencyThread); destruct (granted FlightThread);
      destruct (granted NetworkingThread); destruct (granted VisionThread);
      destruct (finishes FlightThread); destruct (finishes VisionThread);
      destruct (finishes NetworkingThread);
      repeat split; cbn; now rewrite ?andb_false_r.
  - clear Hem. cbn [join_all].
    destruct th; destruct (single_core argv);
      destruct (finishes4 FlightThread); destruct (finishes4 VisionThread);
      destruct (finishes4 EmergencyThread); destruct (finishes4 MonitorThread);
      repeat split.
Qed.

(** The emergency task of a freshly started program is left in its wait. *)
Lemma thread_setup_witness :
  asks (Join MonitorThread)
    (Udp.main ["drone"; "1"] (fun _ => true)
       (fun th => negb (Thread_eqb th EmergencyThread))) = false /\
  priority_of EmergencyThread
    (Udp.main ["drone"; "1"] (fun _ => true)
       (fun th => negb (Thread_eqb th EmergencyThread))) = Some 90.
Proof.
  pose proof (thread_setup ["drone"; "1"] (fun _ => true)
                (fun th => negb (Thread_eqb th EmergencyThread))
                (fun _ => true) MonitorThread Udp.Mem_init eq_refl)
    as [(_ & _ & _ & _ & H) _].
  split; [exact H | reflexivity].
Defined.

(** ** The published emergency status *)

Section Status.

Import UdpSystem.

Lemma exec_status a s :
  published_status (exec a s)
  = match a with
    | NetCommand cmd =>
        if String.eqb cmd "PANIC" then "TRIGGERED" else published_status s
    | EmergencyMarkActive => "ACTIVE"
    | _ => published_status s
    end.
Proof.
  unfold published_status. destruct a; try reflexivity.
  - unfold exec, on_mem, Prog.memory, Udp.flight_check_deadline, Prog.when.
    destruct (deadline_missed now next_wake); reflexivity.
  - change (Udp.emergency_status
              (Udp.global_stats (Prog.memory (Udp.handle_command cmd) (mem s)))
            = if String.eqb cmd "PANIC" then "TRIGGERED"
              else Udp.emergency_status (Udp.global_stats (mem s))).
    rewrite handle_command_stats.
    destruct (String.eqb cmd "PANIC"); reflexivity.
  - unfold exec. destruct (pc_eqb (emergency_pc s) Waiting); reflexivity.
Qed.

Lemma exec_pc a s :
  enabled a s = true ->
  match a with
  | EmergencyWake =>
      emergency_pc s = Waiting /\ emergency s = true /\
      emergency_pc (exec a s) = Woken
  | EmergencyMarkActive =>
      emergency_pc s = Woken /\ emergency_pc (exec a s) = Sleeping
  | EmergencyShutdown =>
      emergency_pc s = Sleeping /\ emergency_pc (exec a s) = Blocked
  | _ => emergency_pc (exec a s) = emergency_pc s
  end.
Proof.
  unfold enabled. intros E. apply andb_prop in E. destruct E as [_ E].
  destruct a; try reflexivity.
  - apply andb_prop in E. destruct E as [E1 E2].
    destruct (emergency_pc s); try discriminate. now repeat split.
  - destruct (emergency_pc s); try discriminate. now split.
  - destruct (emergency_pc s); try discriminate. now split.
  - unfold exec. destruct (pc_eqb (emergency_pc s) Waiting); reflexivity.
Qed.

Lemma exec_status_consistent a s :
  enabled a s = true -> status_consistent s -> status_consistent (exec a s).
Proof.
  intros E (H1 & H2 & H3 & H4).
  pose proof (exec_status a s) as Hst.
  pose proof (exec_pc a s E) as Hpc.
  pose proof (exec_flag a s) as Hfl.
  assert (Hp : emergency (exec (NetCommand "PANIC") s) = true) by reflexivity.
  unfold status_consistent.
  destruct a; rewrite Hst;
    try (rewrite Hpc;
         (split; [exact H1|]);
         (split; [destruct H2 as [C|C]; [now left | right; now apply Hfl]|]);
         (split; [destruct H3 as [C|C]; [now left | right; now apply Hfl]|]);
         exact H4).
  - (* NetCommand *)
    rewrite Hpc. destruct (String.eqb cmd "PANIC") eqn:Ec.
    + apply String.eqb_eq in Ec. subst cmd.
      split; [cbn; tauto|]. split; [now right|]. split; [now right|].
      discriminate.
    + split; [exact H1|]. split; [tauto|]. split; [tauto|]. exact H4.
  - (* EmergencyWake *)
    destruct Hpc as (Hw & He & ->).
    split; [exact H1|]. split; [tauto|]. split; [right; now apply Hfl|].
    intros Ha. destruct (H4 Ha) as [C|C]; rewrite C in Hw; discriminate.
  - (* EmergencyMarkActive *)
    destruct Hpc as (Hw & ->).
    assert (He : emergency s = true)
      by (destruct H3 as [C|C]; [rewrite C in Hw; discriminate | exact C]).
    split; [cbn; tauto|]. split; [right; now apply Hfl|].
    split; [right; now apply Hfl | now left].
  - (* EmergencyShutdown *)
    destruct Hpc as (Hw & ->).
    assert (He : emergency s = true)
      by (destruct H3 as [C|C]; [rewrite C in Hw; discriminate | exact C]).
    split; [exact H1|]. split; [right; now apply Hfl|].
    split; [right; now apply Hfl | now right].
Qed.

Lemma exec_status_published a s :
  published_status s <> "STANDBY" -> published_status (exec a s) <> "STANDBY".
Proof.
  intros H. rewrite exec_status. destruct a; try exact H; try discriminate.
  destruct (String.eqb cmd "PANIC"); [discriminate | exact H].
Qed.

Lemma run_status_consistent acts : forall s s',
  run acts s = Some s' -> status_consistent s -> status_consistent s'.
Proof.
  induction acts as [|a rest IH]; intros s s' H G; cbn [run] in H.
  - now injection H as <-.
  - destruct (enabled a s) eqn:E; [|discriminate].
    eapply IH; [exact H | now apply exec_status_consistent].
Qed.

Lemma run_status_published acts : forall s s',
  run acts s = Some s' ->
  published_status s <> "STANDBY" -> published_status s' <> "STANDBY".
Proof.
  induction acts as [|a rest IH]; intros s s' H G; cbn [run] in H.
  - now injection H as <-.
  - destruct (enabled a s) eqn:E; [|discriminate].
    eapply IH; [exact H | now apply exec_status_published].
Qed.

(** X13: in every state the tasks of udp_test_receiver.cpp can reach, the
    published emergency status is STANDBY, TRIGGERED or ACTIVE; it is other
    than STANDBY only if the emergency flag is set, the emergency task has
    left its wait only if the flag is set, and ACTIVE is published only
    after that; once the status has left STANDBY it never returns. *)
Theorem status_follows_flag
    (acts more : list Action) (s s' : System)
    (Hs : run acts System_init = Some s)
    (Hs' : run more s = Some s') :
  status_consistent s /\
  (published_status s <> "STANDBY" -> published_status s' <> "STANDBY").
Proof.
  split.
  - apply (run_status_consistent acts System_init s Hs).
    repeat split; cbn; try tauto. discriminate.
  - apply (run_status_published more s s' Hs').
Qed.

(** A [PANIC], the emergency task wakes and publishes, then an [UP]. *)
Lemma status_follows_flag_witness :
  (exists s, run [NetCommand "PANIC"; EmergencyWake; EmergencyMarkActive]
                 System_init = Some s /\
             published_status s = "ACTIVE" /\ status_consistent s) /\
  (exists s', run [NetCommand "PANIC"; EmergencyWake; EmergencyMarkActive;
                   NetCommand "UP"] System_init = Some s' /\
              published_status s' <> "STANDBY").
Proof.
  pose proof (status_follows_flag
                [NetCommand "PANIC"; EmergencyWake; EmergencyMarkActive]
                [NetCommand "UP"] _ _ eq_refl eq_refl) as [H1 H2].
  split.
  - eexists. split; [reflexivity|]. split; [reflexivity | exact H1].
  - eexists. split; [reflexivity|]. apply H2. discriminate.
Defined.

End Status.

(** ** The timeline of data_collector.cpp *)

Lemma timeline_count_app thread event l1 l2 :
  timeline_count thread event (l1 ++ l2)%list
  = timeline_count thread event l1 + timeline_count thread event l2.
Proof. unfold timeline_count. rewrite filter_app, length_app. lia. Qed.

Lemma dc_flight_iteration_steps env current nw last s l :
  exists L,
    DataCollector.flight_iteration env current nw last s l
    = ((next_deadline nw, Z.max last current),
       DataCollector.mkMem
         (flight_critical (DataCollector.shared_state s))
         (DataCollector.set_flight
            (Long.incr (DataCollector.flight_loops (DataCollector.global_stats s)))
            (exec_avg
               (DataCollector.flight_exec_avg_us (DataCollector.global_stats s))
               (sample env))
            (preempts_read env)
            (if deadline_missed (now_at_check env) (next_deadline nw)
             then DataCollector.set_flight_deadline_misses
                    (Long.incr (DataCollector.flight_deadline_misses
                                  (DataCollector.global_stats s)))
                    (DataCollector.global_stats s)
             else DataCollector.global_stats s))
         (DataCollector.system_running s),
       (l ++ L)%list) /\
    timeline_count "Flight" "START" L = 1 /\
    timeline_count "Flight" "END" L = 1 /\
    timeline_count "Flight" "DEADLINE_MISS" L
    = (if deadline_missed (now_at_check env) (next_deadline nw) then 1 else 0)
    /\
    timeline_count "Flight" "PREEMPTED" L
    = (if last <? current then 1 else 0).
Proof.
  unfold DataCollector.flight_iteration, DataCollector.note_preemption,
    DataCollector.log_timeline_event, DataCollector.flight_critical_section,
    sample.
  cbv beta iota zeta delta
    [Prog.bind Prog.when Prog.with_lock Prog.emit Prog.ret Prog.modify
     DataCollector.modify_stats DataCollector.modify_state fst snd].
  assert (Hmax : Z.max last current = if last <? current then current else last).
  { destruct (last <? current) eqn:E;
      [apply Z.ltb_lt in E | apply Z.ltb_ge in E]; lia. }
  rewrite Hmax.
  destruct (last <? current);
    destruct (deadline_missed (now_at_check env) (next_deadline nw));
    cbv beta iota zeta; repeat rewrite <- app_assoc; cbn [app];
    (eexists; split; [reflexivity | repeat split]).
Qed.

Lemma timeline_count_bounds thread event L : 0 <= timeline_count thread event L.
Proof. unfold timeline_count. lia. Qed.

Lemma dc_task_flight_cons env current rest nw last s l :
  DataCollector.system_running s = true ->
  DataCollector.task_flight ((env, current) :: rest) nw last s l
  = let '(r, s', l') := DataCollector.flight_iteration env current nw last s l in
    DataCollector.task_flight rest (fst r) (snd r) s' l'.
Proof.
  intros R. cbn [DataCollector.task_flight]. rewrite get_branch, R.
  reflexivity.
Qed.

Lemma dc_task_flight_run envs : forall nw last s l,
  DataCollector.system_running s = true ->
  Long.min_value
  <= DataCollector.flight_deadline_misses (DataCollector.global_stats s) ->
  DataCollector.flight_deadline_misses (DataCollector.global_stats s)
  + Z.of_nat (List.length envs) <= Long.max_value ->
  Long.min_value <= DataCollector.flight_loops (DataCollector.global_stats s) ->
  DataCollector.flight_loops (DataCollector.global_stats s)
  + Z.of_nat (List.length envs) <= Long.max_value ->
  exists L s' nw',
    DataCollector.task_flight envs nw last s l
    = ((nw', fold_left Z.max (map snd envs) last), s', (l ++ L)%list) /\
    DataCollector.system_running s' = true /\
    timeline_count "Flight" "START" L = Z.of_nat (List.length envs) /\
    timeline_count "Flight" "END" L = Z.of_nat (List.length envs) /\
    DataCollector.flight_loops (DataCollector.global_stats s')
    = DataCollector.flight_loops (DataCollector.global_stats s)
      + Z.of_nat (List.length envs) /\
    DataCollector.flight_deadline_misses (DataCollector.global_stats s')
    = DataCollector.flight_deadline_misses (DataCollector.global_stats s)
      + timeline_count "Flight" "DEADLINE_MISS" L /\
    timeline_count "Flight" "DEADLINE_MISS" L <= Z.of_nat (List.length envs) /\
    timeline_count "Flight" "PREEMPTED" L = rises (map snd envs) last.
Proof.
  induction envs as [|[env current] rest IH]; intros nw last s l R M0 M1 F0 F1.
  - exists [], s, nw. cbn. rewrite app_nil_r, !Z.add_0_r. now repeat split.
  - cbn [List.length] in *. rewrite Nat2Z.inj_succ in *.
    rewrite dc_task_flight_cons by exact R.
    pose proof (incr_in_range
                  (DataCollector.flight_deadline_misses
                     (DataCollector.global_stats s))) as I1.
    pose proof (incr_in_range
                  (DataCollector.flight_loops (DataCollector.global_stats s)))
      as I2.
    unfold Long.in_range in I1, I2.
    rewrite <- Z.add_1_r in *.
    specialize (I1 ltac:(lia)). specialize (I2 ltac:(lia)).
    destruct (dc_flight_iteration_steps env current nw last s l)
      as (L1 & -> & S1 & E1 & D1 & P1).
    cbn [fst snd].
    match goal with
    | |- context [DataCollector.task_flight rest ?nw' ?last' ?s' ?l'] =>
        destruct (IH nw' last' s' l')
          as (L2 & s2 & nw2 & -> & R2 & S2 & E2 & F2 & D2 & B2 & P2)
    end.
    + exact R.
    + cbn [DataCollector.global_stats DataCollector.set_flight
             DataCollector.flight_deadline_misses].
      destruct (deadline_missed _ _);
        cbn [DataCollector.set_flight_deadline_misses
               DataCollector.flight_deadline_misses]; lia.
    + cbn [DataCollector.global_stats DataCollector.set_flight
             DataCollector.flight_deadline_misses].
      destruct (deadline_missed _ _);
        cbn [DataCollector.set_flight_deadline_misses
               DataCollector.flight_deadline_misses]; lia.
    + cbn [DataCollector.global_stats DataCollector.set_flight
             DataCollector.flight_loops]. lia.
    + cbn [DataCollector.global_stats DataCollector.set_flight
             DataCollector.flight_loops]. lia.
    + exists (L1 ++ L2)%list, s2, nw2.
      rewrite !timeline_count_app, S1, E1, D1, P1, S2, E2, P2, app_assoc.
      cbn [map snd fold_left rises].
      split; [reflexivity|]. split; [exact R2|].
      split; [lia|]. split; [lia|].
      rewrite F2, D2.
      cbn [DataCollector.global_stats DataCollector.set_flight
             DataCollector.flight_loops DataCollector.flight_deadline_misses]
        in *.
      destruct (deadline_missed _ _);
        cbn [DataCollector.set_flight_deadline_misses
               DataCollector.flight_deadline_misses] in *;
        repeat split; lia.
Qed.

(** X14: the timeline written by the flight task of data_collector.cpp
    agrees with its statistics (a [Timeline] event is a call of
    [log_timeline_event], which writes one line when the file is open).
    While the system runs and the counters do not overflow, a run of [n]
    cycles writes [n] START and [n] END lines,
    counts [n] loops, and writes exactly as many DEADLINE_MISS lines as it
    adds to [flight_deadline_misses]; it writes a PREEMPTED line exactly
    when the preemption counter exceeds every earlier reading, and
    [last_preempt_count] ends as the largest reading. *)
Theorem flight_timeline
    (envs : list (FlightEnv * Z)) (next_wake last_count : Z)
    (m : DataCollector.Mem)
    (Hrun : DataCollector.system_running m = true)
    (Hmiss : Long.min_value
             <= DataCollector.flight_deadline_misses
                  (DataCollector.global_stats m))
    (Hmiss' : DataCollector.flight_deadline_misses
                (DataCollector.global_stats m)
              + Z.of_nat (List.length envs) <= Long.max_value)
    (Hloops : Long.min_value
              <= DataCollector.flight_loops (DataCollector.global_stats m))
    (Hloops' : DataCollector.flight_loops (DataCollector.global_stats m)
               + Z.of_nat (List.length envs) <= Long.max_value) :
  let run := DataCollector.task_flight envs next_wake last_count in
  let stats := DataCollector.global_stats (Prog.memory run m) in
  timeline_count "Flight" "START" (Prog.log run m)
  = Z.of_nat (List.length envs) /\
  timeline_count "Flight" "END" (Prog.log run m)
  = Z.of_nat (List.length envs) /\
  DataCollector.flight_loops stats
  = DataCollector.flight_loops (DataCollector.global_stats m)
    + Z.of_nat (List.length envs) /\
  DataCollector.flight_deadline_misses stats
  = DataCollector.flight_deadline_misses (DataCollector.global_stats m)
    + timeline_count "Flight" "DEADLINE_MISS" (Prog.log run m) /\
  timeline_count "Flight" "DEADLINE_MISS" (Prog.log run m)
  <= Z.of_nat (List.length envs) /\
  timeline_count "Flight" "PREEMPTED" (Prog.log run m)
  = rises (map snd envs) last_count /\
  snd (Prog.result run m) = fold_left Z.max (map snd envs) last_count.
Proof.
  cbv zeta. unfold Prog.log, Prog.memory, Prog.result.
  destruct (dc_task_flight_run envs next_wake last_count m []
              Hrun Hmiss Hmiss' Hloops Hloops')
    as (L & s' & nw' & -> & _ & S & E & F & D & B & P).
  cbn [fst snd app]. now repeat split.
Qed.

(** Two cycles: the second starts late and after three preemptions. *)
Lemma flight_timeline_witness :
  DataCollector.system_running DataCollector.Mem_init = true /\
  DataCollector.flight_deadline_misses
    (DataCollector.global_stats
       (Prog.memory
          (DataCollector.task_flight
             [(mkFlightEnv 100 200 700200 0, 0);
              (mkFlightEnv 25000000 25000100 25500100 3, 3)] 0 0)
          DataCollector.Mem_init))
  = 0 + timeline_count "Flight" "DEADLINE_MISS"
          (Prog.log
             (DataCollector.task_flight
                [(mkFlightEnv 100 200 700200 0, 0);
                 (mkFlightEnv 25000000 25000100 25500100 3, 3)] 0 0)
             DataCollector.Mem_init) /\
  timeline_count "Flight" "DEADLINE_MISS"
    (Prog.log
       (DataCollector.task_flight
          [(mkFlightEnv 100 200 700200 0, 0);
           (mkFlightEnv 25000000 25000100 25500100 3, 3)] 0 0)
       DataCollector.Mem_init) = 1.
Proof.
  split; [reflexivity|].
  split; [|vm_compute; reflexivity].
  pose proof (flight_timeline
                [(mkFlightEnv 100 200 700200 0, 0);
                 (mkFlightEnv 25000000 25000100 25500100 3, 3)] 0 0
                DataCollector.Mem_init eq_refl
                ltac:(vm_compute; discriminate)
                ltac:(vm_compute; discriminate)
                ltac:(vm_compute; discriminate)
                ltac:(vm_compute; discriminate)) as H.
  cbv zeta in H. destruct H as (_ & _ & _ & H & _).
  exact H.
Defined.

(** ** Frames per interval *)

Lemma dc_vision_loop_framed n0 readings : forall k last,
  Long.min_value <= n0 + k ->
  n0 + k + Z.of_nat (List.length readings) <= Long.max_value ->
  Prog.hoare (dc_framed n0 k) (DataCollector.vision_loop readings last)
    (fun _ m => dc_framed n0 (k + Z.of_nat (List.length readings)) m).
Proof.
  induction readings as [|[current preempts] rest IH]; intros k last Hlo Hhi;
    cbn [DataCollector.vision_loop List.length] in *.
  - apply hoare_ret. intros s H. now rewrite Z.add_0_r.
  - rewrite Nat2Z.inj_succ in *.
    intros s l [R N]. rewrite get_branch, R.
    revert s l R N.
    cut (Prog.hoare (dc_framed n0 k)
           (Prog.bind (DataCollector.vision_iteration current preempts last)
              (fun last' => DataCollector.vision_loop rest last'))
           (fun _ m => dc_framed n0 (k + Z.succ (Z.of_nat (List.length rest))) m)).
    { intros H s l R N. apply H. now split. }
    apply hoare_bind with (R := fun _ m => dc_framed n0 (k + 1) m).
    + intros s l [R N]. unfold dc_framed.
      unfold DataCollector.vision_iteration, DataCollector.note_preemption,
        DataCollector.log_timeline_event.
      destruct (last <? current); cbn; rewrite N, incr_in_range
        by (unfold Long.in_range; lia); split; (exact R || lia).
    + intros last'. replace (k + Z.succ (Z.of_nat (List.length rest)))
        with (k + 1 + Z.of_nat (List.length rest)) by lia.
      apply IH; lia.
Qed.

Lemma phase4_task_vision_framed n0 readings : forall k,
  Long.min_value <= n0 + k ->
  n0 + k + Z.of_nat (List.length readings) <= Long.max_value ->
  Prog.hoare (phase4_framed n0 k) (Phase4.task_vision readings)
    (fun _ m => phase4_framed n0 (k + Z.of_nat (List.length readings)) m).
Proof.
  induction readings as [|preempts rest IH]; intros k Hlo Hhi;
    cbn [Phase4.task_vision List.length] in *.
  - apply hoare_ret. intros s H. now rewrite Z.add_0_r.
  - rewrite Nat2Z.inj_succ in *.
    intros s l [R N]. rewrite get_branch, R.
    revert s l R N.
    cut (Prog.hoare (phase4_framed n0 k)
           (Prog.bind (Phase4.vision_iteration preempts)
              (fun _ => Phase4.task_vision rest))
           (fun _ m =>
              phase4_framed n0 (k + Z.succ (Z.of_nat (List.length rest))) m)).
    { intros H s l R N. apply H. now split. }
    apply hoare_bind with (R := fun _ m => phase4_framed n0 (k + 1) m).
    + intros s l [R N]. unfold phase4_framed, Phase4.vision_iteration.
      cbn. rewrite N, incr_in_range by (unfold Long.in_range; lia).
      split; (exact R || lia).
    + intros _. replace (k + Z.succ (Z.of_nat (List.length rest)))
        with (k + 1 + Z.of_nat (List.length rest)) by lia.
      apply IH; lia.
Qed.

(** X15: in data_collector.cpp and phase4.cpp the number in the FPS column
    is the number of passes the vision loop made since the monitor's
    previous pass, and the counter is back at zero afterwards. *)
Theorem frames_counted
    (readings : list (Z * Z)) (last_count : Z) (m : DataCollector.Mem)
    (readings4 : list Z) (p : Phase4.Mem)
    (Hrun : DataCollector.system_running m = true)
    (Hrun4 : Phase4.system_running p = true)
    (Hlen : Z.of_nat (List.length readings) <= Long.max_value)
    (Hlen4 : Z.of_nat (List.length readings4) <= Long.max_value) :
  let since := Prog.memory (DataCollector.vision_loop readings last_count)
                 (Prog.memory DataCollector.monitor_iteration m) in
  let since4 := Prog.memory (Phase4.task_vision readings4)
                  (Prog.memory Phase4.monitor_iteration p) in
  DataCollector.v_fps (Prog.result DataCollector.monitor_iteration since)
  = Z.of_nat (List.length readings) /\
  DataCollector.vision_frames
    (DataCollector.global_stats
       (Prog.memory DataCollector.monitor_iteration since)) = 0 /\
  Phase4.vision_frames (Prog.result Phase4.monitor_iteration since4)
  = Z.of_nat (List.length readings4) /\
  Phase4.vision_frames
    (Phase4.global_stats (Prog.memory Phase4.monitor_iteration since4)) = 0.
Proof.
  intros since since4.
  assert (Hm : Long.min_value <= 0) by (vm_compute; discriminate).
  pose proof (hoare_run _ _ _ (Prog.memory DataCollector.monitor_iteration m)
                (dc_vision_loop_framed 0 readings 0 last_count
                   ltac:(lia) ltac:(lia))
                ltac:(split; [exact Hrun | reflexivity])) as [_ H1].
  pose proof (hoare_run _ _ _ (Prog.memory Phase4.monitor_iteration p)
                (phase4_task_vision_framed 0 readings4 0 ltac:(lia) ltac:(lia))
                ltac:(split; [exact Hrun4 | reflexivity])) as [_ H2].
  cbn [Z.add] in H1, H2.
  split; [exact H1|]. split; [reflexivity|]. split; [exact H2 | reflexivity].
Qed.

(** Three passes of the vision loop of data_collector.cpp, two of the one
    of phase4.cpp. *)
Lemma frames_counted_witness :
  DataCollector.system_running DataCollector.Mem_init = true /\
  DataCollector.v_fps
    (Prog.result DataCollector.monitor_iteration
       (Prog.memory (DataCollector.vision_loop [(0, 0); (1, 1); (1, 2)] 0)
          (Prog.memory DataCollector.monitor_iteration DataCollector.Mem_init)))
  = Z.of_nat (List.length [(0, 0); (1, 1); (1, 2)]).
Proof.
  split; [reflexivity|].
  exact (proj1 (frames_counted [(0, 0); (1, 1); (1, 2)] 0
                  DataCollector.Mem_init [5; 6] phase4_memory
                  eq_refl eq_refl
                  ltac:(vm_compute; discriminate)
                  ltac:(vm_compute; discriminate))).
Defined.

(** ** The receive buffer *)

Lemma substring_all s : forall n,
  (String.length s <= n)%nat -> substring 0 n s = s.
Proof.
  induction s as [|c s IH]; intros n H; destruct n as [|n]; cbn in *;
    try reflexivity; try lia.
  rewrite IH by lia. reflexivity.
Qed.

(** X16: udp_test_receiver.cpp asks [recvfrom] for one byte less than the
    buffer holds, so the terminating NUL is always written inside the
    buffer: the token is read from the first 1023 bytes of the datagram,
    and it is the token the command handler acts on.  data_collector.cpp
    asks for all 1024 bytes: for a datagram of 1024 bytes or more the NUL is
    written one past the end of the buffer and there is no defined token;
    shorter datagrams are read as in the other program. *)
Theorem buffer_terminator
    (datagram : string) (preempts : Z) (m : Udp.Mem) :
  read_token Udp.recv_capacity datagram
  = Some (c_string (if (String.length datagram <=? 1023)%nat then datagram
                    else substring 0 1023 datagram)) /\
  Some (Udp.shared_state
          (Prog.memory
             (Udp.net_iteration (Datagram (substring 0 1023 datagram))
                preempts) m))
  = option_map (fun token => command_effect token (Udp.shared_state m))
      (read_token Udp.recv_capacity datagram) /\
  read_token DataCollector.recv_capacity datagram
  = (if (String.length datagram <? 1024)%nat
     then Some (c_string datagram) else None).
Proof.
  assert (Hudp : read_token Udp.recv_capacity datagram
                 = Some (c_string (substring 0 1023 datagram))).
  { unfold read_token, Udp.recv_capacity, buffer_size. cbv zeta.
    replace (Z.min _ _ <? 1024) with true by (symmetry; apply Z.ltb_lt; lia).
    destruct (Nat.le_gt_cases (String.length datagram) 1023) as [E|E].
    - rewrite Z.min_l by lia.
      rewrite Nat2Z.id, !substring_all by lia. reflexivity.
    - rewrite Z.min_r by lia. reflexivity. }
  split; [|split].
  - rewrite Hudp. destruct (String.length datagram <=? 1023)%nat eqn:E;
      [|reflexivity].
    apply Nat.leb_le in E. now rewrite substring_all by lia.
  - rewrite Hudp. cbn [option_map]. now rewrite net_iteration_token.
  - unfold read_token, DataCollector.recv_capacity, buffer_size. cbv zeta.
    destruct (String.length datagram <? 1024)%nat eqn:E.
    + apply Nat.ltb_lt in E. rewrite Z.min_l by lia.
      replace (_ <? 1024) with true by (symmetry; apply Z.ltb_lt; lia).
      rewrite Nat2Z.id, substring_all by lia. reflexivity.
    + apply Nat.ltb_ge in E. rewrite Z.min_r by lia. reflexivity.
Qed.
